(** * Signal evaluation pipeline and confirmation state machine of the trade bot

    Shallow embedding of [V.0.0.1/netlify/functions/trade-bot.js] (the Binance
    variant): indicator snapshot, trend and momentum classification, direction
    candidate, confidence, liquidation adjustment, ATR target planning, signal
    identifiers, and the PREVIEW / CONFIRMED / INVALIDATED lifecycle over the
    Redis store.  The sibling variants are embedded where they differ:
    [CoinApiJs] (the CoinAPI [netlify/functions/trade-bot.js]), [CoinGeckoMjs]
    ([V.0.0.1/netlify/functions/trade-bot.mjs]) and [CoinApiMjs] (the
    CoinAPI/CoinGecko [netlify/functions/trade-bot.mjs]).

    Numbers.  JavaScript numbers are modelled by exact numbers: wall-clock
    instants, confidence values and momentum scores are integers ([Z]);
    prices, indicator values and rates are rationals ([Q]).  A value that is
    [null], [undefined] or not finite in the source is an [option].

    Effects.  The store is threaded explicitly.  An operation reads the clock
    once: all its [nowMs()] calls see the same instant [now].  The writes
    grouped under [Promise.all] go to distinct keys and are applied in
    sequence.  Transport failures (a rejected HTTP or Redis call) are outside
    the model, except where a function throws by itself. *)

From Stdlib Require Import ZArith QArith Qabs Qround Lqa Lia List Ascii String.
From stdpp Require Import base gmap strings pretty.
Import ListNotations.

Local Open Scope Z_scope.

(** ** Comparisons on rationals, as booleans *)

Definition Qltb (a b : Q) : bool := negb (Qle_bool b a).
Definition Qgeb (a b : Q) : bool := Qle_bool b a.
Definition Qgtb (a b : Q) : bool := Qltb b a.
Definition Qmax (a b : Q) : Q := if Qle_bool a b then b else a.
Definition Qmin (a b : Q) : Q := if Qle_bool a b then a else b.
Definition Qtruthy (a : Q) : bool := negb (Qeq_bool a 0).

(** ** Enumerations carried as string tags in the source *)

Inductive Dir := LONG | SHORT | LONG_CANDIDATE | SHORT_CANDIDATE | NO_TRADE | NONE.
Inductive Trend := UP | DOWN | SIDE.
Inductive Strength := WEAK | MED | STRONG.
Inductive BBWidth := low | mid | high.
Inductive Mode := PREVIEW | CONFIRMED | INVALIDATED.

Global Instance Dir_eq_dec : EqDecision Dir.
Proof. solve_decision. Defined.
Global Instance Trend_eq_dec : EqDecision Trend.
Proof. solve_decision. Defined.
Global Instance Strength_eq_dec : EqDecision Strength.
Proof. solve_decision. Defined.
Global Instance BBWidth_eq_dec : EqDecision BBWidth.
Proof. solve_decision. Defined.
Global Instance Mode_eq_dec : EqDecision Mode.
Proof. solve_decision. Defined.

Definition Dir_str (d : Dir) : string :=
  match d with
  | LONG => "LONG" | SHORT => "SHORT"
  | LONG_CANDIDATE => "LONG_CANDIDATE" | SHORT_CANDIDATE => "SHORT_CANDIDATE"
  | NO_TRADE => "NO_TRADE" | NONE => "NONE"
  end.

Definition Trend_str (t : Trend) : string :=
  match t with UP => "UP" | DOWN => "DOWN" | SIDE => "SIDE" end.

Definition Strength_str (s : Strength) : string :=
  match s with WEAK => "WEAK" | MED => "MED" | STRONG => "STRONG" end.

(** ** CONFIG *)

Module CONFIG.
Definition MIN_CONF_SHOW : Z := 60.
Definition MIN_CONF_CONFIRMED : Z := 60.
Definition COOLDOWN_CONFIRMED_MIN : Z := 30.
Definition COOLDOWN_INVALIDATED_MIN : Z := 15.
Definition ATR_PERIOD : Z := 14.
Definition SL_ATR_MULT_LOW : Q := 2.
Definition SL_ATR_MULT_HIGH : Q := 3.
Definition RR_BASE : Q := 3 # 2.
Definition RR_HIGH : Q := 2.
Definition MIN_SL_BPS : Q := 10.
Definition MIN_TP_BPS : Q := 15.
Definition LIQ_THR_HIGH : Q := 8.
Definition LIQ_THR_MED : Q := 6.
Definition LIQ_THR_LOW : Q := 4.
Definition LIQ_PENALTY_HIGH : Z := 10.
Definition LIQ_PENALTY_MED : Z := 7.
Definition LIQ_PENALTY_LOW : Z := 4.
Definition LIQ_BONUS_ALIGN : Z := 5.
Definition FUNDING_WARN_MINUTES : Z := 30.
Definition FUNDING_RATE_ABS_WARN : Q := 2 # 10000.
Definition TTL_COOLDOWN_SEC : Z := 6 * 3600.
Definition TTL_PENDING_SEC : Z := 2 * 3600.
Definition TTL_LASTSIG_SEC : Z := 6 * 3600.
Definition DEDUPE_TTL_SECONDS : Z := 120.
Definition DEDUPE_SCOPE_SECONDS : Z := 120.
Definition KLINE_LIMIT : Z := 200.
Definition TREND_UP_PCT : Q := 2.
Definition TREND_DN_PCT : Q := -2.
End CONFIG.

(** ** Small helpers *)

(** [Math.floor(ms / b) * b] with [b = bucketSec * 1000]. *)
Definition floorTimeBucket (ms bucketSec : Z) : Z :=
  let b := bucketSec * 1000 in (ms / b) * b.

Definition clamp (x a b : Z) : Z := Z.max a (Z.min b x).

(** [Math.floor((tsMs - nowMs()) / 60000)]; the clock reading is an argument. *)
Definition minutesTo (now tsMs : Z) : Z := (tsMs - now) / 60000.

Definition bpsToDist (price bps : Q) : Q := (price * (bps / 10000))%Q.

(** ** Indicator snapshot *)

Record MACDOutput := { MACD : option Q; signal : option Q; histogram : option Q }.
Record BBOutput := { upper : Q; middle : Q; lower : Q }.

Record Indicators := {
  rsi : option Q;
  macd : option MACDOutput;
  bb : option BBOutput;
  bbWidthClass : BBWidth;
  bbPos : Z;
  atr : option Q;
  volumeRatio : Q;
  lastClose : Q;
  lastCandleCloseTime : Z
}.

Record Candles := {
  c_open : list Q; c_high : list Q; c_low : list Q; c_close : list Q;
  c_volume : list Q; c_closeTime : list Z
}.

(** The [technicalindicators] package is an external library: its four
    calculators are an interface of the development. *)
Class TechnicalIndicators := {
  RSI_calculate : list Q -> Z -> list Q;
  MACD_calculate : list Q -> list MACDOutput;
  BollingerBands_calculate : list Q -> list BBOutput;
  ATR_calculate : list Q -> list Q -> list Q -> Z -> list Q
}.

Definition Qsum (l : list Q) : Q := fold_left Qplus l 0%Q.

(** [arr.length ? arr[arr.length - 1] : null] *)
Definition lastOrNull {A} (l : list A) : option A := List.last (List.map Some l) None.

Definition computeIndicatorsFromCandles `{TechnicalIndicators} (c : Candles) : Indicators :=
  let closes := c_close c in
  let highs := c_high c in
  let lows := c_low c in
  let vols := c_volume c in
  let rsi := lastOrNull (RSI_calculate closes 14) in
  let macd := lastOrNull (MACD_calculate closes) in
  let bb := lastOrNull (BollingerBands_calculate closes) in
  let atr := lastOrNull (ATR_calculate highs lows closes CONFIG.ATR_PERIOD) in
  let lookback := 20%nat in
  let lastVol := List.last vols 0%Q in
  let avgVol :=
    if (lookback <=? length vols)%nat
    then (Qsum (skipn (length vols - lookback) vols) / inject_Z (Z.of_nat lookback))%Q
    else (Qsum vols / inject_Z (Z.max 1 (Z.of_nat (length vols))))%Q in
  let volumeRatio := if Qgtb avgVol 0 then (lastVol / avgVol)%Q else 1%Q in
  let lastClose := List.last closes 0%Q in
  let '(bbWidthClass, bbPos) :=
    match bb with
    | Some b =>
        if Qtruthy (middle b) && Qtruthy (upper b) && Qtruthy (lower b) then
          let widthPct := ((upper b - lower b) / middle b)%Q in
          (if Qgeb widthPct (4 # 100) then high
           else if Qle_bool widthPct (2 # 100) then low else mid,
           if Qgtb lastClose (middle b) then 1
           else if Qltb lastClose (middle b) then -1 else 0)
        else (mid, 0)
    | None => (mid, 0)
    end in
  {| rsi := rsi; macd := macd; bb := bb; bbWidthClass := bbWidthClass; bbPos := bbPos;
     atr := atr; volumeRatio := volumeRatio; lastClose := lastClose;
     lastCandleCloseTime := List.last (c_closeTime c) 0 |}.

(** ** Market classifier, direction selector, confidence scorer *)

Record Ticker24 := {
  priceChangePercent : Q; highPrice : Q; lowPrice : Q; lastPrice : Q
}.

(** [ind?.macd?.histogram] *)
Definition macdHistogram (ind : Indicators) : option Q :=
  match macd ind with Some m => histogram m | None => None end.

Definition classifyTrend (ticker24 : Ticker24) (ind : Indicators) : Trend :=
  let chg := priceChangePercent ticker24 in
  let base :=
    if Qgtb chg CONFIG.TREND_UP_PCT then UP
    else if Qltb chg CONFIG.TREND_DN_PCT then DOWN else SIDE in
  let score := 0 in
  let score := if decide (base = UP) then score + 2 else score in
  let score := if decide (base = DOWN) then score - 2 else score in
  let score :=
    match macdHistogram ind with
    | Some h =>
        let score := if Qgtb h 0 then score + 1 else score in
        if Qltb h 0 then score - 1 else score
    | None => score
    end in
  let score := score + bbPos ind in
  if 2 <=? score then UP else if score <=? -2 then DOWN else SIDE.

Record Momentum := { score : Z; strength : Strength }.

Definition computeMomentum (ind : Indicators) : Momentum :=
  let vr := volumeRatio ind in
  let bbw := bbWidthClass ind in
  let score := 0 in
  let score :=
    match rsi ind with
    | Some rsi =>
        if Qgeb rsi 60 then score + 2
        else if Qgeb rsi 52 then score + 1
        else if Qle_bool rsi 40 then score - 2
        else if Qle_bool rsi 48 then score - 1 else score
    | None => score
    end in
  let score :=
    if Qgeb vr (15 # 10) then score + 2
    else if Qgeb vr (11 # 10) then score + 1
    else if Qle_bool vr (7 # 10) then score - 1 else score in
  let score := if decide (bbw = high) then score + 1 else score in
  let score := if decide (bbw = low) then score - 1 else score in
  let strength :=
    if 4 <=? Z.abs score then STRONG
    else if 2 <=? Z.abs score then MED else WEAK in
  {| score := score; strength := strength |}.

Record Candidate := { dir : Dir; reason : string }.

Definition directionCandidate (trend : Trend) (ind : Indicators) : Candidate :=
  let macdH := macdHistogram ind in
  match trend with
  | UP =>
      match rsi ind with
      | Some r =>
          if Qgeb r 70 then {| dir := SHORT_CANDIDATE; reason := "RSI_OVERBOUGHT_IN_UPTREND" |}
          else {| dir := LONG; reason := "UPTREND_RSI_OK" |}
      | None => {| dir := LONG; reason := "UPTREND_RSI_OK" |}
      end
  | DOWN =>
      match rsi ind with
      | Some r =>
          if Qle_bool r 30 then {| dir := LONG_CANDIDATE; reason := "RSI_OVERSOLD_IN_DOWNTREND" |}
          else {| dir := SHORT; reason := "DOWNTREND_RSI_OK" |}
      | None => {| dir := SHORT; reason := "DOWNTREND_RSI_OK" |}
      end
  | SIDE =>
      match rsi ind, macdH with
      | Some r, Some h =>
          if Qgtb r 55 && Qgtb h 0 then {| dir := LONG; reason := "SIDE_BULL_BIAS" |}
          else if Qltb r 45 && Qltb h 0 then {| dir := SHORT; reason := "SIDE_BEAR_BIAS" |}
          else {| dir := NO_TRADE; reason := "SIDE_NO_EDGE" |}
      | _, _ => {| dir := NO_TRADE; reason := "SIDE_NO_EDGE" |}
      end
  end.

(** The source reads [ticker24.lastPrice || ticker24.last || ...]; the 24h
    ticker only has [lastPrice], and a zero price fails [last > 0] either way. *)
Definition baseConfidence (trend : Trend) (momentum : Momentum) (ticker24 : Ticker24) : Z :=
  let high := highPrice ticker24 in
  let low := lowPrice ticker24 in
  let last := lastPrice ticker24 in
  let vol := if Qgtb last 0 then (((high - low) / last) * 100)%Q else 0%Q in
  let conf := 50 in
  let aligned :=
    (bool_decide (trend = UP) && (0 <? score momentum))
    || (bool_decide (trend = DOWN) && (score momentum <? 0))
    || (bool_decide (trend = SIDE) && (2 <=? Z.abs (score momentum))) in
  let conf := conf + (if aligned then 10 else -8) in
  let conf :=
    if decide (strength momentum = STRONG) then conf + 15
    else if decide (strength momentum = MED) then conf + 8 else conf - 5 in
  let conf :=
    if Qgtb vol 5 then conf + 8 else if Qgtb vol 2 then conf + 4 else conf - 3 in
  clamp conf 0 100.

(** ** Risk adjuster *)

Record Liq := { intensityScore : Q; dirBias : Z; notionalSum : Q }.

Record LiqAdj := { adj_confidence : Z; veto : bool; adj_warnings : list string }.

Definition applyLiquidationAdjustments (direction : Dir) (confidence : Z) (liq : Liq) : LiqAdj :=
  let warnings : list string := [] in
  let veto := false in
  let conf := confidence in
  let veto :=
    if bool_decide (direction = LONG) && (dirBias liq =? 1)
       && Qgeb (intensityScore liq) CONFIG.LIQ_THR_HIGH then true else veto in
  let veto :=
    if bool_decide (direction = SHORT) && (dirBias liq =? -1)
       && Qgeb (intensityScore liq) CONFIG.LIQ_THR_HIGH then true else veto in
  let '(conf, warnings) :=
    if Qgeb (intensityScore liq) CONFIG.LIQ_THR_HIGH
    then (conf - CONFIG.LIQ_PENALTY_HIGH, warnings ++ ["LIQ_INTENSITY_HIGH"])
    else if Qgeb (intensityScore liq) CONFIG.LIQ_THR_MED
    then (conf - CONFIG.LIQ_PENALTY_MED, warnings ++ ["LIQ_INTENSITY_MED"])
    else if Qgeb (intensityScore liq) CONFIG.LIQ_THR_LOW
    then (conf - CONFIG.LIQ_PENALTY_LOW, warnings ++ ["LIQ_INTENSITY_LOW"])
    else (conf, warnings) in
  let aligns :=
    (bool_decide (direction = SHORT) && (dirBias liq =? 1))
    || (bool_decide (direction = LONG) && (dirBias liq =? -1)) in
  let '(conf, warnings) :=
    if aligns then (conf + CONFIG.LIQ_BONUS_ALIGN, warnings ++ ["LIQ_ALIGNS_WITH_SIGNAL"])
    else (conf, warnings) in
  {| adj_confidence := clamp conf 0 100; veto := veto; adj_warnings := warnings |}.

(** ** Target planner *)

Definition chooseSLMult (confidence : Z) (momentumStrength : Strength) (isReversal : bool)
    (liqIntensity : Q) (bbWidthClass : BBWidth) : Q :=
  let mult := CONFIG.SL_ATR_MULT_LOW in
  let mult := if isReversal then Qmax mult (25 # 10) else mult in
  let mult := if confidence <? 68 then Qmax mult (25 # 10) else mult in
  let mult := if Qgeb liqIntensity CONFIG.LIQ_THR_MED then Qmax mult (25 # 10) else mult in
  let mult := if decide (bbWidthClass = high) then Qmax mult (25 # 10) else mult in
  Qmin CONFIG.SL_ATR_MULT_HIGH mult.

Definition chooseRR (confidence : Z) (momentumStrength : Strength) : Q :=
  if (75 <=? confidence) && bool_decide (momentumStrength = STRONG)
  then CONFIG.RR_HIGH else CONFIG.RR_BASE.

Record TpSl := {
  plan_slPrice : Q; plan_tpPrice : Q; plan_atr : Q; plan_slAtrMult : Q; plan_rr : Q
}.

(** The stop-loss and take-profit distances of [pickTpSlATR], floored at their
    minimum basis-point distance from the entry. *)
Definition slDistance (entry atr slMult : Q) : Q :=
  Qmax (slMult * atr) (bpsToDist entry CONFIG.MIN_SL_BPS).

Definition tpDistance (entry atr slMult rr : Q) : Q :=
  Qmax (rr * (slMult * atr)) (bpsToDist entry CONFIG.MIN_TP_BPS).

Definition pickTpSlATR (entry atr : Q) (direction : Dir) (confidence : Z)
    (momentumStrength : Strength) (isReversal : bool) (liqIntensity : Q)
    (bbWidthClass : BBWidth) : option TpSl :=
  if negb (Qgtb atr 0) then None else
  let slMult := chooseSLMult confidence momentumStrength isReversal liqIntensity bbWidthClass in
  let rr := chooseRR confidence momentumStrength in
  let slDist := slDistance entry atr slMult in
  let tpDist := tpDistance entry atr slMult rr in
  let '(sl, tp) :=
    if decide (direction = LONG) then ((entry - slDist)%Q, (entry + tpDist)%Q)
    else ((entry + slDist)%Q, (entry - tpDist)%Q) in
  Some {| plan_slPrice := sl; plan_tpPrice := tp; plan_atr := atr;
          plan_slAtrMult := slMult; plan_rr := rr |}.

(** ** Tick rounding *)

(** A tick-size string such as ["0.10"], seen through the two readings the
    source takes of it: [Number(tickSizeStr)] and [tickDecimals(tickSizeStr)],
    the count of fractional digits left once trailing zeros are dropped. *)
Record TickSize := { tickValue : Q; tickDecimals : Z }.

Inductive RoundMode := RoundUp | RoundDown | RoundNearest.

(** [Number(x.toFixed(dec))]: nearest multiple of [10^-dec], ties away from zero. *)
Definition toFixed (x : Q) (dec : Z) : Q :=
  let p := inject_Z (10 ^ dec) in
  if Qle_bool 0 x then (inject_Z (Qfloor (x * p + (1 # 2))) / p)%Q
  else (- (inject_Z (Qfloor ((- x) * p + (1 # 2))) / p))%Q.

(** The quotient [price / step] is exact here.  In the binary64 arithmetic of
    the source it can miss a whole number by more than [eps], and a price that
    lies on the tick grid then moves by one tick (1638.6 at a tick of 0.1
    rounds down to 1638.5).  No general statement below depends on the value
    this function returns: what is proved of a rounded stop or target comes
    from the clamps of [roundSLTP]. *)
Definition roundToTick (price : Q) (tick : TickSize) (mode : RoundMode) : Q :=
  let step := tickValue tick in
  if Qle_bool step 0 then price else
  let eps := (1 # 1000000000000)%Q in
  let raw := (price / step)%Q in
  let n :=
    match mode with
    | RoundUp => Qceiling (raw - eps)
    | RoundDown => Qfloor (raw + eps)
    | RoundNearest => Qfloor (raw + (1 # 2))
    end in
  toFixed (inject_Z n * step) (tickDecimals tick).

Record Rounded := { r_slPrice : Q; r_tpPrice : Q }.

Definition roundSLTP (entry sl tp : Q) (tick : TickSize) (direction : Dir) : Rounded :=
  if decide (direction = LONG) then
    let slR := roundToTick sl tick RoundDown in
    let tpR := roundToTick tp tick RoundUp in
    {| r_slPrice := Qmin slR (entry - tickValue tick);
       r_tpPrice := Qmax tpR (entry + tickValue tick) |}
  else
    let slR := roundToTick sl tick RoundUp in
    let tpR := roundToTick tp tick RoundDown in
    {| r_slPrice := Qmax slR (entry + tickValue tick);
       r_tpPrice := Qmin tpR (entry - tickValue tick) |}.

(** ** Signal identifiers *)

Definition Z_str (n : Z) : string := pretty n.

Definition makePreviewId (symbol : string) (direction : Dir) (bucketMs : Z) : string :=
  "PREVIEW|" +:+ symbol +:+ "|" +:+ Dir_str direction +:+ "|" +:+ Z_str bucketMs.

Definition makeConfirmedId (symbol : string) (direction : Dir) (candleCloseTimeMs : Z) : string :=
  "CONFIRMED|" +:+ symbol +:+ "|" +:+ Dir_str direction +:+ "|" +:+ Z_str candleCloseTimeMs.

(** The id [invalidate] builds inline. *)
Definition makeInvalidId (symbol : string) (bucket : Z) (reason : string) : string :=
  "INVALID|" +:+ symbol +:+ "|" +:+ Z_str bucket +:+ "|" +:+ reason.

(** ** State store

    The Upstash Redis instance: one key space of structured values, each
    written with a time to live.  A key whose expiry instant has passed reads
    as absent. *)

Record Snapshot := {
  momentumScore : option Z;
  snap_bbWidthClass : BBWidth;
  snap_atr : Q;
  snap_lastCandleCloseTime : Z
}.

Record Pending := {
  signal_id : string;
  p_direction : Dir;
  created_ts : Z;
  confirm_requested : bool;
  snapshot_metrics : option Snapshot
}.

Record LastSignal := { ls_ts : Z; ls_id : string; ls_mode : Mode; ls_reason : option string }.

Record LiqRaw := {
  raw_intensityScore : option Q; raw_dirBias : option Z; raw_notionalSum : option Q
}.

Inductive RedisValue :=
  | VCooldown (cooldown_until_ts : Z)
  | VPending (p : Pending)
  | VLastSig (l : LastSignal)
  | VMarker (n : Z)
  | VLiq (x : LiqRaw).

Record Entry := { entry_value : RedisValue; entry_expireAt : option Z }.

Abbreviation Redis := (gmap string Entry).

Definition live (now : Z) (e : Entry) : bool :=
  match entry_expireAt e with Some t => now <? t | None => true end.

Definition redis_get (r : Redis) (now : Z) (k : string) : option RedisValue :=
  match r !! k with
  | Some e => if live now e then Some (entry_value e) else None
  | None => None
  end.

(** [redis.set(k, v, { ex })] *)
Definition redis_set (r : Redis) (now : Z) (k : string) (v : RedisValue) (ex : Z) : Redis :=
  <[k := {| entry_value := v; entry_expireAt := Some (now + ex * 1000) |}]> r.

(** [redis.set(k, v, { nx: true, ex })]: the boolean is [ok === "OK"]. *)
Definition redis_set_nx (r : Redis) (now : Z) (k : string) (v : RedisValue) (ex : Z)
    : bool * Redis :=
  match redis_get r now k with
  | Some _ => (false, r)
  | None => (true, redis_set r now k v ex)
  end.

Definition redis_del (r : Redis) (k : string) : Redis := delete k r.

Definition kCooldown (sym : string) : string := "sig:cooldown:" +:+ sym.
Definition kPending (sym : string) : string := "sig:pending:" +:+ sym.
Definition kLastSig (sym : string) : string := "sig:lastsig:" +:+ sym.
Definition kDedupe (id : string) : string := "sig:dedupe:" +:+ id.
Definition kLiq (sym : string) : string := "liq:" +:+ sym.

Record State := {
  cooldown_until_ts : Z;
  pending_confirm : option Pending;
  last_signal : option LastSignal
}.

(** The three keys of a symbol hold values of one shape each (only this
    program writes them); a value of another shape reads as absent. *)
Definition getState (now : Z) (symbol : string) (r : Redis) : State :=
  {| cooldown_until_ts :=
       match redis_get r now (kCooldown symbol) with Some (VCooldown t) => t | _ => 0 end;
     pending_confirm :=
       match redis_get r now (kPending symbol) with Some (VPending p) => Some p | _ => None end;
     last_signal :=
       match redis_get r now (kLastSig symbol) with Some (VLastSig l) => Some l | _ => None end |}.

Definition saveCooldown (now : Z) (symbol : string) (cooldownUntilMs : Z) (r : Redis) : Redis :=
  redis_set r now (kCooldown symbol) (VCooldown cooldownUntilMs) CONFIG.TTL_COOLDOWN_SEC.

Definition savePending (now : Z) (symbol : string) (pendingObj : Pending) (r : Redis) : Redis :=
  redis_set r now (kPending symbol) (VPending pendingObj) CONFIG.TTL_PENDING_SEC.

Definition clearPending (symbol : string) (r : Redis) : Redis := redis_del r (kPending symbol).

Definition saveLastSignal (now : Z) (symbol : string) (obj : LastSignal) (r : Redis) : Redis :=
  redis_set r now (kLastSig symbol) (VLastSig obj) CONFIG.TTL_LASTSIG_SEC.

Definition tryDedupeOrDrop (now : Z) (signalId : string) (r : Redis) : bool * Redis :=
  redis_set_nx r now (kDedupe signalId) (VMarker 1) CONFIG.DEDUPE_TTL_SECONDS.

Definition getLiquidationFromRedis (now : Z) (symbol : string) (r : Redis) : Liq :=
  match redis_get r now (kLiq symbol) with
  | Some (VLiq x) =>
      {| intensityScore := default 0%Q (raw_intensityScore x);
         dirBias := default 0 (raw_dirBias x);
         notionalSum := default 0%Q (raw_notionalSum x) |}
  | _ => {| intensityScore := 0; dirBias := 0; notionalSum := 0 |}
  end.

(** ** Signals *)

Record Meta := { meta_atr : Q; meta_slAtrMult : Q; meta_rr : Q; meta_tickSize : TickSize }.

Record Signal := {
  sig_id : string;
  symbol : string;
  mode : Mode;
  direction : Dir;
  confidence : Z;
  entryRefPrice : option Q;
  tpPrice : option Q;
  slPrice : option Q;
  meta : option Meta;
  reasons : list string;
  warnings : list string;
  created : Z;
  confirmed : option Z
}.

(** ** Market data handed to an evaluation *)

Record Premium := { markPrice : Q; nextFundingTime : option Z; lastFundingRate : Q }.

Record KlineRow := {
  k_open : Q; k_high : Q; k_low : Q; k_close : Q; k_volume : Q; k_closeTime : Z
}.

Record Market := {
  tickerMap : gmap string Ticker24;
  premiumMap : gmap string Premium;
  fetchKlines1h : string -> Z -> list KlineRow
}.

Definition parseCandleRows (rows : list KlineRow) : Candles :=
  {| c_open := List.map k_open rows; c_high := List.map k_high rows;
     c_low := List.map k_low rows; c_close := List.map k_close rows;
     c_volume := List.map k_volume rows; c_closeTime := List.map k_closeTime rows |}.

(** ** Lifecycle orchestrator

    Every operation reads the clock once ([now]) and threads the store. *)

Definition invalidate (now : Z) (symbol : string) (reason : string) (r : Redis)
    : Signal * Redis :=
  let cooldownUntil := now + CONFIG.COOLDOWN_INVALIDATED_MIN * 60000 in
  let invId := makeInvalidId symbol (floorTimeBucket now 60) reason in
  let r := saveCooldown now symbol cooldownUntil r in
  let r := clearPending symbol r in
  let r := saveLastSignal now symbol
             {| ls_ts := now; ls_id := invId; ls_mode := INVALIDATED;
                ls_reason := Some reason |} r in
  ({| sig_id := invId; symbol := symbol; mode := INVALIDATED; direction := NONE;
      confidence := 0; entryRefPrice := None; tpPrice := None; slPrice := None;
      meta := None; reasons := [reason]; warnings := []; created := now;
      confirmed := None |}, r).

Definition evaluateIntrabarForSymbol `{TechnicalIndicators} (now : Z) (mk : Market)
    (symbol : string) (tickSize : TickSize) (r : Redis) : option Signal * Redis :=
  let st := getState now symbol r in
  if now <? cooldown_until_ts st then (None, r) else
  match tickerMap mk !! symbol, premiumMap mk !! symbol with
  | Some ticker24, Some prem =>
    let krows := fetchKlines1h mk symbol CONFIG.KLINE_LIMIT in
    let c := parseCandleRows krows in
    if Z.of_nat (length (c_close c)) <? CONFIG.ATR_PERIOD + 2 then (None, r) else
    let ind := computeIndicatorsFromCandles c in
    match rsi ind, macd ind, bb ind, atr ind with
    | Some _, Some _, Some _, Some ind_atr =>
      let trend := classifyTrend ticker24 ind in
      let momentum := computeMomentum ind in
      let cand := directionCandidate trend ind in
      if decide (dir cand = NO_TRADE) then (None, r) else
      let '(direction, isReversal) :=
        if decide (dir cand = LONG_CANDIDATE) then (LONG, true)
        else if decide (dir cand = SHORT_CANDIDATE) then (SHORT, true)
        else (dir cand, false) in
      let conf := baseConfidence trend momentum ticker24 in
      let liq := getLiquidationFromRedis now symbol r in
      let liqAdj := applyLiquidationAdjustments direction conf liq in
      let conf := adj_confidence liqAdj in
      if veto liqAdj then (None, r) else
      if conf <? CONFIG.MIN_CONF_SHOW then (None, r) else
      let entry := markPrice prem in
      if negb (Qgtb entry 0) then (None, r) else
      let warnings := adj_warnings liqAdj in
      let warnings :=
        match nextFundingTime prem with
        | Some nextFundingMs =>
            if (minutesTo now nextFundingMs <=? CONFIG.FUNDING_WARN_MINUTES)
               && Qgeb (Qabs (lastFundingRate prem)) CONFIG.FUNDING_RATE_ABS_WARN
            then warnings ++ ["FUNDING_SOON_HIGH_RATE"] else warnings
        | None => warnings
        end in
      match pickTpSlATR entry ind_atr direction conf (strength momentum) isReversal
              (intensityScore liq) (bbWidthClass ind) with
      | None => (None, r)
      | Some tpsl =>
        let rounded := roundSLTP entry (plan_slPrice tpsl) (plan_tpPrice tpsl) tickSize direction in
        let bucketMs := floorTimeBucket now CONFIG.DEDUPE_SCOPE_SECONDS in
        let sigId := makePreviewId symbol direction bucketMs in
        let '(deduped, r) := tryDedupeOrDrop now sigId r in
        if negb deduped then (None, r) else
        let signal :=
          {| sig_id := sigId; symbol := symbol; mode := PREVIEW; direction := direction;
             confidence := conf; entryRefPrice := Some entry;
             tpPrice := Some (r_tpPrice rounded); slPrice := Some (r_slPrice rounded);
             meta := Some {| meta_atr := plan_atr tpsl; meta_slAtrMult := plan_slAtrMult tpsl;
                             meta_rr := plan_rr tpsl; meta_tickSize := tickSize |};
             reasons := [reason cand; "TREND=" +:+ Trend_str trend;
                         "MOM=" +:+ Strength_str (strength momentum);
                         "ATR_TPSL"; "TICK_ROUNDED"];
             warnings := warnings; created := now; confirmed := None |} in
        let pendingObj :=
          {| signal_id := sigId; p_direction := direction; created_ts := now;
             confirm_requested := false;
             snapshot_metrics :=
               Some {| momentumScore := Some (score momentum);
                       snap_bbWidthClass := bbWidthClass ind; snap_atr := ind_atr;
                       snap_lastCandleCloseTime := lastCandleCloseTime ind |} |} in
        let r := savePending now symbol pendingObj r in
        let r := saveLastSignal now symbol
                   {| ls_ts := now; ls_id := sigId; ls_mode := PREVIEW; ls_reason := None |} r in
        (Some signal, r)
      end
    | _, _, _, _ => (None, r)
    end
  | _, _ => (None, r)
  end.

Record ConfirmResult := { ok : bool; cr_reason : option string }.

Definition userRequestConfirm (now : Z) (symbol : string) (r : Redis) : ConfirmResult * Redis :=
  let st := getState now symbol r in
  match pending_confirm st with
  | None => ({| ok := false; cr_reason := Some "NO_PENDING_PREVIEW" |}, r)
  | Some p =>
      let p := {| signal_id := signal_id p; p_direction := p_direction p;
                  created_ts := created_ts p; confirm_requested := true;
                  snapshot_metrics := snapshot_metrics p |} in
      ({| ok := true; cr_reason := None |}, savePending now symbol p r)
  end.

(** [p.snapshot_metrics?.momentumScore] *)
Definition snapshotMomentumScore (p : Pending) : option Z :=
  match snapshot_metrics p with Some s => momentumScore s | None => None end.

Definition confirmOnCloseForSymbol `{TechnicalIndicators} (now : Z) (mk : Market)
    (symbol : string) (tickSize : TickSize) (r : Redis) : option Signal * Redis :=
  let st := getState now symbol r in
  match pending_confirm st with
  | None => (None, r)
  | Some p =>
  if negb (confirm_requested p) then (None, r) else
  match tickerMap mk !! symbol, premiumMap mk !! symbol with
  | Some ticker24, Some prem =>
    let krows := fetchKlines1h mk symbol CONFIG.KLINE_LIMIT in
    let c := parseCandleRows krows in
    if Z.of_nat (length (c_close c)) <? CONFIG.ATR_PERIOD + 2
    then let '(s, r) := invalidate now symbol "CLOSE_ATR_UNAVAILABLE" r in (Some s, r) else
    let ind := computeIndicatorsFromCandles c in
    match rsi ind, macd ind, bb ind, atr ind with
    | Some ind_rsi, Some _, Some _, Some ind_atr =>
      let trend := classifyTrend ticker24 ind in
      let momentum := computeMomentum ind in
      let cand := directionCandidate trend ind in
      if decide (dir cand = NO_TRADE)
      then let '(s, r) := invalidate now symbol "CLOSE_NO_TRADE" r in (Some s, r) else
      let '(directionNow, isReversalNow) :=
        if decide (dir cand = LONG_CANDIDATE) then (LONG, true)
        else if decide (dir cand = SHORT_CANDIDATE) then (SHORT, true)
        else (dir cand, false) in
      if negb (bool_decide (directionNow = p_direction p))
      then let '(s, r) := invalidate now symbol "CLOSE_DIRECTION_CHANGED" r in (Some s, r) else
      let ok :=
        (bool_decide (directionNow = SHORT) && Qltb ind_rsi 70)
        || (bool_decide (directionNow = LONG) && Qgtb ind_rsi 30)
        || (score momentum <? default (score momentum) (snapshotMomentumScore p))
        || (default (score momentum) (snapshotMomentumScore p) <? score momentum) in
      if isReversalNow && negb ok
      then let '(s, r) := invalidate now symbol "CLOSE_REVERSAL_NOT_CONFIRMED" r in (Some s, r) else
      let conf := baseConfidence trend momentum ticker24 in
      let liq := getLiquidationFromRedis now symbol r in
      let liqAdj := applyLiquidationAdjustments directionNow conf liq in
      let conf := adj_confidence liqAdj in
      if veto liqAdj
      then let '(s, r) := invalidate now symbol "CLOSE_LIQ_VETO" r in (Some s, r) else
      if conf <? CONFIG.MIN_CONF_CONFIRMED
      then let '(s, r) := invalidate now symbol "CLOSE_CONFIDENCE_LOW" r in (Some s, r) else
      let entry := markPrice prem in
      if negb (Qgtb entry 0)
      then let '(s, r) := invalidate now symbol "CLOSE_BAD_ENTRY" r in (Some s, r) else
      let warnings := adj_warnings liqAdj in
      let warnings :=
        match nextFundingTime prem with
        | Some nextFundingMs =>
            if (minutesTo now nextFundingMs <=? CONFIG.FUNDING_WARN_MINUTES)
               && Qgeb (Qabs (lastFundingRate prem)) CONFIG.FUNDING_RATE_ABS_WARN
            then warnings ++ ["FUNDING_SOON_HIGH_RATE"] else warnings
        | None => warnings
        end in
      match pickTpSlATR entry ind_atr directionNow conf (strength momentum) isReversalNow
              (intensityScore liq) (bbWidthClass ind) with
      | None => let '(s, r) := invalidate now symbol "CLOSE_ATR_UNAVAILABLE" r in (Some s, r)
      | Some tpsl =>
        let rounded :=
          roundSLTP entry (plan_slPrice tpsl) (plan_tpPrice tpsl) tickSize directionNow in
        let candleCloseTime := lastCandleCloseTime ind in
        let sigId := makeConfirmedId symbol directionNow candleCloseTime in
        let '(deduped, r) := tryDedupeOrDrop now sigId r in
        if negb deduped then (None, r) else
        let signal :=
          {| sig_id := sigId; symbol := symbol; mode := CONFIRMED; direction := directionNow;
             confidence := conf; entryRefPrice := Some entry;
             tpPrice := Some (r_tpPrice rounded); slPrice := Some (r_slPrice rounded);
             meta := Some {| meta_atr := plan_atr tpsl; meta_slAtrMult := plan_slAtrMult tpsl;
                             meta_rr := plan_rr tpsl; meta_tickSize := tickSize |};
             reasons := [reason cand; "TREND=" +:+ Trend_str trend;
                         "MOM=" +:+ Strength_str (strength momentum);
                         "CONFIRMED_ON_CLOSE"; "ATR_TPSL"; "TICK_ROUNDED"];
             warnings := warnings; created := created_ts p; confirmed := Some now |} in
        let cooldownUntil := now + CONFIG.COOLDOWN_CONFIRMED_MIN * 60000 in
        let r := saveCooldown now symbol cooldownUntil r in
        let r := clearPending symbol r in
        let r := saveLastSignal now symbol
                   {| ls_ts := now; ls_id := sigId; ls_mode := CONFIRMED; ls_reason := None |} r in
        (Some signal, r)
      end
    | _, _, _, _ =>
      let '(s, r) := invalidate now symbol "CLOSE_ATR_UNAVAILABLE" r in (Some s, r)
    end
  | _, _ => (None, r)
  end
  end.

(** ** The CoinAPI variant of [netlify/functions/trade-bot.js]

    Its scoring, risk, planning, identifier and store helpers are the ones
    above; what differs is the market data it reads and its intrabar
    evaluation. *)

Module CoinApiJs.

Record OhlcvRow := {
  time_period_start : Z; time_period_end : Z;
  price_open : Q; price_high : Q; price_low : Q; price_close : Q; volume_traded : Q
}.

Record MarketData := { md_markPrice : Q; md_lastFundingRate : Q; md_nextFundingTime : Z }.

(** An [await] either yields a value or throws. *)
Inductive Outcome (A : Type) := Threw (message : string) | Returned (a : A).
Arguments Threw {A} message.
Arguments Returned {A} a.

(** [data.sort((a, b) => start(a) - start(b))]: stable, ascending. *)
Fixpoint insertByStart (x : OhlcvRow) (l : list OhlcvRow) : list OhlcvRow :=
  match l with
  | [] => [x]
  | y :: l' =>
      if time_period_start x <? time_period_start y then x :: l
      else y :: insertByStart x l'
  end.

Definition sortByStart (l : list OhlcvRow) : list OhlcvRow :=
  fold_left (fun acc x => insertByStart x acc) l [].

(** [history symbolId limit] is the body of the provider's reply. *)
Definition fetchKlines1h (history : string -> Z -> list OhlcvRow)
    (symbolId : string) (limit : Z) : Outcome (list OhlcvRow) :=
  let data := history symbolId limit in
  if bool_decide (length data = 0%nat)
  then Threw ("No hourly OHLCV data for " +:+ symbolId)
  else Returned (sortByStart data).

Definition parseCandleRows (data : list OhlcvRow) : Candles :=
  {| c_open := List.map price_open data; c_high := List.map price_high data;
     c_low := List.map price_low data; c_close := List.map price_close data;
     c_volume := List.map volume_traded data;
     c_closeTime := List.map time_period_end data |}.

(** The placeholder signals this variant returns instead of [null]. *)
Definition skipSignal (now : Z) (symbol : string) (direction : Dir) (confidence : Z)
    (entryRefPrice : Q) (reasons warnings : list string) : Signal :=
  {| sig_id := "SKIP|" +:+ symbol; symbol := symbol; mode := PREVIEW;
     direction := direction; confidence := confidence;
     entryRefPrice := Some entryRefPrice; tpPrice := None; slPrice := None;
     meta := None; reasons := reasons; warnings := warnings; created := now;
     confirmed := None |}.

(** The source carries the two gates as comments:
    [// Skip cooldown check temporarily for debugging] before the commented-out
    [getState]/[cooldown_until_ts] test, and
    [// Skip dedupe for debugging - always show signals] before the
    commented-out [tryDedupeOrDrop] call.  Store writes do not fail in this
    model, so the [catch] around the two saves is never entered. *)
Definition evaluateIntrabarForSymbol `{TechnicalIndicators} (now : Z)
    (history : string -> Z -> list OhlcvRow) (symbol symbolId : string)
    (tickSize : TickSize) (tickerDaily : option Ticker24) (marketData : MarketData)
    (r : Redis) : Outcome (option Signal) * Redis :=
  match tickerDaily with
  | None =>
      (Returned (Some (skipSignal now symbol NONE 0 0 ["NO_TICKER_DATA"] [])), r)
  | Some tickerDaily =>
  match fetchKlines1h history symbolId CONFIG.KLINE_LIMIT with
  | Threw e => (Threw e, r)
  | Returned krows =>
  let c := parseCandleRows krows in
  if Z.of_nat (length (c_close c)) <? CONFIG.ATR_PERIOD + 2
  then (Returned (Some (skipSignal now symbol NONE 0 (lastPrice tickerDaily)
          ["INSUFFICIENT_DATA_" +:+ Z_str (Z.of_nat (length (c_close c))) +:+ "_candles"]
          [])), r) else
  let ind := computeIndicatorsFromCandles c in
  match rsi ind, macd ind, bb ind, atr ind with
  | Some _, Some _, Some _, Some ind_atr =>
    let trend := classifyTrend tickerDaily ind in
    let momentum := computeMomentum ind in
    let cand := directionCandidate trend ind in
    let '(direction, isReversal) :=
      if decide (dir cand = LONG_CANDIDATE) then (LONG, true)
      else if decide (dir cand = SHORT_CANDIDATE) then (SHORT, true)
      else (dir cand, false) in
    if decide (dir cand = NO_TRADE)
    then (Returned (Some (skipSignal now symbol NONE 0 (lastPrice tickerDaily)
            [reason cand; "TREND=" +:+ Trend_str trend;
             "MOM=" +:+ Strength_str (strength momentum); "NO_TRADE_EDGE"] [])), r) else
    let conf := baseConfidence trend momentum tickerDaily in
    let liq := getLiquidationFromRedis now symbol r in
    let liqAdj := applyLiquidationAdjustments direction conf liq in
    let conf := adj_confidence liqAdj in
    let entry := lastPrice tickerDaily in
    if negb (Qgtb entry 0)
    then (Returned (Some (skipSignal now symbol direction conf 0 ["BAD_ENTRY_PRICE"] [])), r)
    else
    let warnings := adj_warnings liqAdj in
    let warnings :=
      if 0 <? md_nextFundingTime marketData then
        if (minutesTo now (md_nextFundingTime marketData) <=? CONFIG.FUNDING_WARN_MINUTES)
           && Qgeb (Qabs (md_lastFundingRate marketData)) CONFIG.FUNDING_RATE_ABS_WARN
        then warnings ++ ["FUNDING_SOON_HIGH_RATE"] else warnings
      else warnings in
    match pickTpSlATR entry ind_atr direction conf (strength momentum) isReversal
            (intensityScore liq) (bbWidthClass ind) with
    | None =>
        (Returned (Some (skipSignal now symbol direction conf entry
                           ["ATR_TPSL_FAILED"] warnings)), r)
    | Some tpsl =>
      let rounded := roundSLTP entry (plan_slPrice tpsl) (plan_tpPrice tpsl) tickSize direction in
      let bucketMs := floorTimeBucket now CONFIG.DEDUPE_SCOPE_SECONDS in
      let sigId := makePreviewId symbol direction bucketMs in
      let signal :=
        {| sig_id := sigId; symbol := symbol; mode := PREVIEW; direction := direction;
           confidence := conf; entryRefPrice := Some entry;
           tpPrice := Some (r_tpPrice rounded); slPrice := Some (r_slPrice rounded);
           meta := Some {| meta_atr := plan_atr tpsl; meta_slAtrMult := plan_slAtrMult tpsl;
                           meta_rr := plan_rr tpsl; meta_tickSize := tickSize |};
           reasons := [reason cand; "TREND=" +:+ Trend_str trend;
                       "MOM=" +:+ Strength_str (strength momentum);
                       "ATR_TPSL"; "TICK_ROUNDED"];
           warnings := warnings; created := now; confirmed := None |} in
      let pendingObj :=
        {| signal_id := sigId; p_direction := direction; created_ts := now;
           confirm_requested := false;
           snapshot_metrics :=
             Some {| momentumScore := Some (score momentum);
                     snap_bbWidthClass := bbWidthClass ind; snap_atr := ind_atr;
                     snap_lastCandleCloseTime := lastCandleCloseTime ind |} |} in
      let r := savePending now symbol pendingObj r in
      let r := saveLastSignal now symbol
                 {| ls_ts := now; ls_id := sigId; ls_mode := PREVIEW; ls_reason := None |} r in
      (Returned (Some signal), r)
    end
  | _, _, _, _ =>
      (Returned (Some (skipSignal now symbol NONE 0 (lastPrice tickerDaily)
                         ["INDICATORS_NULL"] [])), r)
  end
  end
  end.

End CoinApiJs.

(** ** A concrete market, used to run the definitions *)

Module Fixture.

(** The indicator library, reporting the given RSI, a MACD histogram of 0.5,
    Bollinger bands 96/100/104 and an ATR of 2 for the candles below. *)
Definition indicators (rsiValue : Q) : TechnicalIndicators :=
  {| RSI_calculate := fun _ _ => [rsiValue];
     MACD_calculate := fun _ =>
       [{| MACD := Some 1%Q; signal := Some (1 # 2)%Q; histogram := Some (1 # 2)%Q |}];
     BollingerBands_calculate := fun _ => [{| upper := 104; middle := 100; lower := 96 |}];
     ATR_calculate := fun _ _ _ _ => [2%Q] |}.

Definition row : KlineRow :=
  {| k_open := 100; k_high := 102; k_low := 99; k_close := 101; k_volume := 10;
     k_closeTime := 3600000 |}.

Definition ticker : Ticker24 :=
  {| priceChangePercent := 3; highPrice := 104; lowPrice := 98; lastPrice := 101 |}.

Definition premium (nextFunding : option Z) (rate : Q) : Premium :=
  {| markPrice := 101; nextFundingTime := nextFunding; lastFundingRate := rate |}.

Definition market (nextFunding : option Z) (rate : Q) : Market :=
  {| tickerMap := {[ "BTCUSDT" := ticker ]};
     premiumMap := {[ "BTCUSDT" := premium nextFunding rate ]};
     fetchKlines1h := fun _ _ => repeat row 60 |}.

Definition tick : TickSize := {| tickValue := 1 # 10; tickDecimals := 1 |}.

Definition ohlcv : CoinApiJs.OhlcvRow :=
  {| CoinApiJs.time_period_start := 0; CoinApiJs.time_period_end := 3600000;
     CoinApiJs.price_open := 100; CoinApiJs.price_high := 102; CoinApiJs.price_low := 99;
     CoinApiJs.price_close := 101; CoinApiJs.volume_traded := 10 |}.

Definition history : string -> Z -> list CoinApiJs.OhlcvRow := fun _ _ => repeat ohlcv 60.

Definition noFunding : CoinApiJs.MarketData :=
  {| CoinApiJs.md_markPrice := 0; CoinApiJs.md_lastFundingRate := 0;
     CoinApiJs.md_nextFundingTime := 0 |}.

End Fixture.

(** ** [V.0.0.1/netlify/functions/trade-bot.mjs]: the CoinGecko variant

    Same lifecycle; identifiers are SHA-1 digests and the reversal test at
    close compares the momentum score with [!==]. *)

Module CoinGeckoMjs.

Section Digest.
(** [crypto.createHash("sha1").update(s).digest("hex")] *)
Variable sha1 : string -> string.

Definition invalidate (now : Z) (symbol : string) (reason : string) (r : Redis)
    : Signal * Redis :=
  let cooldownUntil := now + CONFIG.COOLDOWN_INVALIDATED_MIN * 60000 in
  let invId := sha1 (makeInvalidId symbol (floorTimeBucket now 60) reason) in
  let r := saveCooldown now symbol cooldownUntil r in
  let r := clearPending symbol r in
  let r := saveLastSignal now symbol
             {| ls_ts := now; ls_id := invId; ls_mode := INVALIDATED;
                ls_reason := Some reason |} r in
  ({| sig_id := invId; symbol := symbol; mode := INVALIDATED; direction := NONE;
      confidence := 0; entryRefPrice := None; tpPrice := None; slPrice := None;
      meta := None; reasons := [reason]; warnings := []; created := now;
      confirmed := None |}, r).
End Digest.

(** The [ok] flag of the "simple reversal confirmation" in
    [confirmOnCloseForSymbol]. *)
Definition reversalOk (directionNow : Dir) (ind_rsi : Q) (momentum : Momentum)
    (p : Pending) : bool :=
  let prev := default (score momentum) (snapshotMomentumScore p) in
  (bool_decide (directionNow = SHORT) && Qltb ind_rsi 70)
  || (bool_decide (directionNow = LONG) && Qgtb ind_rsi 30)
  || negb (score momentum =? prev).

End CoinGeckoMjs.

(** ** [netlify/functions/trade-bot.mjs]: funding and market annotation

    This variant has no next-funding time; its handler annotates each returned
    signal from the CoinGecko derivatives rows. *)

Module CoinApiMjs.

Record DerivRow := {
  row_symbol : string; row_market : option string; funding_rate : option Q
}.

Record Meta := {
  m_atr : option Q; m_slAtrMult : option Q; m_rr : option Q;
  price_precision : option Z; coinapi_symbol_id : option string;
  coingecko_market : option string
}.

Record Sig := {
  g_id : string; g_symbol : string; g_mode : Mode; g_direction : Dir;
  g_confidence : Z; g_entryRefPrice : option Q; g_tpPrice : option Q;
  g_slPrice : option Q; g_meta : Meta; g_reasons : list string;
  g_warnings : list string; g_created : Z; g_confirmed : option Z
}.

Definition FUNDING_RATE_ABS_WARN : Q := 2 # 10000.

Definition upperChar (c : ascii) : ascii :=
  let n := nat_of_ascii c in
  if (97 <=? n)%nat && (n <=? 122)%nat then ascii_of_nat (n - 32) else c.

Definition lowerChar (c : ascii) : ascii :=
  let n := nat_of_ascii c in
  if (65 <=? n)%nat && (n <=? 90)%nat then ascii_of_nat (n + 32) else c.

Fixpoint mapChars (f : ascii -> ascii) (s : string) : string :=
  match s with
  | EmptyString => EmptyString
  | String c s' => String (f c) (mapChars f s')
  end.

(** [s.replace(c, "")]: drops the first occurrence only. *)
Fixpoint removeFirst (c : ascii) (s : string) : string :=
  match s with
  | EmptyString => EmptyString
  | String d s' => if Ascii.eqb c d then s' else String d (removeFirst c s')
  end.

Definition includes (needle hay : string) : bool :=
  match String.index 0 needle hay with Some _ => true | None => false end.

Definition normalizeSymbol (s : string) : string :=
  removeFirst "_" (removeFirst "-" (mapChars upperChar s)).

Definition pickDerivativeRowForSymbol (rows : list DerivRow) (symbol : string)
    (marketFilterLower : string) : option DerivRow :=
  let target := normalizeSymbol symbol in
  let matches :=
    List.filter (fun r => bool_decide (normalizeSymbol (row_symbol r) = target)) rows in
  match matches with
  | [] => None
  | first :: _ =>
      let preferred :=
        List.find (fun r => includes marketFilterLower
                              (mapChars lowerChar (default ""%string (row_market r))))
                  matches in
      Some (default first preferred)
  end.

Definition attachFundingAndMarket (geckoRows : list DerivRow) (marketFilter : string)
    (sig : Sig) : Sig :=
  match pickDerivativeRowForSymbol geckoRows (g_symbol sig) marketFilter with
  | None => sig
  | Some row =>
      let meta :=
        {| m_atr := m_atr (g_meta sig); m_slAtrMult := m_slAtrMult (g_meta sig);
           m_rr := m_rr (g_meta sig); price_precision := price_precision (g_meta sig);
           coinapi_symbol_id := coinapi_symbol_id (g_meta sig);
           coingecko_market :=
             match row_market row with
             | Some m => if bool_decide (m = ""%string) then None else Some m
             | None => None
             end |} in
      let warnings :=
        match funding_rate row with
        | Some funding =>
            if Qgeb (Qabs funding) FUNDING_RATE_ABS_WARN then
              if bool_decide ("FUNDING_RATE_HIGH"%string ∈ g_warnings sig)
              then g_warnings sig
              else g_warnings sig ++ ["FUNDING_RATE_HIGH"%string]
            else g_warnings sig
        | None => g_warnings sig
        end in
      {| g_id := g_id sig; g_symbol := g_symbol sig; g_mode := g_mode sig;
         g_direction := g_direction sig; g_confidence := g_confidence sig;
         g_entryRefPrice := g_entryRefPrice sig; g_tpPrice := g_tpPrice sig;
         g_slPrice := g_slPrice sig; g_meta := meta; g_reasons := g_reasons sig;
         g_warnings := warnings; g_created := g_created sig;
         g_confirmed := g_confirmed sig |}
  end.

End CoinApiMjs.

(** ** Vocabulary of the statements *)

(** A [_CANDIDATE] tag resolves to its base direction and marks a reversal. *)
Definition resolvedDirection (d : Dir) : Dir :=
  match d with LONG_CANDIDATE => LONG | SHORT_CANDIDATE => SHORT | d => d end.

Definition isReversalCandidate (d : Dir) : bool :=
  match d with LONG_CANDIDATE | SHORT_CANDIDATE => true | _ => false end.

(** The evaluation of [symbol] on market [mk] gets as far as proposing a
    candidate: market data is present, the candle series is long enough, every
    indicator is available and the candidate is not [NO_TRADE]. *)
Definition proposes `{TechnicalIndicators} (mk : Market) (symbol : string)
    (ticker24 : Ticker24) (prem : Premium) (ind : Indicators) (cand : Candidate) : Prop :=
  tickerMap mk !! symbol = Some ticker24 /\
  premiumMap mk !! symbol = Some prem /\
  CONFIG.ATR_PERIOD + 2
    <= Z.of_nat (length (c_close (parseCandleRows (fetchKlines1h mk symbol CONFIG.KLINE_LIMIT)))) /\
  ind = computeIndicatorsFromCandles (parseCandleRows (fetchKlines1h mk symbol CONFIG.KLINE_LIMIT)) /\
  is_Some (rsi ind) /\ is_Some (macd ind) /\ is_Some (bb ind) /\ is_Some (atr ind) /\
  cand = directionCandidate (classifyTrend ticker24 ind) ind /\
  dir cand <> NO_TRADE.

(** The same market with other funding data for [symbol]. *)
Definition withFunding (mk : Market) (symbol : string) (nextFunding : option Z) (rate : Q)
    : Market :=
  {| tickerMap := tickerMap mk;
     premiumMap :=
       alter (fun prem => {| markPrice := markPrice prem; nextFundingTime := nextFunding;
                             lastFundingRate := rate |}) symbol (premiumMap mk);
     fetchKlines1h := fetchKlines1h mk |}.

(** The condition under which the source pushes ["FUNDING_SOON_HIGH_RATE"]. *)
Definition fundingSoonHighRate (now : Z) (prem : Premium) : Prop :=
  exists t, nextFundingTime prem = Some t /\
            minutesTo now t <= 30 /\ (2 # 10000 <= Qabs (lastFundingRate prem))%Q.

(** The condition as the specification words it: the funding time is known
    and at most 30 minutes (1 800 000 ms) away. *)
Definition fundingWithin30Minutes (now : Z) (prem : Premium) : Prop :=
  exists t, nextFundingTime prem = Some t /\
            t - now <= 30 * 60000 /\ (2 # 10000 <= Qabs (lastFundingRate prem))%Q.

(** What a close-confirmation evaluation can do. *)
Inductive CloseOutcome (now : Z) (symbol : string) (r : Redis)
  : option Signal * Redis -> Prop :=
  | CloseNoop : CloseOutcome now symbol r (None, r)
  | CloseDuplicate p r' :
      pending_confirm (getState now symbol r) = Some p ->
      confirm_requested p = true ->
      CloseOutcome now symbol r (None, r')
  | CloseInvalidated p reason :
      pending_confirm (getState now symbol r) = Some p ->
      confirm_requested p = true ->
      CloseOutcome now symbol r
        (Some (fst (invalidate now symbol reason r)), snd (invalidate now symbol reason r))
  | CloseConfirmed p s r' :
      pending_confirm (getState now symbol r) = Some p ->
      confirm_requested p = true ->
      mode s = CONFIRMED ->
      direction s = p_direction p ->
      r' = saveLastSignal now symbol
             {| ls_ts := now; ls_id := sig_id s; ls_mode := CONFIRMED; ls_reason := None |}
             (clearPending symbol
                (saveCooldown now symbol (now + CONFIG.COOLDOWN_CONFIRMED_MIN * 60000)
                   (redis_set r now (kDedupe (sig_id s)) (VMarker 1)
                      CONFIG.DEDUPE_TTL_SECONDS))) ->
      CloseOutcome now symbol r (Some s, r').

(** ** Runs on the concrete market *)

Module Run.
Import Fixture.

(** An intrabar evaluation at 1 s on an empty store, a confirmation request
    at 2 s, a close confirmation at 3 s. *)
Definition previewed : Redis :=
  snd (evaluateIntrabarForSymbol (H := indicators 65) 1000 (market None 0) "BTCUSDT" tick ∅).

Definition requested : Redis := snd (userRequestConfirm 2000 "BTCUSDT" previewed).

Definition closed : Redis :=
  snd (confirmOnCloseForSymbol (H := indicators 65) 3000 (market None 0) "BTCUSDT" tick
         requested).

(** A store holding nothing but the 30-minute cooldown armed at 3 s. *)
Definition cooling : Redis := saveCooldown 3000 "BTCUSDT" (3000 + 30 * 60000) ∅.

(** The same with an overbought RSI: a SHORT reversal candidate. *)
Definition previewedReversal : Redis :=
  snd (evaluateIntrabarForSymbol (H := indicators 75) 1000 (market None 0) "BTCUSDT" tick ∅).

Definition requestedReversal : Redis :=
  snd (userRequestConfirm 2000 "BTCUSDT" previewedReversal).

Definition snapshot : Snapshot :=
  {| momentumScore := Some 3; snap_bbWidthClass := high; snap_atr := 2;
     snap_lastCandleCloseTime := 3600000 |}.

(** The pending confirmations held by [requested] and [requestedReversal]. *)
Definition pendingLong : Pending :=
  {| signal_id := "PREVIEW|BTCUSDT|LONG|0"; p_direction := LONG; created_ts := 1000;
     confirm_requested := true; snapshot_metrics := Some snapshot |}.

Definition pendingShort : Pending :=
  {| signal_id := "PREVIEW|BTCUSDT|SHORT|0"; p_direction := SHORT; created_ts := 1000;
     confirm_requested := true; snapshot_metrics := Some snapshot |}.

(** The indicator snapshot and candidate seen with an RSI of 65 and of 75. *)
Definition ind (rsiValue : Q) : Indicators :=
  computeIndicatorsFromCandles (H := indicators rsiValue) (parseCandleRows (repeat row 60)).

Definition cand (rsiValue : Q) : Candidate :=
  directionCandidate (classifyTrend ticker (ind rsiValue)) (ind rsiValue).

(** Liquidation feed: intensity 9, longs being liquidated. *)
Definition longsLiquidating : RedisValue :=
  VLiq {| raw_intensityScore := Some 9%Q; raw_dirBias := Some 1; raw_notionalSum := None |}.

(** The signals these runs return. *)
Definition previewLong (now : Z) (ws : list string) : Signal :=
  {| sig_id := "PREVIEW|BTCUSDT|LONG|0"; symbol := "BTCUSDT"; mode := PREVIEW;
     direction := LONG; confidence := 76; entryRefPrice := Some 101%Q;
     tpPrice := Some (1085 # 10)%Q; slPrice := Some (960 # 10)%Q;
     meta := Some {| meta_atr := 2; meta_slAtrMult := 25 # 10; meta_rr := 3 # 2;
                     meta_tickSize := tick |};
     reasons := ["UPTREND_RSI_OK"; "TREND=UP"; "MOM=MED"; "ATR_TPSL"; "TICK_ROUNDED"];
     warnings := ws; created := now; confirmed := None |}.

Definition confirmedLong : Signal :=
  {| sig_id := "CONFIRMED|BTCUSDT|LONG|3600000"; symbol := "BTCUSDT"; mode := CONFIRMED;
     direction := LONG; confidence := 76; entryRefPrice := Some 101%Q;
     tpPrice := Some (1085 # 10)%Q; slPrice := Some (960 # 10)%Q;
     meta := Some {| meta_atr := 2; meta_slAtrMult := 25 # 10; meta_rr := 3 # 2;
                     meta_tickSize := tick |};
     reasons := ["UPTREND_RSI_OK"; "TREND=UP"; "MOM=MED"; "CONFIRMED_ON_CLOSE";
                 "ATR_TPSL"; "TICK_ROUNDED"];
     warnings := []; created := 1000; confirmed := Some 3000 |}.

Definition invalidatedReversal : Signal :=
  {| sig_id := "INVALID|BTCUSDT|0|CLOSE_REVERSAL_NOT_CONFIRMED"; symbol := "BTCUSDT";
     mode := INVALIDATED; direction := NONE; confidence := 0; entryRefPrice := None;
     tpPrice := None; slPrice := None; meta := None;
     reasons := ["CLOSE_REVERSAL_NOT_CONFIRMED"]; warnings := []; created := 3000;
     confirmed := None |}.

(** The store after an intrabar evaluation of the CoinAPI variant at 1 s. *)
Definition coinapiPreviewed : Redis :=
  snd (CoinApiJs.evaluateIntrabarForSymbol (H := indicators 65) 1000 history "BTCUSDT"
         "BINANCEFTS_PERP_BTC_USDT" tick (Some ticker) noFunding ∅).

(** A CoinGecko derivatives row and a signal of the CoinAPI/CoinGecko variant. *)
Definition geckoRow : CoinApiMjs.DerivRow :=
  {| CoinApiMjs.row_symbol := "BTC-USDT"; CoinApiMjs.row_market := Some "Bybit (Futures)";
     CoinApiMjs.funding_rate := Some (1 # 1000)%Q |}.

Definition geckoPreview : CoinApiMjs.Sig :=
  {| CoinApiMjs.g_id := "PREVIEW|BTCUSDT|LONG|0"; CoinApiMjs.g_symbol := "BTCUSDT";
     CoinApiMjs.g_mode := PREVIEW; CoinApiMjs.g_direction := LONG;
     CoinApiMjs.g_confidence := 76; CoinApiMjs.g_entryRefPrice := Some 101%Q;
     CoinApiMjs.g_tpPrice := Some (1085 # 10)%Q; CoinApiMjs.g_slPrice := Some 96%Q;
     CoinApiMjs.g_meta :=
       {| CoinApiMjs.m_atr := Some 2%Q; CoinApiMjs.m_slAtrMult := Some (25 # 10)%Q;
          CoinApiMjs.m_rr := Some (3 # 2)%Q; CoinApiMjs.price_precision := Some 1;
          CoinApiMjs.coinapi_symbol_id := Some "BYBIT_PERP_BTC_USDT";
          CoinApiMjs.coingecko_market := None |};
     CoinApiMjs.g_reasons := ["UPTREND_RSI_OK"; "TREND=UP"; "MOM=MED"; "ATR_TPSL";
                              "COINAPI_OHLCV_ENTRY"];
     CoinApiMjs.g_warnings := []; CoinApiMjs.g_created := 1000;
     CoinApiMjs.g_confirmed := None |}.

Definition withLiquidation (r : Redis) : Redis :=
  <[ kLiq "BTCUSDT" := {| entry_value := longsLiquidating; entry_expireAt := None |} ]> r.

End Run.

From Stdlib Require Import Sorted.

(** ** Tick-size strings and the tick-size table of [trade-bot.js] *)

Module TickString.

(** The text before the first ["."], and the text after it when there is one. *)
Fixpoint beforeDot (s : string) : string :=
  match s with
  | EmptyString => EmptyString
  | String c s' => if Ascii.eqb c "." then EmptyString else String c (beforeDot s')
  end.

Fixpoint afterDot (s : string) : option string :=
  match s with
  | EmptyString => None
  | String c s' => if Ascii.eqb c "." then Some s' else afterDot s'
  end.

(** [s.replace(/0+$/, "")] *)
Fixpoint stripZeros (s : string) : string :=
  match s with
  | EmptyString => EmptyString
  | String c s' =>
      match stripZeros s' with
      | EmptyString => if Ascii.eqb c "0" then EmptyString else String c EmptyString
      | t => String c t
      end
  end.

(** [if (!s.includes(".")) return 0;
     return s.split(".")[1].replace(/0+$/, "").length] *)
Definition tickDecimals (tickSizeStr : string) : Z :=
  match afterDot tickSizeStr with
  | None => 0
  | Some rest => Z.of_nat (String.length (stripZeros (beforeDot rest)))
  end.

End TickString.

Record PriceFilter := { filterType : string; f_tickSize : option string }.

Record SymbolInfo := { s_symbol : option string; s_filters : list PriceFilter }.

(** A string operand of [&&]: [undefined] and [""] are falsy. *)
Definition truthyStr (o : option string) : option string :=
  match o with
  | Some s => if bool_decide (s = EmptyString) then None else Some s
  | None => None
  end.

(** One turn of the loop of [buildTickSizeMap]. *)
Definition addTickSize (map : gmap string string) (s : SymbolInfo) : gmap string string :=
  let priceFilter :=
    List.find (fun f => bool_decide (filterType f = "PRICE_FILTER"%string)) (s_filters s) in
  let tickSize := match priceFilter with Some f => f_tickSize f | None => None end in
  match truthyStr (s_symbol s), truthyStr tickSize with
  | Some sym, Some t => <[sym := t]> map
  | _, _ => map
  end.

Definition buildTickSizeMap (symbols : list SymbolInfo) : gmap string string :=
  fold_left addTickSize symbols ∅.

(** [watchlist.filter((s) => !tickSizeMap.get(s))] in [handler]. *)
Definition missingTickSizes (watchlist : list string) (tickSizeMap : gmap string string)
    : list string :=
  List.filter (fun s => match truthyStr (tickSizeMap !! s) with Some _ => false | None => true end)
              watchlist.

(** ** Statement vocabulary for the store *)

(** The keys an evaluation of [symbol] may write: the symbol's cooldown,
    pending and last-signal keys, and dedupe markers. *)
Definition ownKey (symbol : string) (k : string) : Prop :=
  k = kCooldown symbol \/ k = kPending symbol \/ k = kLastSig symbol
  \/ exists id, k = kDedupe id.

(** Ascending by start time. *)
Definition startsAscending (l : list CoinApiJs.OhlcvRow) : Prop :=
  Sorted (fun a b => CoinApiJs.time_period_start a <= CoinApiJs.time_period_start b) l.

Module Sample.

Definition exchangeSymbols : list SymbolInfo :=
  [ {| s_symbol := Some "BTCUSDT"%string;
       s_filters := [ {| filterType := "LOT_SIZE"; f_tickSize := None |};
                      {| filterType := "PRICE_FILTER"; f_tickSize := Some "0.10"%string |} ] |};
    {| s_symbol := Some "ETHUSDT"%string;
       s_filters := [ {| filterType := "PRICE_FILTER"; f_tickSize := Some "0.01"%string |} ] |} ].

Definition unsorted : list CoinApiJs.OhlcvRow :=
  [ {| CoinApiJs.time_period_start := 7200000; CoinApiJs.time_period_end := 10800000;
       CoinApiJs.price_open := 101; CoinApiJs.price_high := 103; CoinApiJs.price_low := 100;
       CoinApiJs.price_close := 102; CoinApiJs.volume_traded := 12 |};
    Fixture.ohlcv;
    {| CoinApiJs.time_period_start := 3600000; CoinApiJs.time_period_end := 7200000;
       CoinApiJs.price_open := 101; CoinApiJs.price_high := 102; CoinApiJs.price_low := 100;
       CoinApiJs.price_close := 101; CoinApiJs.volume_traded := 11 |} ].

End Sample.

(** [n] trailing zeros. *)
Fixpoint zeros (n : nat) : string :=
  match n with O => EmptyString | S n => String "0" (zeros n) end.

(** What an intrabar evaluation can do: nothing, or claim the preview id,
    store the pending confirmation and the last-signal record, and return the
    PREVIEW signal. *)
Inductive IntrabarOutcome (now : Z) (sym : string) (r : Redis)
  : option Signal * Redis -> Prop :=
  | IntrabarNothing : IntrabarOutcome now sym r (None, r)
  | IntrabarPreview s snap :
      mode s = PREVIEW ->
      cooldown_until_ts (getState now sym r) <= now ->
      redis_get r now (kDedupe (sig_id s)) = None ->
      IntrabarOutcome now sym r
        (Some s,
         saveLastSignal now sym
           {| ls_ts := now; ls_id := sig_id s; ls_mode := PREVIEW; ls_reason := None |}
           (savePending now sym
              {| signal_id := sig_id s; p_direction := direction s; created_ts := now;
                 confirm_requested := false; snapshot_metrics := Some snap |}
              (redis_set r now (kDedupe (sig_id s)) (VMarker 1)
                 CONFIG.DEDUPE_TTL_SECONDS))).

(** [{ ...p, confirm_requested: true }] *)
Definition requestedPending (p : Pending) : Pending :=
  {| signal_id := signal_id p; p_direction := p_direction p; created_ts := created_ts p;
     confirm_requested := true; snapshot_metrics := snapshot_metrics p |}.

(** ** Symbol ids of [V.0.0.1/netlify/functions/trade-bot.mjs] *)

Module MjsSymbols.

(** [s.endsWith(q)] *)
Definition endsWith (s q : string) : bool :=
  (String.length q <=? String.length s)%nat
  && String.eqb (substring (String.length s - String.length q) (String.length q) s) q.

(** [s.slice(0, -n)] and [s.slice(-n)], for [n > 0]. *)
Definition dropLast (n : nat) (s : string) : string :=
  substring 0 (String.length s - n) s.

Definition takeLast (n : nat) (s : string) : string :=
  substring (String.length s - n) n s.

Definition quotes : list string := ["USDT"; "USDC"; "BUSD"; "FDUSD"; "TUSD"]%string.

Record BaseQuote := { base : string; quote : string }.

(** The loop over [quotes]; [rest] is what is left of the list. *)
Fixpoint splitLoop (sym : string) (rest : list string) : BaseQuote :=
  match rest with
  | q :: rest' =>
      if endsWith sym q && (String.length q <? String.length sym)%nat
      then {| base := dropLast (String.length q) sym; quote := q |}
      else splitLoop sym rest'
  | [] => {| base := dropLast 4 sym; quote := takeLast 4 sym |}
  end.

Definition splitBaseQuote (sym : string) : BaseQuote := splitLoop sym quotes.

(** [COINAPI_EXCHANGE_ID] is read from the environment. *)
Definition coinapiSymbolIdFor (COINAPI_EXCHANGE_ID sym : string) : string :=
  let bq := splitBaseQuote sym in
  COINAPI_EXCHANGE_ID +:+ "_PERP_" +:+ base bq +:+ "_" +:+ quote bq.

End MjsSymbols.

(** * Proofs *)

(** ** Tactics *)

(** Case analysis on the conditional at the head of an evaluation, leaving the
    computations inside the branches folded. *)
Ltac head_step :=
  cbv beta iota zeta;
  lazymatch goal with
  | |- (if ?c then _ else _) = _ => destruct c eqn:?
  | |- (match ?c with _ => _ end) = _ => destruct c eqn:?
  | |- (if ?c then _ else _) = _ -> _ => destruct c eqn:?
  | |- (match ?c with _ => _ end) = _ -> _ => destruct c eqn:?
  | |- exists s r', (if ?c then _ else _) = _ /\ _ => destruct c eqn:?
  | |- exists s r', (match ?c with _ => _ end) = _ /\ _ => destruct c eqn:?
  | |- _ <$> fst (if ?c then _ else _) = _ => destruct c eqn:?
  | |- _ <$> fst (match ?c with _ => _ end) = _ => destruct c eqn:?
  | |- _ (if ?c then _ else _) => destruct c eqn:?
  | |- _ (match ?c with _ => _ end) => destruct c eqn:?
  end.

(** Keys of different families never collide. *)
Ltac key_ne :=
  let E := fresh in
  unfold kCooldown, kPending, kLastSig, kDedupe, kLiq; intros E; cbv in E; congruence.

(** ** Arithmetic *)

Lemma clamp_bounds x : 0 <= clamp x 0 100 <= 100.
Proof. unfold clamp. lia. Qed.

Lemma same_bucket_close now1 now2 :
  floorTimeBucket now1 CONFIG.DEDUPE_SCOPE_SECONDS
    = floorTimeBucket now2 CONFIG.DEDUPE_SCOPE_SECONDS ->
  now2 < now1 + CONFIG.DEDUPE_TTL_SECONDS * 1000.
Proof.
  unfold floorTimeBucket, CONFIG.DEDUPE_SCOPE_SECONDS, CONFIG.DEDUPE_TTL_SECONDS.
  change (120 * 1000) with 120000. intros E.
  pose proof (Z.div_mod now1 120000 ltac:(lia)).
  pose proof (Z.div_mod now2 120000 ltac:(lia)).
  pose proof (Z.mod_pos_bound now1 120000 ltac:(lia)).
  pose proof (Z.mod_pos_bound now2 120000 ltac:(lia)).
  lia.
Qed.

Lemma minutesTo_le_30 now t : minutesTo now t <= 30 <-> t - now < 31 * 60000.
Proof.
  unfold minutesTo.
  pose proof (Z.div_mod (t - now) 60000 ltac:(lia)).
  pose proof (Z.mod_pos_bound (t - now) 60000 ltac:(lia)).
  lia.
Qed.

Lemma Qltb_false a b : Qltb a b = false <-> (b <= a)%Q.
Proof. unfold Qltb. rewrite negb_false_iff. apply Qle_bool_iff. Qed.

Lemma Qgeb_true a b : Qgeb a b = true <-> (b <= a)%Q.
Proof. apply Qle_bool_iff. Qed.

Lemma fst_eq {A B} (x : A * B) (a : A) : fst x = a -> x = (a, snd x).
Proof. destruct x. cbn. congruence. Qed.

(** ** The store *)

Lemma redis_get_set_eq (r : Redis) now now' k v ex :
  now' < now + ex * 1000 -> redis_get (redis_set r now k v ex) now' k = Some v.
Proof.
  intros Hlt. unfold redis_get, redis_set. rewrite lookup_insert_eq.
  unfold live. cbn [entry_expireAt entry_value].
  apply Z.ltb_lt in Hlt. by rewrite Hlt.
Qed.

Lemma redis_get_set_ne (r : Redis) now now' k k' v ex :
  k <> k' -> redis_get (redis_set r now k v ex) now' k' = redis_get r now' k'.
Proof. intros Hne. unfold redis_get, redis_set. by rewrite lookup_insert_ne. Qed.

Lemma redis_get_del_eq (r : Redis) now k : redis_get (redis_del r k) now k = None.
Proof. unfold redis_get, redis_del. by rewrite lookup_delete_eq. Qed.

Lemma redis_get_del_ne (r : Redis) now k k' :
  k <> k' -> redis_get (redis_del r k) now k' = redis_get r now k'.
Proof. intros Hne. unfold redis_get, redis_del. by rewrite lookup_delete_ne. Qed.

Lemma redis_set_nx_ok (r r' : Redis) now k v ex :
  redis_set_nx r now k v ex = (true, r') -> r' = redis_set r now k v ex.
Proof. unfold redis_set_nx. destruct (redis_get r now k); congruence. Qed.

Lemma redis_set_nx_taken (r : Redis) now k v ex :
  is_Some (redis_get r now k) -> redis_set_nx r now k v ex = (false, r).
Proof. intros [w Hw]. unfold redis_set_nx. by rewrite Hw. Qed.

Lemma kPending_kCooldown a b : kPending a <> kCooldown b.
Proof. key_ne. Qed.

Lemma kLastSig_kCooldown a b : kLastSig a <> kCooldown b.
Proof. key_ne. Qed.

Lemma kCooldown_kPending a b : kCooldown a <> kPending b.
Proof. key_ne. Qed.

Lemma kLastSig_kPending a b : kLastSig a <> kPending b.
Proof. key_ne. Qed.

Lemma kPending_kDedupe a b : kPending a <> kDedupe b.
Proof. key_ne. Qed.

Lemma kLastSig_kDedupe a b : kLastSig a <> kDedupe b.
Proof. key_ne. Qed.

(** A pending confirmation is gone once it has been cleared: at most one is
    live per symbol, under the single key [kPending symbol]. *)
Lemma pending_cleared now now' symbol until lastSig (r : Redis) :
  pending_confirm
    (getState now' symbol
       (saveLastSignal now symbol lastSig (clearPending symbol (saveCooldown now symbol until r))))
  = None.
Proof.
  unfold getState, saveLastSignal, clearPending, saveCooldown. cbn [pending_confirm].
  rewrite redis_get_set_ne by apply kLastSig_kPending.
  by rewrite redis_get_del_eq.
Qed.

Lemma cooldown_after_save now now' symbol until lastSig (r : Redis) :
  now' < now + CONFIG.TTL_COOLDOWN_SEC * 1000 ->
  cooldown_until_ts
    (getState now' symbol
       (saveLastSignal now symbol lastSig (clearPending symbol (saveCooldown now symbol until r))))
  = until.
Proof.
  intros Hlt. unfold getState, saveLastSignal, clearPending, saveCooldown.
  cbn [cooldown_until_ts].
  rewrite redis_get_set_ne by apply kLastSig_kCooldown.
  rewrite redis_get_del_ne by apply kPending_kCooldown.
  by rewrite redis_get_set_eq.
Qed.

(** ** Confidence range *)

(** Claim C7.  Whatever the trend, momentum, 24h ticker and liquidation
    snapshot, the confidence is within [0, 100] after base scoring and after
    the liquidation adjustment. *)
Theorem confidence_always_in_range :
  (forall trend momentum ticker24, 0 <= baseConfidence trend momentum ticker24 <= 100) /\
  (forall direction confidence liq,
     0 <= adj_confidence (applyLiquidationAdjustments direction confidence liq) <= 100).
Proof.
  split.
  - intros. unfold baseConfidence. apply clamp_bounds.
  - intros. unfold applyLiquidationAdjustments.
    repeat case_match; simpl; apply clamp_bounds.
Qed.

(** ** Target planner *)

(** Claim C8.  Entry 100, ATR 2, LONG, confidence 80, STRONG momentum, no
    reversal, Bollinger width class mid, liquidation intensity 0: the stop-loss
    multiplier and the risk/reward ratio are both 2, the stop-loss distance is
    max(2*2, 100*10/10000) = 4 and the stop loss 96, the take-profit distance is
    max(2*4, 100*15/10000) = 8 and the take profit 108. *)
Theorem target_plan_example :
  (chooseSLMult 80 STRONG false 0 mid == 2)%Q /\
  (chooseRR 80 STRONG == 2)%Q /\
  (slDistance 100 2 2 == Qmax (2 * 2) (100 * 10 / 10000))%Q /\
  (slDistance 100 2 2 == 4)%Q /\
  (tpDistance 100 2 2 2 == Qmax (2 * 4) (100 * 15 / 10000))%Q /\
  (tpDistance 100 2 2 2 == 8)%Q /\
  exists plan,
    pickTpSlATR 100 2 LONG 80 STRONG false 0 mid = Some plan /\
    (plan_slAtrMult plan == 2)%Q /\ (plan_rr plan == 2)%Q /\
    (plan_slPrice plan == 96)%Q /\ (plan_tpPrice plan == 108)%Q.
Proof.
  repeat split; try (vm_compute; reflexivity).
  eexists. split; [reflexivity|].
  repeat split; vm_compute; reflexivity.
Qed.

(** ** Close confirmation: what it can return *)

Lemma confirmOnClose_outcome `{TechnicalIndicators} now mk symbol tickSize r :
  CloseOutcome now symbol r (confirmOnCloseForSymbol now mk symbol tickSize r).
Proof.
  unfold confirmOnCloseForSymbol.
  destruct (pending_confirm (getState now symbol r)) as [p|] eqn:Hp; [|constructor].
  destruct (confirm_requested p) eqn:Hc; cbn [negb]; [|constructor].
  repeat (head_step; try (constructor; fail)).
  all: try match goal with
    | E : invalidate _ _ ?reason _ = (_, _) |- _ =>
        pose proof (CloseInvalidated now symbol r p reason Hp Hc) as Hout;
        rewrite E in Hout; exact Hout
    end.
  all: try (eapply CloseDuplicate; eassumption).
  all: eapply CloseConfirmed; try eassumption; try reflexivity; cbn [direction sig_id].
  - match goal with
    | E : negb (bool_decide (_ = p_direction p)) = false |- _ =>
        apply negb_false_iff in E; apply bool_decide_eq_true in E; exact E
    end.
  - match goal with
    | E : tryDedupeOrDrop _ _ _ = (?b, _), Hb : negb ?b = false |- _ =>
        apply negb_false_iff in Hb; subst b;
        apply redis_set_nx_ok in E; rewrite E; reflexivity
    end.
Qed.

Lemma close_confirmed_inv `{TechnicalIndicators} now mk symbol tickSize r s :
  fst (confirmOnCloseForSymbol now mk symbol tickSize r) = Some s ->
  mode s = CONFIRMED ->
  exists p, pending_confirm (getState now symbol r) = Some p /\
            confirm_requested p = true /\ direction s = p_direction p.
Proof.
  intros E Hmode. apply fst_eq in E.
  pose proof (confirmOnClose_outcome now mk symbol tickSize r) as Hout.
  rewrite E in Hout. inversion Hout; subst; eauto. discriminate.
Qed.

Lemma close_invalidated_inv `{TechnicalIndicators} now mk symbol tickSize r s :
  fst (confirmOnCloseForSymbol now mk symbol tickSize r) = Some s ->
  mode s = INVALIDATED ->
  exists reason, s = fst (invalidate now symbol reason r).
Proof.
  intros E Hmode. apply fst_eq in E.
  pose proof (confirmOnClose_outcome now mk symbol tickSize r) as Hout.
  rewrite E in Hout. inversion Hout; subst; [by eexists | congruence].
Qed.

(** ** State-machine safety *)

(** Claim C3.  Without a live pending confirmation whose confirmation was
    requested, a close-confirmation evaluation is a no-op returning nothing;
    hence a CONFIRMED signal is only ever returned for a symbol that has one.
    A confirmation request for a symbol without a live pending confirmation
    answers [{ok: false, reason: "NO_PENDING_PREVIEW"}] and leaves the store
    as it is. *)
Theorem close_requires_requested_pending `{TechnicalIndicators} now mk symbol tickSize r :
  ((forall p, pending_confirm (getState now symbol r) = Some p -> confirm_requested p = false) ->
     confirmOnCloseForSymbol now mk symbol tickSize r = (None, r)) /\
  (forall s, fst (confirmOnCloseForSymbol now mk symbol tickSize r) = Some s ->
     mode s = CONFIRMED ->
     exists p, pending_confirm (getState now symbol r) = Some p /\ confirm_requested p = true) /\
  (pending_confirm (getState now symbol r) = None ->
     userRequestConfirm now symbol r
       = ({| ok := false; cr_reason := Some "NO_PENDING_PREVIEW" |}, r)).
Proof.
  split; [|split].
  - intros Hnone. unfold confirmOnCloseForSymbol.
    destruct (pending_confirm (getState now symbol r)) as [p|]; [|reflexivity].
    by rewrite (Hnone p eq_refl).
  - intros s E Hmode.
    destruct (close_confirmed_inv _ _ _ _ _ _ E Hmode) as (p & Hp & Hc & _). eauto.
  - intros Hnone. unfold userRequestConfirm. by rewrite Hnone.
Qed.

Lemma close_requires_requested_pending_witness :
  confirmOnCloseForSymbol (H := Fixture.indicators 65) 3000 (Fixture.market None 0)
    "BTCUSDT" Fixture.tick Run.previewed = (None, Run.previewed) /\
  (exists p, pending_confirm (getState 3000 "BTCUSDT" Run.requested) = Some p
             /\ confirm_requested p = true) /\
  userRequestConfirm 2000 "BTCUSDT" ∅
    = ({| ok := false; cr_reason := Some "NO_PENDING_PREVIEW" |}, ∅).
Proof.
  split; [|split].
  - apply (close_requires_requested_pending (H := Fixture.indicators 65)).
    intros p Hp. vm_compute in Hp. injection Hp as <-. reflexivity.
  - apply (proj1 (proj2 (close_requires_requested_pending (H := Fixture.indicators 65) 3000
             (Fixture.market None 0) "BTCUSDT" Fixture.tick Run.requested))
             Run.confirmedLong).
    + vm_compute. reflexivity.
    + reflexivity.
  - apply (close_requires_requested_pending (H := Fixture.indicators 65) 2000
             (Fixture.market None 0) "BTCUSDT" Fixture.tick ∅).
    vm_compute. reflexivity.
Defined.

(** ** Replaying an evaluation up to its candidate *)

Lemma resolve_pair (d : Dir) :
  (if decide (d = LONG_CANDIDATE) then (LONG, true)
   else if decide (d = SHORT_CANDIDATE) then (SHORT, true) else (d, false))
  = (resolvedDirection d, isReversalCandidate d).
Proof. by destruct d. Qed.

Ltac replay Hprop :=
  let Ht := fresh "Hticker" in
  let Hpr := fresh "Hprem" in
  let Hlen := fresh "Hlen" in
  let Hind := fresh "Hind" in
  let Hr := fresh "Hrsi" in
  let Hm := fresh "Hmacd" in
  let Hb := fresh "Hbb" in
  let Ha := fresh "Hatr" in
  let Hcd := fresh "Hcd" in
  let Hnt := fresh "Hcand" in
  destruct Hprop as (Ht & Hpr & Hlen & Hind & [? Hr] & [? Hm] & [? Hb] & [? Ha] & Hcd & Hnt);
  rewrite Ht, Hpr; cbv beta iota zeta;
  rewrite (proj2 (Z.ltb_ge _ _) Hlen);
  rewrite <- Hind;
  rewrite Hr, Hm, Hb, Ha;
  rewrite <- Hcd;
  rewrite (decide_False (P := _ = NO_TRADE)) by exact Hnt;
  rewrite resolve_pair.

(** Discharges [proposes] on the concrete market. *)
Ltac proposes_run :=
  repeat split;
  first [ vm_compute; reflexivity
        | eexists; vm_compute; reflexivity
        | vm_compute; discriminate ].

(** ** Direction of a confirmed signal *)

(** Claim C4.  A CONFIRMED signal returned by a close-confirmation evaluation
    carries the direction recorded in the symbol's pending confirmation; when
    the re-evaluated direction differs from the pending one the evaluation
    returns an INVALIDATED signal with reason CLOSE_DIRECTION_CHANGED. *)
Theorem confirmed_keeps_pending_direction `{TechnicalIndicators} now mk symbol tickSize r :
  (forall s, fst (confirmOnCloseForSymbol now mk symbol tickSize r) = Some s ->
     mode s = CONFIRMED ->
     exists p, pending_confirm (getState now symbol r) = Some p /\ direction s = p_direction p) /\
  (forall p ticker24 prem ind cand,
     pending_confirm (getState now symbol r) = Some p ->
     confirm_requested p = true ->
     proposes mk symbol ticker24 prem ind cand ->
     resolvedDirection (dir cand) <> p_direction p ->
     exists s,
       fst (confirmOnCloseForSymbol now mk symbol tickSize r) = Some s /\
       mode s = INVALIDATED /\ reasons s = ["CLOSE_DIRECTION_CHANGED"]).
Proof.
  split.
  - intros s E Hmode.
    destruct (close_confirmed_inv _ _ _ _ _ _ E Hmode) as (p & Hp & _ & Hd). eauto.
  - intros p ticker24 prem ind cand Hp Hc Hprop Hdiff.
    unfold confirmOnCloseForSymbol, invalidate. rewrite Hp, Hc. cbn [negb].
    replay Hprop.
    rewrite bool_decide_eq_false_2 by exact Hdiff. cbn [negb].
    eexists. split; [reflexivity|]. split; reflexivity.
Qed.

Lemma confirmed_keeps_pending_direction_witness :
  (exists p, pending_confirm (getState 3000 "BTCUSDT" Run.requested) = Some p
             /\ direction Run.confirmedLong = p_direction p) /\
  (exists s,
     fst (confirmOnCloseForSymbol (H := Fixture.indicators 75) 3000 (Fixture.market None 0)
            "BTCUSDT" Fixture.tick Run.requested) = Some s /\
     mode s = INVALIDATED /\ reasons s = ["CLOSE_DIRECTION_CHANGED"]).
Proof.
  split.
  - apply (proj1 (confirmed_keeps_pending_direction (H := Fixture.indicators 65) 3000
             (Fixture.market None 0) "BTCUSDT" Fixture.tick Run.requested)
             Run.confirmedLong).
    + vm_compute. reflexivity.
    + reflexivity.
  - apply (proj2 (confirmed_keeps_pending_direction (H := Fixture.indicators 75) 3000
             (Fixture.market None 0) "BTCUSDT" Fixture.tick Run.requested)
             Run.pendingLong Fixture.ticker (Fixture.premium None 0) (Run.ind 75)
             (Run.cand 75)).
    + vm_compute. reflexivity.
    + reflexivity.
    + proposes_run.
    + vm_compute. discriminate.
Defined.

(** ** Reversal confirmation at close *)

Lemma reversal_base_direction d :
  isReversalCandidate d = true -> resolvedDirection d = LONG \/ resolvedDirection d = SHORT.
Proof. destruct d; simpl; intros; (discriminate || auto). Qed.

(** A reversal candidate comes from the very indicators the close
    confirmation tests: its RSI has never crossed back, so the outcome of the
    reversal test rests on the momentum score alone. *)
Lemma reversal_candidate_rsi trend ind rsiNow :
  isReversalCandidate (dir (directionCandidate trend ind)) = true ->
  rsi ind = Some rsiNow ->
  resolvedDirection (dir (directionCandidate trend ind)) = SHORT /\ (70 <= rsiNow)%Q \/
  resolvedDirection (dir (directionCandidate trend ind)) = LONG /\ (rsiNow <= 30)%Q.
Proof.
  unfold directionCandidate. intros Hrev Hrsi. rewrite Hrsi in *.
  destruct trend.
  - destruct (Qgeb rsiNow 70) eqn:E; [|discriminate Hrev].
    left. split; [reflexivity | by apply Qgeb_true].
  - destruct (Qle_bool rsiNow 30) eqn:E; [|discriminate Hrev].
    right. split; [reflexivity | by apply Qle_bool_iff].
  - exfalso. revert Hrev. destruct (macdHistogram ind); [|discriminate].
    repeat case_match; discriminate.
Qed.

(** The reversal test of the close confirmation, read as a proposition. *)
Lemma reversal_check_fails_iff d rsiNow sc prev :
  d = LONG \/ d = SHORT ->
  (bool_decide (d = SHORT) && Qltb rsiNow 70
   || bool_decide (d = LONG) && Qgtb rsiNow 30
   || (sc <? prev) || (prev <? sc)) = false
  <->
  ((d = SHORT /\ (70 <= rsiNow)%Q \/ d = LONG /\ (rsiNow <= 30)%Q) /\ sc = prev).
Proof.
  intros Hd. rewrite !orb_false_iff, !Z.ltb_ge. unfold Qgtb.
  destruct Hd as [-> | ->]; cbn [bool_decide decide_rel Dir_eq_dec]; simpl andb.
  - rewrite Qltb_false. split.
    + intros [[[_ Hr] H1] H2]. split; [right; split; [done | exact Hr] | lia].
    + intros [[[? _] | [_ Hr]] ->]; [discriminate|]. repeat split; (done || lia).
  - rewrite Qltb_false. split.
    + intros [[[Hr _] H1] H2]. split; [left; split; [done | exact Hr] | lia].
    + intros [[[_ Hr] | [? _]] ->]; [|discriminate]. repeat split; (done || lia).
Qed.

(** The two spellings of the reversal test agree: [score !== prev] in the
    CoinGecko variant, [score < prev || score > prev] in the Binance one. *)
Lemma reversal_tests_agree directionNow ind_rsi momentum p :
  CoinGeckoMjs.reversalOk directionNow ind_rsi momentum p
  = (bool_decide (directionNow = SHORT) && Qltb ind_rsi 70)
    || (bool_decide (directionNow = LONG) && Qgtb ind_rsi 30)
    || (score momentum <? default (score momentum) (snapshotMomentumScore p))
    || (default (score momentum) (snapshotMomentumScore p) <? score momentum).
Proof.
  unfold CoinGeckoMjs.reversalOk. cbv zeta. rewrite <- !orb_assoc. do 2 f_equal.
  destruct (Z.eqb_spec (score momentum) (default (score momentum) (snapshotMomentumScore p)));
    destruct (Z.ltb_spec (score momentum) (default (score momentum) (snapshotMomentumScore p)));
    destruct (Z.ltb_spec (default (score momentum) (snapshotMomentumScore p)) (score momentum));
    (reflexivity || lia).
Qed.

Lemma reversal_check_at_close `{TechnicalIndicators}
    now mk symbol tickSize r p ticker24 prem ind cand rsiNow prev :
  pending_confirm (getState now symbol r) = Some p ->
  confirm_requested p = true ->
  proposes mk symbol ticker24 prem ind cand ->
  isReversalCandidate (dir cand) = true ->
  resolvedDirection (dir cand) = p_direction p ->
  rsi ind = Some rsiNow ->
  snapshotMomentumScore p = Some prev ->
  (exists s r',
     confirmOnCloseForSymbol now mk symbol tickSize r = (Some s, r') /\
     mode s = INVALIDATED /\ reasons s = ["CLOSE_REVERSAL_NOT_CONFIRMED"])
  <->
  ((resolvedDirection (dir cand) = SHORT /\ (70 <= rsiNow)%Q \/
    resolvedDirection (dir cand) = LONG /\ (rsiNow <= 30)%Q) /\
   score (computeMomentum ind) = prev).
Proof.
  intros Hp Hc Hprop Hrev Hdir Hrsi Hprev.
  unfold confirmOnCloseForSymbol, invalidate. rewrite Hp, Hc. cbn [negb].
  replay Hprop.
  assert (x = rsiNow) as -> by congruence.
  rewrite bool_decide_eq_true_2 by exact Hdir. cbn [negb].
  rewrite Hrev, Hprev. cbn [default andb id].
  lazymatch goal with
  | |- (exists s r', (if negb ?c then _ else _) = _ /\ _) <-> _ => destruct c eqn:Hok
  end; cbn [negb].
  - split.
    + intros (s & r' & E & Hm & Hr). exfalso. revert E.
      repeat head_step; intros E; simplify_eq; discriminate.
    + intros Hcond.
      apply (reversal_check_fails_iff _ _ _ _ (reversal_base_direction _ Hrev)) in Hcond.
      congruence.
  - split.
    + intros _. by apply (reversal_check_fails_iff _ _ _ _ (reversal_base_direction _ Hrev)).
    + intros _. do 2 eexists. split; [reflexivity|]. split; reflexivity.
Qed.

(** Claim C5.  When the close confirmation re-evaluates a reversal candidate
    whose base direction is the pending one, it returns an INVALIDATED signal
    with reason CLOSE_REVERSAL_NOT_CONFIRMED exactly when the RSI has not
    crossed back (still at least 70 for a SHORT reversal, still at most 30 for
    a LONG one) and the momentum score equals the one stored in the pending
    confirmation's snapshot. *)
Theorem reversal_invalidated_iff_check_fails `{TechnicalIndicators}
    now mk symbol tickSize r p ticker24 prem ind cand rsiNow prev :
  pending_confirm (getState now symbol r) = Some p ->
  confirm_requested p = true ->
  proposes mk symbol ticker24 prem ind cand ->
  isReversalCandidate (dir cand) = true ->
  resolvedDirection (dir cand) = p_direction p ->
  rsi ind = Some rsiNow ->
  snapshotMomentumScore p = Some prev ->
  (exists s,
     fst (confirmOnCloseForSymbol now mk symbol tickSize r) = Some s /\
     mode s = INVALIDATED /\ reasons s = ["CLOSE_REVERSAL_NOT_CONFIRMED"])
  <->
  ((resolvedDirection (dir cand) = SHORT /\ (70 <= rsiNow)%Q \/
    resolvedDirection (dir cand) = LONG /\ (rsiNow <= 30)%Q) /\
   score (computeMomentum ind) = prev).
Proof.
  intros Hp Hc Hprop Hrev Hdir Hrsi Hprev.
  rewrite <- (reversal_check_at_close now mk symbol tickSize r p ticker24 prem ind cand
                rsiNow prev Hp Hc Hprop Hrev Hdir Hrsi Hprev).
  split.
  - intros (s & E & Hm & Hr). apply fst_eq in E. eauto.
  - intros (s & r' & E & Hm & Hr). exists s. by rewrite E.
Qed.

Lemma reversal_invalidated_iff_check_fails_witness :
  exists s,
    fst (confirmOnCloseForSymbol (H := Fixture.indicators 75) 3000 (Fixture.market None 0)
           "BTCUSDT" Fixture.tick Run.requestedReversal) = Some s /\
    mode s = INVALIDATED /\ reasons s = ["CLOSE_REVERSAL_NOT_CONFIRMED"].
Proof.
  refine (proj2 (reversal_invalidated_iff_check_fails (H := Fixture.indicators 75) 3000
            (Fixture.market None 0) "BTCUSDT" Fixture.tick Run.requestedReversal
            Run.pendingShort Fixture.ticker (Fixture.premium None 0) (Run.ind 75)
            (Run.cand 75) 75%Q 3 _ _ _ _ _ _ _) _).
  - vm_compute. reflexivity.
  - reflexivity.
  - proposes_run.
  - vm_compute. reflexivity.
  - vm_compute. reflexivity.
  - vm_compute. reflexivity.
  - reflexivity.
  - split; [left; split; [vm_compute; reflexivity | vm_compute; discriminate]
           | vm_compute; reflexivity].
Defined.

(** ** Liquidation veto *)

Lemma veto_flag direction confidence liq :
  veto (applyLiquidationAdjustments direction confidence liq)
  = (bool_decide (direction = LONG) && (dirBias liq =? 1)
       && Qgeb (intensityScore liq) CONFIG.LIQ_THR_HIGH)
    || (bool_decide (direction = SHORT) && (dirBias liq =? -1)
          && Qgeb (intensityScore liq) CONFIG.LIQ_THR_HIGH).
Proof.
  unfold applyLiquidationAdjustments.
  destruct (bool_decide (direction = SHORT) && (dirBias liq =? -1)
            && Qgeb (intensityScore liq) CONFIG.LIQ_THR_HIGH) eqn:E2;
  destruct (bool_decide (direction = LONG) && (dirBias liq =? 1)
            && Qgeb (intensityScore liq) CONFIG.LIQ_THR_HIGH) eqn:E1;
  repeat case_match; reflexivity.
Qed.

Lemma veto_when_bias_agrees direction confidence liq :
  (8 <= intensityScore liq)%Q ->
  (direction = LONG /\ dirBias liq = 1) \/ (direction = SHORT /\ dirBias liq = -1) ->
  veto (applyLiquidationAdjustments direction confidence liq) = true.
Proof.
  intros Hi Hagree. rewrite veto_flag.
  assert (Qgeb (intensityScore liq) CONFIG.LIQ_THR_HIGH = true) as ->
    by (apply Qgeb_true; exact Hi).
  destruct Hagree as [[-> ->] | [-> ->]]; reflexivity.
Qed.

Lemma vetoed_close_invalidates `{TechnicalIndicators}
    now mk symbol tickSize r p ticker24 prem ind cand :
  pending_confirm (getState now symbol r) = Some p ->
  confirm_requested p = true ->
  proposes mk symbol ticker24 prem ind cand ->
  veto (applyLiquidationAdjustments (resolvedDirection (dir cand))
          (baseConfidence (classifyTrend ticker24 ind) (computeMomentum ind) ticker24)
          (getLiquidationFromRedis now symbol r)) = true ->
  exists s r',
    confirmOnCloseForSymbol now mk symbol tickSize r = (Some s, r') /\ mode s = INVALIDATED.
Proof.
  intros Hp Hc Hprop Hveto.
  unfold confirmOnCloseForSymbol, invalidate. rewrite Hp, Hc. cbn [negb].
  replay Hprop. rewrite Hveto.
  repeat (head_step; try (do 2 eexists; split; reflexivity)).
Qed.

(** Claim C6.  Whatever the confidence, the risk adjuster sets the veto when
    the liquidation intensity is at least 8 and the bias agrees with the
    proposed direction (LONG with bias +1, SHORT with bias -1); an intrabar
    evaluation whose proposal is vetoed returns nothing and leaves the store
    as it is, a close confirmation whose proposal is vetoed returns an
    INVALIDATED signal. *)
Theorem liquidation_veto_suppresses `{TechnicalIndicators} :
  (forall direction confidence liq,
     (8 <= intensityScore liq)%Q ->
     (direction = LONG /\ dirBias liq = 1) \/ (direction = SHORT /\ dirBias liq = -1) ->
     veto (applyLiquidationAdjustments direction confidence liq) = true) /\
  (forall now mk symbol tickSize r ticker24 prem ind cand,
     proposes mk symbol ticker24 prem ind cand ->
     (8 <= intensityScore (getLiquidationFromRedis now symbol r))%Q ->
     (resolvedDirection (dir cand) = LONG /\ dirBias (getLiquidationFromRedis now symbol r) = 1)
     \/ (resolvedDirection (dir cand) = SHORT
         /\ dirBias (getLiquidationFromRedis now symbol r) = -1) ->
     evaluateIntrabarForSymbol now mk symbol tickSize r = (None, r)) /\
  (forall now mk symbol tickSize r p ticker24 prem ind cand,
     pending_confirm (getState now symbol r) = Some p ->
     confirm_requested p = true ->
     proposes mk symbol ticker24 prem ind cand ->
     (8 <= intensityScore (getLiquidationFromRedis now symbol r))%Q ->
     (resolvedDirection (dir cand) = LONG /\ dirBias (getLiquidationFromRedis now symbol r) = 1)
     \/ (resolvedDirection (dir cand) = SHORT
         /\ dirBias (getLiquidationFromRedis now symbol r) = -1) ->
     exists s,
       fst (confirmOnCloseForSymbol now mk symbol tickSize r) = Some s /\
       mode s = INVALIDATED).
Proof.
  split; [exact veto_when_bias_agrees|]. split.
  - intros now mk symbol tickSize r ticker24 prem ind cand Hprop Hi Hagree.
    unfold evaluateIntrabarForSymbol.
    destruct (now <? cooldown_until_ts (getState now symbol r)); [reflexivity|].
    replay Hprop.
    by rewrite (veto_when_bias_agrees _ _ _ Hi Hagree).
  - intros now mk symbol tickSize r p ticker24 prem ind cand Hp Hc Hprop Hi Hagree.
    destruct (vetoed_close_invalidates now mk symbol tickSize r p ticker24 prem ind cand
                Hp Hc Hprop (veto_when_bias_agrees _ _ _ Hi Hagree)) as (s & r' & E & Hm).
    exists s. by rewrite E.
Qed.

Lemma liquidation_veto_suppresses_witness :
  veto (applyLiquidationAdjustments LONG 100
          {| intensityScore := 9; dirBias := 1; notionalSum := 0 |}) = true /\
  evaluateIntrabarForSymbol (H := Fixture.indicators 65) 1000 (Fixture.market None 0)
    "BTCUSDT" Fixture.tick (Run.withLiquidation ∅) = (None, Run.withLiquidation ∅) /\
  exists s,
    fst (confirmOnCloseForSymbol (H := Fixture.indicators 65) 3000 (Fixture.market None 0)
           "BTCUSDT" Fixture.tick (Run.withLiquidation Run.requested)) = Some s /\
    mode s = INVALIDATED.
Proof.
  destruct (liquidation_veto_suppresses (H := Fixture.indicators 65)) as (Hflag & Hintra & Hclose).
  split; [|split].
  - apply Hflag; [vm_compute; discriminate | left; split; reflexivity].
  - apply (Hintra 1000 (Fixture.market None 0) "BTCUSDT" Fixture.tick (Run.withLiquidation ∅)
             Fixture.ticker (Fixture.premium None 0) (Run.ind 65) (Run.cand 65)).
    + proposes_run.
    + vm_compute. discriminate.
    + left. split; vm_compute; reflexivity.
  - apply (Hclose 3000 (Fixture.market None 0) "BTCUSDT" Fixture.tick
             (Run.withLiquidation Run.requested) Run.pendingLong
             Fixture.ticker (Fixture.premium None 0) (Run.ind 65) (Run.cand 65)).
    + vm_compute. reflexivity.
    + reflexivity.
    + proposes_run.
    + vm_compute. discriminate.
    + left. split; vm_compute; reflexivity.
Defined.

(** ** Funding warning *)

Lemma liq_warnings_not_funding direction confidence liq :
  ~ In "FUNDING_SOON_HIGH_RATE"
      (adj_warnings (applyLiquidationAdjustments direction confidence liq)).
Proof.
  unfold applyLiquidationAdjustments.
  repeat case_match; simplify_eq; cbn; intros Hin;
    repeat (destruct Hin as [Hin | Hin]; [discriminate Hin|]); exact Hin.
Qed.

Lemma funding_branch now prem (ws : list string) :
  ~ In "FUNDING_SOON_HIGH_RATE" ws ->
  In "FUNDING_SOON_HIGH_RATE"
     match nextFundingTime prem with
     | Some nextFundingMs =>
         if (minutesTo now nextFundingMs <=? CONFIG.FUNDING_WARN_MINUTES)
            && Qgeb (Qabs (lastFundingRate prem)) CONFIG.FUNDING_RATE_ABS_WARN
         then ws ++ ["FUNDING_SOON_HIGH_RATE"] else ws
     | None => ws
     end
  <-> fundingSoonHighRate now prem.
Proof.
  intros Hws. unfold fundingSoonHighRate.
  destruct (nextFundingTime prem) as [t|].
  - destruct (minutesTo now t <=? CONFIG.FUNDING_WARN_MINUTES) eqn:Eb;
    destruct (Qgeb (Qabs (lastFundingRate prem)) CONFIG.FUNDING_RATE_ABS_WARN) eqn:Er;
    cbn [andb].
    + split; [intros _ | intros _; apply in_or_app; right; left; reflexivity].
      exists t. split; [reflexivity|]. split; [by apply Z.leb_le | by apply Qgeb_true].
    + split; [done|]. intros (t' & Ht & _ & Hr). apply Qgeb_true in Hr.
      unfold CONFIG.FUNDING_RATE_ABS_WARN in Er. congruence.
    + split; [done|]. intros (t' & Ht & Hm & _). simplify_eq.
      apply Z.leb_le in Hm. unfold CONFIG.FUNDING_WARN_MINUTES in Eb. congruence.
    + split; [done|]. intros (t' & Ht & Hm & _). simplify_eq.
      apply Z.leb_le in Hm. unfold CONFIG.FUNDING_WARN_MINUTES in Eb. congruence.
  - split; [done|]. intros (t' & Ht & _). discriminate.
Qed.

Lemma intrabar_funding_warning `{TechnicalIndicators} now mk symbol tickSize r s prem :
  fst (evaluateIntrabarForSymbol now mk symbol tickSize r) = Some s ->
  premiumMap mk !! symbol = Some prem ->
  In "FUNDING_SOON_HIGH_RATE" (warnings s) <-> fundingSoonHighRate now prem.
Proof.
  intros E Hprem. apply fst_eq in E. revert E. unfold evaluateIntrabarForSymbol.
  repeat head_step; intros E; simplify_eq. cbn [warnings].
  apply funding_branch, liq_warnings_not_funding.
Qed.

Lemma close_funding_warning `{TechnicalIndicators} now mk symbol tickSize r s prem :
  fst (confirmOnCloseForSymbol now mk symbol tickSize r) = Some s ->
  mode s = CONFIRMED ->
  premiumMap mk !! symbol = Some prem ->
  In "FUNDING_SOON_HIGH_RATE" (warnings s) <-> fundingSoonHighRate now prem.
Proof.
  intros E Hmode Hprem. apply fst_eq in E. revert E.
  unfold confirmOnCloseForSymbol, invalidate.
  repeat head_step; intros E; simplify_eq; try discriminate Hmode. cbn [warnings].
  apply funding_branch, liq_warnings_not_funding.
Qed.

Lemma intrabar_confidence_frame `{TechnicalIndicators} now mk symbol tickSize r nextFunding rate :
  confidence <$> fst (evaluateIntrabarForSymbol now (withFunding mk symbol nextFunding rate)
                        symbol tickSize r)
  = confidence <$> fst (evaluateIntrabarForSymbol now mk symbol tickSize r).
Proof.
  unfold evaluateIntrabarForSymbol, withFunding.
  cbn [tickerMap premiumMap fetchKlines1h]. rewrite lookup_alter_eq.
  destruct (premiumMap mk !! symbol) as [prem|]; cbn [fmap option_fmap option_map markPrice];
    repeat (head_step; try reflexivity).
Qed.

Lemma close_confidence_frame `{TechnicalIndicators} now mk symbol tickSize r nextFunding rate :
  confidence <$> fst (confirmOnCloseForSymbol now (withFunding mk symbol nextFunding rate)
                        symbol tickSize r)
  = confidence <$> fst (confirmOnCloseForSymbol now mk symbol tickSize r).
Proof.
  unfold confirmOnCloseForSymbol, invalidate, withFunding.
  cbn [tickerMap premiumMap fetchKlines1h]. rewrite lookup_alter_eq.
  destruct (premiumMap mk !! symbol) as [prem|]; cbn [fmap option_fmap option_map markPrice];
    repeat (head_step; try reflexivity).
Qed.

Lemma attach_keeps_confidence rows marketFilter sig :
  CoinApiMjs.g_confidence (CoinApiMjs.attachFundingAndMarket rows marketFilter sig)
  = CoinApiMjs.g_confidence sig.
Proof.
  unfold CoinApiMjs.attachFundingAndMarket.
  destruct (CoinApiMjs.pickDerivativeRowForSymbol _ _ _); reflexivity.
Qed.

(** In the CoinAPI/CoinGecko variant the funding warning is FUNDING_RATE_HIGH
    and depends on the rate alone. *)
Lemma attach_funding_rate_high rows marketFilter sig row :
  CoinApiMjs.pickDerivativeRowForSymbol rows (CoinApiMjs.g_symbol sig) marketFilter = Some row ->
  "FUNDING_RATE_HIGH" ∈ CoinApiMjs.g_warnings
                          (CoinApiMjs.attachFundingAndMarket rows marketFilter sig)
  <-> "FUNDING_RATE_HIGH" ∈ CoinApiMjs.g_warnings sig
      \/ exists funding, CoinApiMjs.funding_rate row = Some funding
                         /\ (2 # 10000 <= Qabs funding)%Q.
Proof.
  intros Hrow. unfold CoinApiMjs.attachFundingAndMarket. rewrite Hrow.
  cbn [CoinApiMjs.g_warnings].
  destruct (CoinApiMjs.funding_rate row) as [funding|].
  - destruct (Qgeb (Qabs funding) CoinApiMjs.FUNDING_RATE_ABS_WARN) eqn:Er.
    + apply Qgeb_true in Er. case_bool_decide as Hin.
      * split; [by left | done].
      * split; [intros _; right; eauto |]. intros _. apply elem_of_app. right. by left.
    + split; [by left|]. intros [Hin | (f & Hf & Hr)]; [done|]. simplify_eq.
      apply Qgeb_true in Hr. unfold CoinApiMjs.FUNDING_RATE_ABS_WARN in Er. congruence.
  - split; [by left|]. intros [Hin | (f & Hf & _)]; [done | discriminate].
Qed.

(** The annotation step of the CoinAPI/CoinGecko variant, which knows no
    funding time, never attaches FUNDING_SOON_HIGH_RATE. *)
Lemma attach_no_funding_soon rows marketFilter sig :
  "FUNDING_SOON_HIGH_RATE" ∈ CoinApiMjs.g_warnings
                               (CoinApiMjs.attachFundingAndMarket rows marketFilter sig)
  <-> "FUNDING_SOON_HIGH_RATE" ∈ CoinApiMjs.g_warnings sig.
Proof.
  unfold CoinApiMjs.attachFundingAndMarket.
  destruct (CoinApiMjs.pickDerivativeRowForSymbol _ _ _) as [row|]; [|reflexivity].
  cbn [CoinApiMjs.g_warnings].
  destruct (CoinApiMjs.funding_rate row) as [funding|]; [|reflexivity].
  destruct (Qgeb (Qabs funding) CoinApiMjs.FUNDING_RATE_ABS_WARN); [|reflexivity].
  case_bool_decide; [reflexivity|].
  rewrite elem_of_app. split; [|by left].
  intros [Hin | Hin]; [exact Hin|].
  apply list_elem_of_singleton in Hin. discriminate Hin.
Qed.

(** Claim C9, as amended.  A returned PREVIEW or CONFIRMED signal carries the
    FUNDING_SOON_HIGH_RATE warning exactly when the next funding time is known,
    the whole number of minutes to it, [floor((next - now) / 60000)], is at
    most 30 (that is, it lies less than 31 minutes ahead) and the absolute
    funding rate is at least 0.0002.  The funding data never changes the
    confidence of the result.  The annotation step of the CoinAPI/CoinGecko
    variant, which knows no funding time, never attaches this warning and
    leaves the confidence as it is. *)
Theorem funding_warning_by_whole_minutes `{TechnicalIndicators} now mk symbol tickSize r :
  (forall s prem,
     fst (evaluateIntrabarForSymbol now mk symbol tickSize r) = Some s ->
     premiumMap mk !! symbol = Some prem ->
     (In "FUNDING_SOON_HIGH_RATE" (warnings s) <-> fundingSoonHighRate now prem)) /\
  (forall s prem,
     fst (confirmOnCloseForSymbol now mk symbol tickSize r) = Some s ->
     mode s = CONFIRMED ->
     premiumMap mk !! symbol = Some prem ->
     (In "FUNDING_SOON_HIGH_RATE" (warnings s) <-> fundingSoonHighRate now prem)) /\
  (forall t, minutesTo now t <= 30 <-> t - now < 31 * 60000) /\
  (forall nextFunding rate,
     confidence <$> fst (evaluateIntrabarForSymbol now (withFunding mk symbol nextFunding rate)
                           symbol tickSize r)
     = confidence <$> fst (evaluateIntrabarForSymbol now mk symbol tickSize r)) /\
  (forall nextFunding rate,
     confidence <$> fst (confirmOnCloseForSymbol now (withFunding mk symbol nextFunding rate)
                           symbol tickSize r)
     = confidence <$> fst (confirmOnCloseForSymbol now mk symbol tickSize r)) /\
  (forall rows marketFilter sig,
     CoinApiMjs.g_confidence (CoinApiMjs.attachFundingAndMarket rows marketFilter sig)
     = CoinApiMjs.g_confidence sig) /\
  (forall rows marketFilter sig,
     "FUNDING_SOON_HIGH_RATE" ∈ CoinApiMjs.g_warnings
                                  (CoinApiMjs.attachFundingAndMarket rows marketFilter sig)
     <-> "FUNDING_SOON_HIGH_RATE" ∈ CoinApiMjs.g_warnings sig).
Proof.
  split; [|split; [|split; [|split; [|split; [|split]]]]].
  - intros s prem E Hprem. exact (intrabar_funding_warning _ _ _ _ _ _ _ E Hprem).
  - intros s prem E Hmode Hprem. exact (close_funding_warning _ _ _ _ _ _ _ E Hmode Hprem).
  - intros. apply minutesTo_le_30.
  - intros. apply intrabar_confidence_frame.
  - intros. apply close_confidence_frame.
  - intros. apply attach_keeps_confidence.
  - intros. apply attach_no_funding_soon.
Qed.

Lemma funding_warning_by_whole_minutes_witness :
  (In "FUNDING_SOON_HIGH_RATE" (warnings (Run.previewLong 0 ["FUNDING_SOON_HIGH_RATE"]))
   <-> fundingSoonHighRate 0 (Fixture.premium (Some 1500000) (1 # 1000))) /\
  (In "FUNDING_SOON_HIGH_RATE" (warnings Run.confirmedLong)
   <-> fundingSoonHighRate 3000 (Fixture.premium None 0)) /\
  ("FUNDING_SOON_HIGH_RATE" ∈ CoinApiMjs.g_warnings
                                (CoinApiMjs.attachFundingAndMarket [Run.geckoRow] "bybit"
                                   Run.geckoPreview)
   <-> "FUNDING_SOON_HIGH_RATE" ∈ CoinApiMjs.g_warnings Run.geckoPreview).
Proof.
  split; [|split].
  - apply (proj1 (funding_warning_by_whole_minutes (H := Fixture.indicators 65) 0
             (Fixture.market (Some 1500000) (1 # 1000)) "BTCUSDT" Fixture.tick ∅)).
    + vm_compute. reflexivity.
    + vm_compute. reflexivity.
  - apply (proj1 (proj2 (funding_warning_by_whole_minutes (H := Fixture.indicators 65) 3000
             (Fixture.market None 0) "BTCUSDT" Fixture.tick Run.requested))).
    + vm_compute. reflexivity.
    + reflexivity.
    + vm_compute. reflexivity.
  - apply (proj2 (proj2 (proj2 (proj2 (proj2 (proj2
             (funding_warning_by_whole_minutes (H := Fixture.indicators 65) 0
                (Fixture.market None 0) "BTCUSDT" Fixture.tick ∅))))))).
Defined.

(** Claim C9 as stated fails: with the funding 30.5 minutes away and a rate
    of 0.001 the warning is attached, although the funding time is not within
    30 minutes. *)
Lemma funding_warning_beyond_30_minutes :
  exists s,
    fst (evaluateIntrabarForSymbol (H := Fixture.indicators 65) 0
           (Fixture.market (Some 1830000) (1 # 1000)) "BTCUSDT" Fixture.tick ∅) = Some s /\
    premiumMap (Fixture.market (Some 1830000) (1 # 1000)) !! "BTCUSDT"
      = Some (Fixture.premium (Some 1830000) (1 # 1000)) /\
    In "FUNDING_SOON_HIGH_RATE" (warnings s) /\
    ~ fundingWithin30Minutes 0 (Fixture.premium (Some 1830000) (1 # 1000)).
Proof.
  eexists. split; [vm_compute; reflexivity|]. split; [vm_compute; reflexivity|].
  split; [vm_compute; tauto|].
  intros (t & Ht & Hle & _). cbn in Ht. injection Ht as <-. lia.
Qed.

(** ** Invalidated signals *)

(** Claim C10.  An INVALIDATED signal returned by a close-confirmation
    evaluation carries no trade parameters: direction NONE, confidence 0, no
    entry, take-profit or stop-loss price; its reasons are the invalidation
    reason alone and its id is ["INVALID|symbol|minute bucket|reason"].  The
    CoinGecko variant builds the same signal, with the SHA-1 digest of that
    string as id. *)
Theorem invalidated_carries_no_trade `{TechnicalIndicators} :
  (forall now mk symbol tickSize r s,
     fst (confirmOnCloseForSymbol now mk symbol tickSize r) = Some s ->
     mode s = INVALIDATED ->
     direction s = NONE /\ confidence s = 0 /\
     entryRefPrice s = None /\ tpPrice s = None /\ slPrice s = None /\
     exists reason,
       reasons s = [reason] /\
       sig_id s = "INVALID|" +:+ symbol +:+ "|" +:+ Z_str (floorTimeBucket now 60)
                  +:+ "|" +:+ reason) /\
  (forall sha1 now symbol reason r,
     let s := fst (CoinGeckoMjs.invalidate sha1 now symbol reason r) in
     mode s = INVALIDATED /\ direction s = NONE /\ confidence s = 0 /\
     entryRefPrice s = None /\ tpPrice s = None /\ slPrice s = None /\
     reasons s = [reason] /\
     sig_id s = sha1 ("INVALID|" +:+ symbol +:+ "|" +:+ Z_str (floorTimeBucket now 60)
                      +:+ "|" +:+ reason)).
Proof.
  split.
  - intros now mk symbol tickSize r s E Hmode.
    destruct (close_invalidated_inv _ _ _ _ _ _ E Hmode) as [reason ->].
    cbn. repeat split. by eexists.
  - intros. subst s. cbn. repeat split.
Qed.

Lemma invalidated_carries_no_trade_witness :
  direction Run.invalidatedReversal = NONE /\ confidence Run.invalidatedReversal = 0 /\
  entryRefPrice Run.invalidatedReversal = None /\ tpPrice Run.invalidatedReversal = None /\
  slPrice Run.invalidatedReversal = None /\
  exists reason,
    reasons Run.invalidatedReversal = [reason] /\
    sig_id Run.invalidatedReversal
      = "INVALID|" +:+ "BTCUSDT" +:+ "|" +:+ Z_str (floorTimeBucket 3000 60) +:+ "|" +:+ reason.
Proof.
  apply (proj1 (invalidated_carries_no_trade (H := Fixture.indicators 75)) 3000
           (Fixture.market None 0) "BTCUSDT" Fixture.tick Run.requestedReversal).
  - vm_compute. reflexivity.
  - reflexivity.
Defined.

(** ** Cooldown and dedupe in [V.0.0.1/netlify/functions/trade-bot.js] *)

Lemma cooldown_gate `{TechnicalIndicators} now mk symbol tickSize r :
  now < cooldown_until_ts (getState now symbol r) ->
  evaluateIntrabarForSymbol now mk symbol tickSize r = (None, r).
Proof.
  intros Hlt. unfold evaluateIntrabarForSymbol.
  apply Z.ltb_lt in Hlt. by rewrite Hlt.
Qed.

Lemma confirmed_arms_cooldown `{TechnicalIndicators} now mk symbol tickSize r s r' now' :
  confirmOnCloseForSymbol now mk symbol tickSize r = (Some s, r') ->
  mode s = CONFIRMED ->
  now' < now + 6 * 3600 * 1000 ->
  cooldown_until_ts (getState now' symbol r') = now + 30 * 60000.
Proof.
  intros E Hmode Hlt.
  pose proof (confirmOnClose_outcome now mk symbol tickSize r) as Hout.
  rewrite E in Hout. inversion Hout; subst.
  - discriminate Hmode.
  - by apply cooldown_after_save.
Qed.

Lemma invalidated_arms_cooldown `{TechnicalIndicators} now mk symbol tickSize r s r' now' :
  confirmOnCloseForSymbol now mk symbol tickSize r = (Some s, r') ->
  mode s = INVALIDATED ->
  now' < now + 6 * 3600 * 1000 ->
  cooldown_until_ts (getState now' symbol r') = now + 15 * 60000.
Proof.
  intros E Hmode Hlt.
  pose proof (confirmOnClose_outcome now mk symbol tickSize r) as Hout.
  rewrite E in Hout. inversion Hout; subst.
  - unfold invalidate. cbn [snd]. by apply cooldown_after_save.
  - congruence.
Qed.

(** In this variant the intrabar evaluation that follows a CONFIRMED outcome
    within 30 minutes, or an INVALIDATED outcome within 15 minutes, returns
    nothing, whatever the market. *)
Lemma no_preview_during_cooldown `{TechnicalIndicators}
    now mk symbol tickSize r s r' now' mk' tickSize' :
  confirmOnCloseForSymbol now mk symbol tickSize r = (Some s, r') ->
  (mode s = CONFIRMED /\ now' < now + 30 * 60000) \/
  (mode s = INVALIDATED /\ now' < now + 15 * 60000) ->
  evaluateIntrabarForSymbol now' mk' symbol tickSize' r' = (None, r').
Proof.
  intros E [[Hmode Hlt] | [Hmode Hlt]]; apply cooldown_gate.
  - rewrite (confirmed_arms_cooldown _ _ _ _ _ _ _ now' E Hmode); lia.
  - rewrite (invalidated_arms_cooldown _ _ _ _ _ _ _ now' E Hmode); lia.
Qed.

(** In this variant a second intrabar evaluation in the same 120-second
    bucket on the same market finds the preview id claimed and returns
    nothing, leaving the store as it is. *)
Lemma preview_claimed_once `{TechnicalIndicators} now1 now2 mk symbol tickSize r s r1 :
  evaluateIntrabarForSymbol now1 mk symbol tickSize r = (Some s, r1) ->
  floorTimeBucket now1 CONFIG.DEDUPE_SCOPE_SECONDS
    = floorTimeBucket now2 CONFIG.DEDUPE_SCOPE_SECONDS ->
  evaluateIntrabarForSymbol now2 mk symbol tickSize r1 = (None, r1).
Proof.
  intros E Hbucket. pose proof (same_bucket_close _ _ Hbucket) as Hlive.
  revert E. unfold evaluateIntrabarForSymbol.
  destruct (now2 <? cooldown_until_ts (getState now2 symbol r1)); [reflexivity|].
  destruct (now1 <? cooldown_until_ts (getState now1 symbol r)); [discriminate|].
  destruct (tickerMap mk !! symbol) as [ticker24|]; [|discriminate].
  destruct (premiumMap mk !! symbol) as [prem|]; [|discriminate].
  cbv beta iota zeta.
  destruct (Z.of_nat _ <? _); [discriminate|].
  destruct (rsi _); [|discriminate].
  destruct (macd _); [|discriminate].
  destruct (bb _); [|discriminate].
  destruct (atr _); [|discriminate].
  destruct (decide (dir _ = NO_TRADE)); [discriminate|].
  rewrite resolve_pair. rewrite <- Hbucket.
  repeat (head_step; try discriminate).
  intros E. simplify_eq.
  match goal with
  | E : tryDedupeOrDrop _ _ _ = (?b, _), Hb : negb ?b = false |- _ =>
      apply negb_false_iff in Hb; subst b; apply redis_set_nx_ok in E; subst
  end.
  repeat (head_step; try reflexivity).
  all: match goal with
       | E : tryDedupeOrDrop _ _ _ = (_, _) |- _ =>
           unfold tryDedupeOrDrop, savePending, saveLastSignal in E;
           rewrite redis_set_nx_taken in E;
           [ simplify_eq
           | rewrite redis_get_set_ne by apply kLastSig_kDedupe;
             rewrite redis_get_set_ne by apply kPending_kDedupe;
             rewrite redis_get_set_eq by exact Hlive; eauto ]
       end.
  all: reflexivity.
Qed.

(** ** The CoinAPI variant of [netlify/functions/trade-bot.js] *)

(** Claim C1 fails in this variant.  The store holds a cooldown armed at
    3 000 ms until 1 803 000 ms, as a CONFIRMED outcome leaves it.  At 4 000 ms
    the Binance variant returns nothing; the CoinAPI variant, whose cooldown
    test is commented out, returns a PREVIEW signal. *)
Theorem coinapi_variant_ignores_cooldown :
  cooldown_until_ts (getState 4000 "BTCUSDT" Run.closed) = 1803000 /\
  cooldown_until_ts (getState 4000 "BTCUSDT" Run.cooling) = 1803000 /\
  4000 < 1803000 /\
  evaluateIntrabarForSymbol (H := Fixture.indicators 65) 4000 (Fixture.market None 0)
    "BTCUSDT" Fixture.tick Run.cooling = (None, Run.cooling) /\
  exists s,
    fst (CoinApiJs.evaluateIntrabarForSymbol (H := Fixture.indicators 65) 4000
           Fixture.history "BTCUSDT" "BINANCEFTS_PERP_BTC_USDT" Fixture.tick
           (Some Fixture.ticker) Fixture.noFunding Run.cooling)
      = CoinApiJs.Returned (Some s) /\
    mode s = PREVIEW /\ direction s = LONG /\ confidence s = 76 /\
    sig_id s = "PREVIEW|BTCUSDT|LONG|0".
Proof.
  split; [vm_compute; reflexivity|]. split; [vm_compute; reflexivity|].
  split; [lia|]. split; [vm_compute; reflexivity|].
  eexists. split; [vm_compute; reflexivity|]. repeat split.
Qed.

(** Claim C2 fails in this variant.  Two intrabar evaluations at 1 000 ms and
    2 000 ms fall in the same 120-second bucket.  The Binance variant returns
    one PREVIEW signal and then nothing; the CoinAPI variant, whose dedupe
    claim is commented out, returns the PREVIEW signal twice, under the same
    id. *)
Theorem coinapi_variant_repeats_preview :
  floorTimeBucket 1000 120 = floorTimeBucket 2000 120 /\
  (exists s1,
     fst (evaluateIntrabarForSymbol (H := Fixture.indicators 65) 1000 (Fixture.market None 0)
            "BTCUSDT" Fixture.tick ∅) = Some s1 /\
     evaluateIntrabarForSymbol (H := Fixture.indicators 65) 2000 (Fixture.market None 0)
       "BTCUSDT" Fixture.tick Run.previewed = (None, Run.previewed)) /\
  exists s1 s2,
    fst (CoinApiJs.evaluateIntrabarForSymbol (H := Fixture.indicators 65) 1000
           Fixture.history "BTCUSDT" "BINANCEFTS_PERP_BTC_USDT" Fixture.tick
           (Some Fixture.ticker) Fixture.noFunding ∅) = CoinApiJs.Returned (Some s1) /\
    fst (CoinApiJs.evaluateIntrabarForSymbol (H := Fixture.indicators 65) 2000
           Fixture.history "BTCUSDT" "BINANCEFTS_PERP_BTC_USDT" Fixture.tick
           (Some Fixture.ticker) Fixture.noFunding Run.coinapiPreviewed)
      = CoinApiJs.Returned (Some s2) /\
    mode s1 = PREVIEW /\ mode s2 = PREVIEW /\
    direction s1 = LONG /\ direction s2 = LONG /\
    sig_id s1 = "PREVIEW|BTCUSDT|LONG|0" /\ sig_id s2 = sig_id s1.
Proof.
  split; [reflexivity|]. split.
  - eexists. split; [vm_compute; reflexivity | vm_compute; reflexivity].
  - do 2 eexists. split; [vm_compute; reflexivity|]. split; [vm_compute; reflexivity|].
    repeat split.
Qed.

(** * Further properties of the embedded code *)

(** ** Rationals *)

Lemma Qle_bool_false a b : Qle_bool a b = false <-> (b < a)%Q.
Proof.
  split; intros E.
  - apply Qnot_le_lt. intros Hle. apply Qle_bool_iff in Hle. congruence.
  - destruct (Qle_bool a b) eqn:E'; [|reflexivity].
    apply Qle_bool_iff in E'. exfalso. apply (Qlt_not_le _ _ E), E'.
Qed.


Lemma Qmax_lub_r a b : (b <= Qmax a b)%Q.
Proof.
  unfold Qmax. destruct (Qle_bool a b) eqn:E; [apply Qle_refl|].
  apply Qle_bool_false in E. by apply Qlt_le_weak.
Qed.


Lemma Qmin_glb_l a b : (Qmin a b <= a)%Q.
Proof.
  unfold Qmin. destruct (Qle_bool a b) eqn:E; [apply Qle_refl|].
  apply Qle_bool_false in E. by apply Qlt_le_weak.
Qed.

Lemma Qmin_glb_r a b : (Qmin a b <= b)%Q.
Proof.
  unfold Qmin. destruct (Qle_bool a b) eqn:E; [by apply Qle_bool_iff | apply Qle_refl].
Qed.

(** ** Time buckets *)

(** X1.  For a positive bucket length, [floorTimeBucket] returns the start of
    the bucket holding the instant: a multiple of the bucket length, not after
    the instant and less than one bucket before it.  Rounding is idempotent
    and monotone. *)
Theorem floorTimeBucket_bucket_start ms bucketSec :
  0 < bucketSec ->
  floorTimeBucket ms bucketSec <= ms < floorTimeBucket ms bucketSec + bucketSec * 1000 /\
  floorTimeBucket ms bucketSec mod (bucketSec * 1000) = 0 /\
  floorTimeBucket (floorTimeBucket ms bucketSec) bucketSec = floorTimeBucket ms bucketSec /\
  (forall ms', ms <= ms' -> floorTimeBucket ms bucketSec <= floorTimeBucket ms' bucketSec).
Proof.
  intros Hpos. unfold floorTimeBucket. cbv zeta.
  assert (Hb : 0 < bucketSec * 1000) by lia.
  set (b := bucketSec * 1000) in *.
  pose proof (Z.div_mod ms b ltac:(lia)) as Hdm.
  pose proof (Z.mod_pos_bound ms b Hb) as Hmod.
  repeat split.
  - lia.
  - lia.
  - apply Z.mod_mul. lia.
  - rewrite Z.div_mul by lia. reflexivity.
  - intros ms' Hle. apply Z.mul_le_mono_nonneg_r; [lia|].
    apply Z.div_le_mono; lia.
Qed.

Lemma floorTimeBucket_bucket_start_witness :
  floorTimeBucket 125000 120 <= 125000 < floorTimeBucket 125000 120 + 120 * 1000 /\
  floorTimeBucket 125000 120 mod (120 * 1000) = 0 /\
  floorTimeBucket (floorTimeBucket 125000 120) 120 = floorTimeBucket 125000 120 /\
  (forall ms', 125000 <= ms' -> floorTimeBucket 125000 120 <= floorTimeBucket ms' 120).
Proof. apply (floorTimeBucket_bucket_start 125000 120). lia. Defined.

(** ** Momentum and confidence *)

(** X2.  The momentum score lies between -4 and 5, and its strength is read
    off its absolute value: STRONG from 4, MED from 2, WEAK below. *)
Theorem momentum_score_range ind :
  -4 <= score (computeMomentum ind) <= 5 /\
  (strength (computeMomentum ind) = STRONG <-> 4 <= Z.abs (score (computeMomentum ind))) /\
  (strength (computeMomentum ind) = MED <-> 2 <= Z.abs (score (computeMomentum ind)) < 4) /\
  (strength (computeMomentum ind) = WEAK <-> Z.abs (score (computeMomentum ind)) < 2).
Proof.
  unfold computeMomentum. cbv zeta. cbn [score strength].
  set (s1 := match rsi ind with Some _ => _ | None => _ end).
  assert (H1 : -2 <= s1 <= 2).
  { subst s1. destruct (rsi ind) as [x|]; [|lia].
    destruct (Qgeb x 60); [lia|]. destruct (Qgeb x 52); [lia|].
    destruct (Qle_bool x 40); [lia|]. destruct (Qle_bool x 48); lia. }
  clearbody s1.
  set (s2 := if Qgeb (volumeRatio ind) (15 # 10) then _ else _).
  assert (H2 : s1 - 1 <= s2 <= s1 + 2).
  { subst s2. destruct (Qgeb _ (15 # 10)); [lia|]. destruct (Qgeb _ (11 # 10)); [lia|].
    destruct (Qle_bool _ _); lia. }
  clearbody s2.
  set (s4 := if decide (bbWidthClass ind = low) then _ else _).
  assert (H4 : s2 - 1 <= s4 <= s2 + 1).
  { subst s4. repeat destruct (decide _); try congruence; lia. }
  clearbody s4.
  destruct (4 <=? Z.abs s4) eqn:E4; [apply Z.leb_le in E4 | apply Z.leb_gt in E4];
    (destruct (2 <=? Z.abs s4) eqn:E2; [apply Z.leb_le in E2 | apply Z.leb_gt in E2]);
    repeat split; try lia; try discriminate; intros; lia.
Qed.

Lemma baseConfidence_bounds trend momentum ticker24 :
  34 <= baseConfidence trend momentum ticker24 <= 83.
Proof.
  unfold baseConfidence, clamp. cbv zeta.
  set (vol := if Qgtb (lastPrice ticker24) 0 then _ else _). clearbody vol.
  set (aligned := (_ || _ || _)%bool). clearbody aligned.
  destruct aligned, (strength momentum), (Qgtb vol 5), (Qgtb vol 2);
    repeat destruct (decide _); try congruence; lia.
Qed.

(** X3.  The base confidence always lies between 34 and 83, so the clamp to
    0..100 never acts on it, and both ends are reached. *)
Theorem baseConfidence_range :
  (forall trend momentum ticker24, 34 <= baseConfidence trend momentum ticker24 <= 83) /\
  (exists trend momentum ticker24, baseConfidence trend momentum ticker24 = 34) /\
  (exists trend momentum ticker24, baseConfidence trend momentum ticker24 = 83).
Proof.
  split; [exact baseConfidence_bounds | split].
  - exists UP, {| score := 0; strength := WEAK |},
      {| priceChangePercent := 3; highPrice := 101; lowPrice := 100; lastPrice := 100 |}.
    reflexivity.
  - exists UP, {| score := 4; strength := STRONG |},
      {| priceChangePercent := 3; highPrice := 106; lowPrice := 100; lastPrice := 100 |}.
    reflexivity.
Qed.

(** ** Liquidation adjustments *)

Lemma adjusted_within direction confidence liq :
  0 <= confidence <= 100 ->
  confidence - 10
    <= adj_confidence (applyLiquidationAdjustments direction confidence liq)
    <= confidence + 5.
Proof.
  intros Hc.
  unfold applyLiquidationAdjustments, clamp, CONFIG.LIQ_PENALTY_HIGH,
    CONFIG.LIQ_PENALTY_MED, CONFIG.LIQ_PENALTY_LOW, CONFIG.LIQ_BONUS_ALIGN.
  cbv zeta.
  repeat match goal with
         | |- context [if ?c then _ else _] => destruct c
         end; cbn [adj_confidence]; lia.
Qed.

(** X4.  On a confidence within 0..100 the liquidation adjustment takes off
    at most 10 points and adds at most 5.  A veto always comes with the
    high-intensity penalty and never with the alignment bonus; with an
    intensity below 4 and no liquidation bias nothing changes. *)
Theorem liquidation_adjustment_bounds direction confidence liq :
  0 <= confidence <= 100 ->
  confidence - 10
    <= adj_confidence (applyLiquidationAdjustments direction confidence liq)
    <= confidence + 5 /\
  (veto (applyLiquidationAdjustments direction confidence liq) = true ->
   adj_confidence (applyLiquidationAdjustments direction confidence liq)
     = Z.max 0 (confidence - 10) /\
   adj_warnings (applyLiquidationAdjustments direction confidence liq)
     = ["LIQ_INTENSITY_HIGH"%string]) /\
  ((intensityScore liq < 4)%Q -> dirBias liq = 0 ->
   applyLiquidationAdjustments direction confidence liq
     = {| adj_confidence := confidence; veto := false; adj_warnings := [] |}).
Proof.
  intros Hc. split; [|split].
  - by apply adjusted_within.
  - intros Hv. rewrite veto_flag in Hv. unfold CONFIG.LIQ_THR_HIGH in Hv.
    destruct (Qgeb (intensityScore liq) 8) eqn:E8;
      [|rewrite !andb_false_r in Hv; discriminate Hv].
    rewrite !andb_true_r in Hv. apply orb_true_iff in Hv.
    unfold applyLiquidationAdjustments, clamp, CONFIG.LIQ_THR_HIGH,
      CONFIG.LIQ_PENALTY_HIGH, CONFIG.LIQ_BONUS_ALIGN.
    cbv zeta. rewrite E8.
    destruct Hv as [Hv | Hv]; apply andb_true_iff in Hv; destruct Hv as [Hd Hb];
      apply bool_decide_eq_true in Hd; apply Z.eqb_eq in Hb; subst direction; rewrite Hb.
    + change (bool_decide (LONG = SHORT)) with false.
      change (bool_decide (LONG = LONG)) with true.
      cbn. split; [lia | reflexivity].
    + change (bool_decide (SHORT = SHORT)) with true.
      change (bool_decide (SHORT = LONG)) with false.
      cbn. split; [lia | reflexivity].
  - intros Hlow Hbias.
    unfold applyLiquidationAdjustments, clamp, CONFIG.LIQ_THR_HIGH, CONFIG.LIQ_THR_MED,
      CONFIG.LIQ_THR_LOW.
    cbv zeta. rewrite Hbias. cbn [Z.eqb andb].
    assert (E4 : Qgeb (intensityScore liq) 4 = false).
    { apply Qle_bool_false. exact Hlow. }
    assert (E6 : Qgeb (intensityScore liq) 6 = false).
    { apply Qle_bool_false. eapply Qlt_trans; [exact Hlow | reflexivity]. }
    assert (E8 : Qgeb (intensityScore liq) 8 = false).
    { apply Qle_bool_false. eapply Qlt_trans; [exact Hlow | reflexivity]. }
    rewrite E4, E6, E8. rewrite !andb_false_r. cbn.
    f_equal. lia.
Qed.

Lemma liquidation_adjustment_bounds_witness :
  70 - 10
    <= adj_confidence (applyLiquidationAdjustments LONG 70
                         {| intensityScore := 9; dirBias := 1; notionalSum := 0 |})
    <= 70 + 5.
Proof.
  apply (liquidation_adjustment_bounds LONG 70
           {| intensityScore := 9; dirBias := 1; notionalSum := 0 |}). lia.
Defined.

(** ** Target planning *)

(** X5.  The stop multiplier is 2 when the signal is no reversal, its
    confidence is at least 68, the liquidation intensity is below 6 and the
    bands are not wide; otherwise it is 2.5.  The cap of 3 is never reached
    and the momentum strength plays no part.  The reward-to-risk factor is 2
    for a STRONG momentum with confidence from 75, otherwise 1.5. *)
Theorem stop_multiplier_values confidence momentumStrength isReversal liqIntensity bbw :
  chooseSLMult confidence momentumStrength isReversal liqIntensity bbw
    = (if negb isReversal && (68 <=? confidence) && Qltb liqIntensity 6
          && negb (bool_decide (bbw = high))
       then 2 else 25 # 10)%Q /\
  chooseRR confidence momentumStrength
    = (if (75 <=? confidence) && bool_decide (momentumStrength = STRONG) then 2 else 3 # 2)%Q.
Proof.
  split; [|reflexivity].
  unfold chooseSLMult, Qltb, Qgeb, CONFIG.LIQ_THR_MED. cbv zeta.
  rewrite (Z.leb_antisym confidence 68).
  destruct isReversal, (confidence <? 68), (Qle_bool 6 liqIntensity), bbw; reflexivity.
Qed.

(** ** Target plan geometry *)





(** ** Signal identifiers *)

Lemma Dir_str_tail_inj d d' x y :
  Dir_str d +:+ "|" +:+ x = Dir_str d' +:+ "|" +:+ y -> d = d' /\ x = y.
Proof. destruct d, d'; cbn; intros E; simplify_eq; done. Qed.

(** X8.  For one symbol, two PREVIEW ids are equal exactly when direction and
    bucket are, and two CONFIRMED ids exactly when direction and candle close
    time are; PREVIEW, CONFIRMED and INVALID ids never coincide.  Hence the
    previews of a symbol and direction share an id exactly within one
    120-second bucket. *)
Theorem signal_ids_distinguish symbol :
  (forall d d' b b',
     makePreviewId symbol d b = makePreviewId symbol d' b' <-> d = d' /\ b = b') /\
  (forall d d' t t',
     makeConfirmedId symbol d t = makeConfirmedId symbol d' t' <-> d = d' /\ t = t') /\
  (forall s1 s2 s3 d1 d2 b t bucket reason,
     makePreviewId s1 d1 b <> makeConfirmedId s2 d2 t /\
     makePreviewId s1 d1 b <> makeInvalidId s3 bucket reason /\
     makeConfirmedId s2 d2 t <> makeInvalidId s3 bucket reason) /\
  (forall d now1 now2,
     makePreviewId symbol d (floorTimeBucket now1 CONFIG.DEDUPE_SCOPE_SECONDS)
       = makePreviewId symbol d (floorTimeBucket now2 CONFIG.DEDUPE_SCOPE_SECONDS)
     <-> now1 / 120000 = now2 / 120000).
Proof.
  assert (Hprev : forall d d' b b',
            makePreviewId symbol d b = makePreviewId symbol d' b' <-> d = d' /\ b = b').
  { intros d d' b b'. split; [|by intros [-> ->]].
    unfold makePreviewId. intros E.
    apply (inj (String.app "PREVIEW|")) in E. apply (inj (String.app symbol)) in E.
    apply (inj (String.app "|")) in E. apply Dir_str_tail_inj in E as [-> E].
    split; [reflexivity|]. by apply (inj pretty) in E. }
  split; [exact Hprev|]. split; [|split].
  - intros d d' t t'. split; [|by intros [-> ->]].
    unfold makeConfirmedId. intros E.
    apply (inj (String.app "CONFIRMED|")) in E. apply (inj (String.app symbol)) in E.
    apply (inj (String.app "|")) in E. apply Dir_str_tail_inj in E as [-> E].
    split; [reflexivity|]. by apply (inj pretty) in E.
  - intros. unfold makePreviewId, makeConfirmedId, makeInvalidId.
    repeat split; intros E; cbv in E; congruence.
  - intros d now1 now2. rewrite Hprev.
    unfold floorTimeBucket, CONFIG.DEDUPE_SCOPE_SECONDS. change (120 * 1000) with 120000.
    split; [intros [_ E]; lia | intros E; split; [reflexivity | lia]].
Qed.

(** ** Dedupe claims *)

(** X9.  A successful dedupe claim holds for 120 seconds: until then a second
    claim of the same id fails and leaves the store alone, from then on the id
    can be claimed again.  Claims of other ids are not affected. *)
Theorem dedupe_claim_window now id (r : Redis) :
  fst (tryDedupeOrDrop now id r) = true ->
  (forall now', now' < now + 120000 ->
     tryDedupeOrDrop now' id (snd (tryDedupeOrDrop now id r))
       = (false, snd (tryDedupeOrDrop now id r))) /\
  (forall now', now + 120000 <= now' ->
     fst (tryDedupeOrDrop now' id (snd (tryDedupeOrDrop now id r))) = true) /\
  (forall now' id', id' <> id ->
     fst (tryDedupeOrDrop now' id' (snd (tryDedupeOrDrop now id r)))
       = fst (tryDedupeOrDrop now' id' r)).
Proof.
  intros Hok. apply fst_eq in Hok. apply redis_set_nx_ok in Hok.
  unfold tryDedupeOrDrop in *. rewrite Hok. clear Hok. split; [|split].
  - intros now' Hlt. apply redis_set_nx_taken.
    rewrite redis_get_set_eq; [eauto|]. unfold CONFIG.DEDUPE_TTL_SECONDS. lia.
  - intros now' Hge. unfold redis_set_nx, redis_get at 1, redis_set at 1.
    rewrite lookup_insert_eq. unfold live. cbn [entry_expireAt].
    unfold CONFIG.DEDUPE_TTL_SECONDS.
    destruct (now' <? now + 120 * 1000) eqn:E; [apply Z.ltb_lt in E; lia|].
    reflexivity.
  - intros now' id' Hne. unfold redis_set_nx.
    rewrite redis_get_set_ne.
    + by destruct (redis_get r now' (kDedupe id')).
    + unfold kDedupe. intros E. apply (inj (String.app "sig:dedupe:")) in E. congruence.
Qed.

Lemma dedupe_claim_window_witness :
  tryDedupeOrDrop 2000 "PREVIEW|BTCUSDT|LONG|0"
    (snd (tryDedupeOrDrop 1000 "PREVIEW|BTCUSDT|LONG|0" ∅))
  = (false, snd (tryDedupeOrDrop 1000 "PREVIEW|BTCUSDT|LONG|0" ∅)).
Proof.
  apply (dedupe_claim_window 1000 "PREVIEW|BTCUSDT|LONG|0" ∅); [reflexivity | lia].
Defined.

(** ** Tick-size strings *)

Lemma string_app_cons c s t : String c s +:+ t = String c (s +:+ t).
Proof. reflexivity. Qed.

Lemma string_app_nil t : EmptyString +:+ t = t.
Proof. reflexivity. Qed.

Lemma afterDot_app_dot ip rest :
  TickString.afterDot ip = None ->
  TickString.afterDot (ip +:+ String "." rest) = Some rest.
Proof.
  induction ip as [|c ip IH]; [reflexivity|].
  rewrite string_app_cons. cbn. destruct (Ascii.eqb c "."); [discriminate | exact IH].
Qed.

Lemma beforeDot_no_dot s : TickString.afterDot s = None -> TickString.beforeDot s = s.
Proof.
  induction s as [|c s IH]; cbn; [reflexivity|].
  destruct (Ascii.eqb c "."); [discriminate|]. intros E. f_equal. by apply IH.
Qed.

Lemma afterDot_app f rest :
  TickString.afterDot f = None ->
  TickString.afterDot rest = None ->
  TickString.afterDot (f +:+ rest) = None.
Proof.
  intros Hf Hrest. induction f as [|c f IH]; [exact Hrest|].
  rewrite string_app_cons. cbn in *. destruct (Ascii.eqb c "."); [discriminate|]. by apply IH.
Qed.

Lemma afterDot_zeros n : TickString.afterDot (zeros n) = None.
Proof. induction n; cbn; done. Qed.

Lemma stripZeros_zeros n : TickString.stripZeros (zeros n) = EmptyString.
Proof. induction n as [|n IH]; cbn; [reflexivity|]. by rewrite IH. Qed.

Lemma stripZeros_keep f c n :
  c <> "0"%char ->
  TickString.stripZeros (f +:+ String c (zeros n)) = f +:+ String c EmptyString.
Proof.
  intros Hc. induction f as [|d f IH].
  - rewrite !string_app_nil. cbn.
    rewrite stripZeros_zeros. by rewrite (proj2 (Ascii.eqb_neq c "0") Hc).
  - rewrite !string_app_cons. cbn. rewrite IH.
    destruct f; [rewrite string_app_nil | rewrite string_app_cons]; reflexivity.
Qed.

Lemma length_app_one f c : String.length (f +:+ String c EmptyString) = S (String.length f).
Proof.
  induction f as [|d f IH]; [reflexivity|]. rewrite string_app_cons. cbn. by rewrite IH.
Qed.

(** X10.  [tickDecimals] is 0 for a string without a decimal point and for a
    fraction of zeros only; otherwise it counts the digits after the point up
    to the last one that is not a zero, so trailing zeros do not count. *)
Theorem tickDecimals_significant_digits ip :
  TickString.afterDot ip = None ->
  TickString.tickDecimals ip = 0 /\
  (forall n, TickString.tickDecimals (ip +:+ "." +:+ zeros n) = 0) /\
  (forall f c n,
     TickString.afterDot f = None -> c <> "."%char -> c <> "0"%char ->
     TickString.tickDecimals (ip +:+ "." +:+ f +:+ String c (zeros n))
       = Z.of_nat (String.length f) + 1).
Proof.
  intros Hip. unfold TickString.tickDecimals. split; [by rewrite Hip|]. split.
  - intros n. change ("." +:+ zeros n) with (String "." (zeros n)).
    rewrite afterDot_app_dot by exact Hip.
    rewrite beforeDot_no_dot by apply afterDot_zeros.
    by rewrite stripZeros_zeros.
  - intros f c n Hf Hdot Hzero.
    change ("." +:+ f +:+ String c (zeros n)) with (String "." (f +:+ String c (zeros n))).
    rewrite afterDot_app_dot by exact Hip.
    rewrite beforeDot_no_dot.
    + rewrite stripZeros_keep by exact Hzero. rewrite length_app_one. lia.
    + apply afterDot_app; [exact Hf|].
      cbn. rewrite (proj2 (Ascii.eqb_neq c ".") Hdot). apply afterDot_zeros.
Qed.

Lemma tickDecimals_significant_digits_witness :
  TickString.tickDecimals "10" = 0 /\
  TickString.tickDecimals ("0" +:+ "." +:+ "00" +:+ String "1" (zeros 2))
    = Z.of_nat (String.length "00") + 1.
Proof.
  split.
  - apply (tickDecimals_significant_digits "10"). reflexivity.
  - apply (tickDecimals_significant_digits "0"); [reflexivity | reflexivity | | ];
      intros E; discriminate E.
Defined.

(** ** The store: keys and frames *)

Lemma kCooldown_inj a b : kCooldown a = kCooldown b -> a = b.
Proof. unfold kCooldown. apply (inj (String.app "sig:cooldown:")). Qed.

Lemma kPending_inj a b : kPending a = kPending b -> a = b.
Proof. unfold kPending. apply (inj (String.app "sig:pending:")). Qed.

Lemma kLastSig_inj a b : kLastSig a = kLastSig b -> a = b.
Proof. unfold kLastSig. apply (inj (String.app "sig:lastsig:")). Qed.

Lemma kCooldown_kLastSig a b : kCooldown a <> kLastSig b.
Proof. key_ne. Qed.

Lemma kPending_kLastSig a b : kPending a <> kLastSig b.
Proof. key_ne. Qed.

Lemma kCooldown_kDedupe a b : kCooldown a <> kDedupe b.
Proof. key_ne. Qed.

Lemma kLiq_not_own a sym : ~ ownKey sym (kLiq a).
Proof. intros [E | [E | [E | [id E]]]]; revert E; key_ne. Qed.

Lemma other_symbol_not_own a sym :
  a <> sym ->
  ~ ownKey sym (kCooldown a) /\ ~ ownKey sym (kPending a) /\ ~ ownKey sym (kLastSig a).
Proof.
  intros Hne. repeat split; intros [E | [E | [E | [id E]]]]; revert E;
    first [ key_ne
          | intros E; apply kCooldown_inj in E; congruence
          | intros E; apply kPending_inj in E; congruence
          | intros E; apply kLastSig_inj in E; congruence ].
Qed.

Lemma redis_set_nx_false (r r' : Redis) now k v ex :
  redis_set_nx r now k v ex = (false, r') -> r' = r.
Proof. unfold redis_set_nx. destruct (redis_get r now k); congruence. Qed.

Lemma redis_set_nx_free (r r' : Redis) now k v ex :
  redis_set_nx r now k v ex = (true, r') -> redis_get r now k = None.
Proof. unfold redis_set_nx. destruct (redis_get r now k); congruence. Qed.

Lemma set_frame sym (r : Redis) now k v ex k' :
  ownKey sym k -> ~ ownKey sym k' -> redis_set r now k v ex !! k' = r !! k'.
Proof.
  intros Hown Hnot. unfold redis_set. apply lookup_insert_ne. intros ->. by apply Hnot.
Qed.

Lemma del_frame sym (r : Redis) k k' :
  ownKey sym k -> ~ ownKey sym k' -> redis_del r k !! k' = r !! k'.
Proof.
  intros Hown Hnot. unfold redis_del. apply lookup_delete_ne. intros ->. by apply Hnot.
Qed.

Lemma own_cooldown sym : ownKey sym (kCooldown sym).
Proof. by left. Qed.

Lemma own_pending sym : ownKey sym (kPending sym).
Proof. right. by left. Qed.

Lemma own_lastsig sym : ownKey sym (kLastSig sym).
Proof. right. right. by left. Qed.

Lemma own_dedupe sym id : ownKey sym (kDedupe id).
Proof. right. right. right. by exists id. Qed.

(** ** Intrabar evaluation: what it can return *)

Lemma intrabar_outcome `{TechnicalIndicators} now mk sym tickSize r :
  IntrabarOutcome now sym r (evaluateIntrabarForSymbol now mk sym tickSize r).
Proof.
  unfold evaluateIntrabarForSymbol.
  destruct (now <? cooldown_until_ts (getState now sym r)) eqn:Hcd; [constructor|].
  apply Z.ltb_ge in Hcd.
  repeat (head_step; try (constructor; fail)).
  all: match goal with
       | E : tryDedupeOrDrop _ _ _ = (?b, _), Hb : negb ?b = _ |- _ =>
           destruct b; try discriminate Hb; unfold tryDedupeOrDrop in E
       end.
  - match goal with
    | E : redis_set_nx _ _ _ _ _ = (false, _) |- _ => apply redis_set_nx_false in E; subst
    end.
    constructor.
  - match goal with
    | E : redis_set_nx _ _ _ _ _ = (true, _) |- _ =>
        pose proof (redis_set_nx_free _ _ _ _ _ _ E) as Hfree;
        apply redis_set_nx_ok in E; subst
    end.
    match goal with
    | |- IntrabarOutcome _ _ _ (Some ?s, _) => apply (IntrabarPreview now sym r s)
    end; [reflexivity | exact Hcd | exact Hfree].
Qed.

Lemma close_nothing_store `{TechnicalIndicators} now mk sym tickSize r r' :
  confirmOnCloseForSymbol now mk sym tickSize r = (None, r') -> r' = r.
Proof.
  unfold confirmOnCloseForSymbol.
  repeat (head_step; try (intros E; simplify_eq; done)).
  all: intros E; simplify_eq.
  all: match goal with
       | E : tryDedupeOrDrop _ _ _ = (?b, _), Hb : negb ?b = true |- _ =>
           destruct b; try discriminate Hb; unfold tryDedupeOrDrop in E;
           apply redis_set_nx_false in E; by subst
       end.
Qed.

Lemma intrabar_frame `{TechnicalIndicators} now mk sym tickSize r k :
  ~ ownKey sym k ->
  snd (evaluateIntrabarForSymbol now mk sym tickSize r) !! k = r !! k.
Proof.
  intros Hk. pose proof (intrabar_outcome now mk sym tickSize r) as Hout.
  inversion Hout; cbn [snd]; [reflexivity|].
  unfold saveLastSignal, savePending.
  rewrite (set_frame sym) by (apply own_lastsig || exact Hk).
  rewrite (set_frame sym) by (apply own_pending || exact Hk).
  by rewrite (set_frame sym) by (apply own_dedupe || exact Hk).
Qed.

Lemma request_frame now sym r k :
  ~ ownKey sym k -> snd (userRequestConfirm now sym r) !! k = r !! k.
Proof.
  intros Hk. unfold userRequestConfirm.
  destruct (pending_confirm (getState now sym r)); cbn [snd]; [|reflexivity].
  unfold savePending. by rewrite (set_frame sym) by (apply own_pending || exact Hk).
Qed.

Lemma resolved_frame sym now until lastSig (r : Redis) k :
  ~ ownKey sym k ->
  saveLastSignal now sym lastSig (clearPending sym (saveCooldown now sym until r)) !! k
    = r !! k.
Proof.
  intros Hk. unfold saveLastSignal, clearPending, saveCooldown.
  rewrite (set_frame sym) by (apply own_lastsig || exact Hk).
  rewrite (del_frame sym) by (apply own_pending || exact Hk).
  by rewrite (set_frame sym) by (apply own_cooldown || exact Hk).
Qed.

Lemma close_frame `{TechnicalIndicators} now mk sym tickSize r k :
  ~ ownKey sym k ->
  snd (confirmOnCloseForSymbol now mk sym tickSize r) !! k = r !! k.
Proof.
  intros Hk. pose proof (confirmOnClose_outcome now mk sym tickSize r) as Hout.
  destruct (confirmOnCloseForSymbol now mk sym tickSize r) as [o r'] eqn:E.
  inversion Hout; subst; cbn [snd].
  - reflexivity.
  - apply close_nothing_store in E. by subst.
  - unfold invalidate. cbn [snd]. by apply resolved_frame.
  - rewrite resolved_frame by exact Hk.
    by rewrite (set_frame sym) by (apply own_dedupe || exact Hk).
Qed.

Lemma getState_frame now a (r r' : Redis) :
  r' !! kCooldown a = r !! kCooldown a ->
  r' !! kPending a = r !! kPending a ->
  r' !! kLastSig a = r !! kLastSig a ->
  getState now a r' = getState now a r.
Proof. intros E1 E2 E3. unfold getState, redis_get. by rewrite E1, E2, E3. Qed.

(** X11.  The three operations on a symbol write only that symbol's
    cooldown, pending and last-signal keys and dedupe markers.  So they leave
    the state of every other symbol as it was, at every instant, and never
    touch a liquidation snapshot. *)
Theorem operations_keep_other_symbols `{TechnicalIndicators} now mk sym tickSize r :
  forall r',
    r' = snd (evaluateIntrabarForSymbol now mk sym tickSize r) \/
    r' = snd (userRequestConfirm now sym r) \/
    r' = snd (confirmOnCloseForSymbol now mk sym tickSize r) ->
    (forall k, ~ ownKey sym k -> r' !! k = r !! k) /\
    (forall now' other, other <> sym -> getState now' other r' = getState now' other r) /\
    (forall now' any,
       getLiquidationFromRedis now' any r' = getLiquidationFromRedis now' any r).
Proof.
  intros r' Hr'.
  assert (Hframe : forall k, ~ ownKey sym k -> r' !! k = r !! k).
  { intros k Hk. destruct Hr' as [-> | [-> | ->]].
    - by apply intrabar_frame.
    - by apply request_frame.
    - by apply close_frame. }
  split; [exact Hframe|]. split.
  - intros now' other Hne.
    destruct (other_symbol_not_own other sym Hne) as (H1 & H2 & H3).
    apply getState_frame; by apply Hframe.
  - intros now' any. unfold getLiquidationFromRedis, redis_get.
    by rewrite (Hframe (kLiq any)) by apply kLiq_not_own.
Qed.

Lemma operations_keep_other_symbols_witness :
  getState 5000 "ETHUSDT" Run.closed = getState 5000 "ETHUSDT" Run.requested.
Proof.
  apply (operations_keep_other_symbols (H := Fixture.indicators 65) 3000
           (Fixture.market None 0) "BTCUSDT" Fixture.tick Run.requested Run.closed).
  - right. right. reflexivity.
  - intros E. discriminate E.
Defined.

(** ** Signals are well formed *)

Lemma resolved_long_or_short trend ind :
  dir (directionCandidate trend ind) <> NO_TRADE ->
  resolvedDirection (dir (directionCandidate trend ind)) = LONG \/
  resolvedDirection (dir (directionCandidate trend ind)) = SHORT.
Proof.
  unfold directionCandidate.
  repeat case_match; cbn; intros Hne; try (by left); try (by right); done.
Qed.

Lemma rounded_sides entry sl tp tick direction :
  (direction = LONG ->
   (r_slPrice (roundSLTP entry sl tp tick direction) <= entry - tickValue tick)%Q /\
   (entry + tickValue tick <= r_tpPrice (roundSLTP entry sl tp tick direction))%Q) /\
  (direction = SHORT ->
   (entry + tickValue tick <= r_slPrice (roundSLTP entry sl tp tick direction))%Q /\
   (r_tpPrice (roundSLTP entry sl tp tick direction) <= entry - tickValue tick)%Q).
Proof.
  unfold roundSLTP. split; intros ->.
  - rewrite decide_True by reflexivity. cbn [r_slPrice r_tpPrice].
    split; [apply Qmin_glb_r | apply Qmax_lub_r].
  - rewrite decide_False by discriminate. cbn [r_slPrice r_tpPrice].
    split; [apply Qmax_lub_r | apply Qmin_glb_r].
Qed.

Lemma plan_needs_atr entry atr direction confidence ms isReversal liq bbw plan :
  pickTpSlATR entry atr direction confidence ms isReversal liq bbw = Some plan ->
  (0 < atr)%Q /\ plan_atr plan = atr.
Proof.
  unfold pickTpSlATR, Qgtb, Qltb. rewrite negb_involutive.
  destruct (Qle_bool atr 0) eqn:E; [discriminate|]. apply Qle_bool_false in E.
  cbv zeta. destruct (decide (direction = LONG)); intros E'; simplify_eq; by split.
Qed.

Lemma adjusted_confidence_le_88 direction trend momentum ticker24 liq :
  adj_confidence
    (applyLiquidationAdjustments direction (baseConfidence trend momentum ticker24) liq)
  <= 88.
Proof.
  pose proof (baseConfidence_bounds trend momentum ticker24) as Hb.
  pose proof (adjusted_within direction (baseConfidence trend momentum ticker24) liq
                ltac:(lia)).
  lia.
Qed.

(** X12.  A PREVIEW signal returned by an intrabar evaluation is for the
    evaluated symbol, created at the evaluation instant and not confirmed; its
    direction is LONG or SHORT, its id is the preview id of symbol, direction
    and 120-second bucket, its confidence lies in 60..88, its entry price and
    ATR are positive, and stop and target lie at least one tick from the
    entry: stop below and target above for LONG, the reverse for SHORT. *)
Theorem preview_signal_well_formed `{TechnicalIndicators} now mk sym tickSize r s :
  fst (evaluateIntrabarForSymbol now mk sym tickSize r) = Some s ->
  mode s = PREVIEW /\ symbol s = sym /\ created s = now /\ confirmed s = None /\
  (direction s = LONG \/ direction s = SHORT) /\
  sig_id s = makePreviewId sym (direction s) (floorTimeBucket now 120) /\
  60 <= confidence s <= 88 /\
  exists entry sl tp m,
    entryRefPrice s = Some entry /\ slPrice s = Some sl /\ tpPrice s = Some tp /\
    meta s = Some m /\ meta_tickSize m = tickSize /\
    (0 < entry)%Q /\ (0 < meta_atr m)%Q /\
    (direction s = LONG ->
     (sl <= entry - tickValue tickSize)%Q /\ (entry + tickValue tickSize <= tp)%Q) /\
    (direction s = SHORT ->
     (entry + tickValue tickSize <= sl)%Q /\ (tp <= entry - tickValue tickSize)%Q).
Proof.
  intros E. apply fst_eq in E. revert E.
  generalize (snd (evaluateIntrabarForSymbol now mk sym tickSize r)). intros r'.
  unfold evaluateIntrabarForSymbol.
  destruct (now <? cooldown_until_ts (getState now sym r)); [discriminate|].
  destruct (tickerMap mk !! sym) as [ticker24|]; [|discriminate].
  destruct (premiumMap mk !! sym) as [prem|]; [|discriminate].
  cbv beta iota zeta.
  destruct (Z.of_nat _ <? _); [discriminate|].
  set (ind := computeIndicatorsFromCandles _).
  destruct (rsi ind); [|discriminate].
  destruct (macd ind); [|discriminate].
  destruct (bb ind); [|discriminate].
  destruct (atr ind) as [ind_atr|]; [|discriminate].
  destruct (decide (dir _ = NO_TRADE)) as [|Hcand]; [discriminate|].
  rewrite resolve_pair.
  repeat (head_step; try discriminate).
  intros E. simplify_eq.
  cbn [mode symbol created confirmed direction sig_id confidence entryRefPrice slPrice
       tpPrice meta].
  pose proof (resolved_long_or_short _ _ Hcand) as Hdir.
  match goal with
  | E : (_ <? CONFIG.MIN_CONF_SHOW) = false |- _ =>
      apply Z.ltb_ge in E; unfold CONFIG.MIN_CONF_SHOW in E; rename E into Hconf
  end.
  match goal with
  | E : negb (Qgtb _ 0) = false |- _ =>
      apply negb_false_iff in E; unfold Qgtb, Qltb in E; apply negb_true_iff in E;
      apply Qle_bool_false in E; rename E into Hentry
  end.
  match goal with
  | E : pickTpSlATR _ _ _ _ _ _ _ _ = Some _ |- _ =>
      destruct (plan_needs_atr _ _ _ _ _ _ _ _ _ E) as [Hatr Hplan]
  end.
  split; [reflexivity|]. split; [reflexivity|]. split; [reflexivity|].
  split; [reflexivity|]. split; [exact Hdir|]. split; [reflexivity|].
  split; [split; [exact Hconf | apply adjusted_confidence_le_88]|].
  do 4 eexists. split; [reflexivity|]. split; [reflexivity|]. split; [reflexivity|].
  split; [reflexivity|]. cbn [meta_tickSize meta_atr]. split; [reflexivity|].
  split; [exact Hentry|]. split; [by rewrite Hplan|].
  apply rounded_sides.
Qed.

Lemma preview_signal_well_formed_witness :
  mode (Run.previewLong 1000 []) = PREVIEW /\
  symbol (Run.previewLong 1000 []) = "BTCUSDT"%string /\
  created (Run.previewLong 1000 []) = 1000 /\
  confirmed (Run.previewLong 1000 []) = None /\
  (direction (Run.previewLong 1000 []) = LONG \/ direction (Run.previewLong 1000 []) = SHORT) /\
  sig_id (Run.previewLong 1000 [])
    = makePreviewId "BTCUSDT" (direction (Run.previewLong 1000 [])) (floorTimeBucket 1000 120) /\
  60 <= confidence (Run.previewLong 1000 []) <= 88 /\
  exists entry sl tp m,
    entryRefPrice (Run.previewLong 1000 []) = Some entry /\
    slPrice (Run.previewLong 1000 []) = Some sl /\
    tpPrice (Run.previewLong 1000 []) = Some tp /\
    meta (Run.previewLong 1000 []) = Some m /\ meta_tickSize m = Fixture.tick /\
    (0 < entry)%Q /\ (0 < meta_atr m)%Q /\
    (direction (Run.previewLong 1000 []) = LONG ->
     (sl <= entry - tickValue Fixture.tick)%Q /\ (entry + tickValue Fixture.tick <= tp)%Q) /\
    (direction (Run.previewLong 1000 []) = SHORT ->
     (entry + tickValue Fixture.tick <= sl)%Q /\ (tp <= entry - tickValue Fixture.tick)%Q).
Proof.
  apply (preview_signal_well_formed (H := Fixture.indicators 65) 1000 (Fixture.market None 0)
           "BTCUSDT" Fixture.tick ∅ (Run.previewLong 1000 [])).
  vm_compute. reflexivity.
Defined.

(** The path a close-confirmation evaluation takes to a CONFIRMED signal. *)
Lemma close_confirmed_path `{TechnicalIndicators} now mk sym tickSize r s :
  fst (confirmOnCloseForSymbol now mk sym tickSize r) = Some s ->
  mode s = CONFIRMED ->
  exists p ticker24 prem ind_atr tpsl conf,
    pending_confirm (getState now sym r) = Some p /\ confirm_requested p = true /\
    dir (directionCandidate
           (classifyTrend ticker24
              (computeIndicatorsFromCandles
                 (parseCandleRows (fetchKlines1h mk sym CONFIG.KLINE_LIMIT))))
           (computeIndicatorsFromCandles
              (parseCandleRows (fetchKlines1h mk sym CONFIG.KLINE_LIMIT)))) <> NO_TRADE /\
    direction s = p_direction p /\
    conf = adj_confidence
             (applyLiquidationAdjustments (direction s)
                (baseConfidence
                   (classifyTrend ticker24
                      (computeIndicatorsFromCandles
                         (parseCandleRows (fetchKlines1h mk sym CONFIG.KLINE_LIMIT))))
                   (computeMomentum
                      (computeIndicatorsFromCandles
                         (parseCandleRows (fetchKlines1h mk sym CONFIG.KLINE_LIMIT))))
                   ticker24)
                (getLiquidationFromRedis now sym r)) /\
    60 <= conf /\ (0 < markPrice prem)%Q /\ (0 < ind_atr)%Q /\ plan_atr tpsl = ind_atr /\
    direction s
      = resolvedDirection
          (dir (directionCandidate
                  (classifyTrend ticker24
                     (computeIndicatorsFromCandles
                        (parseCandleRows (fetchKlines1h mk sym CONFIG.KLINE_LIMIT))))
                  (computeIndicatorsFromCandles
                     (parseCandleRows (fetchKlines1h mk sym CONFIG.KLINE_LIMIT))))) /\
    sig_id s
      = makeConfirmedId sym (direction s)
          (lastCandleCloseTime
             (computeIndicatorsFromCandles
                (parseCandleRows (fetchKlines1h mk sym CONFIG.KLINE_LIMIT)))) /\
    symbol s = sym /\ confidence s = conf /\ created s = created_ts p /\
    confirmed s = Some now /\ entryRefPrice s = Some (markPrice prem) /\
    slPrice s
      = Some (r_slPrice (roundSLTP (markPrice prem) (plan_slPrice tpsl) (plan_tpPrice tpsl)
                           tickSize (direction s))) /\
    tpPrice s
      = Some (r_tpPrice (roundSLTP (markPrice prem) (plan_slPrice tpsl) (plan_tpPrice tpsl)
                           tickSize (direction s))) /\
    meta s = Some {| meta_atr := plan_atr tpsl; meta_slAtrMult := plan_slAtrMult tpsl;
                     meta_rr := plan_rr tpsl; meta_tickSize := tickSize |}.
Proof.
  intros E Hmode. apply fst_eq in E. revert E Hmode.
  generalize (snd (confirmOnCloseForSymbol now mk sym tickSize r)). intros r'.
  unfold confirmOnCloseForSymbol.
  destruct (pending_confirm (getState now sym r)) as [p|]; [|discriminate].
  destruct (confirm_requested p) eqn:Hreq; cbn [negb]; [|discriminate].
  destruct (tickerMap mk !! sym) as [ticker24|]; [|discriminate].
  destruct (premiumMap mk !! sym) as [prem|]; [|discriminate].
  cbv beta iota zeta.
  assert (Hinv : forall reason (s0 : Signal) (r0 : Redis),
             invalidate now sym reason r = (s0, r0) -> (Some s0, r0) = (Some s, r') ->
             mode s = CONFIRMED -> False).
  { intros reason s0 r0 E0 E1 Hm. unfold invalidate in E0. by simplify_eq. }
  destruct (Z.of_nat _ <? _);
    [destruct (invalidate now sym _ r) eqn:E0; intros E1 Hm;
     destruct (Hinv _ _ _ E0 E1 Hm)|].
  set (ind := computeIndicatorsFromCandles _).
  destruct (rsi ind) as [ind_rsi|], (macd ind), (bb ind), (atr ind) as [ind_atr|];
    try (destruct (invalidate now sym _ r) eqn:E0; intros E1 Hm;
         destruct (Hinv _ _ _ E0 E1 Hm)).
  destruct (decide (dir _ = NO_TRADE)) as [|Hcand];
    [destruct (invalidate now sym _ r) eqn:E0; intros E1 Hm;
     destruct (Hinv _ _ _ E0 E1 Hm)|].
  rewrite resolve_pair.
  repeat (head_step;
          try discriminate;
          try (intros E1 Hm;
               match goal with
               | E0 : invalidate _ _ _ _ = (_, _) |- _ => destruct (Hinv _ _ _ E0 E1 Hm)
               end)).
  clear Hinv. intros E _. simplify_eq.
  cbn [mode symbol created confirmed direction sig_id confidence entryRefPrice slPrice
       tpPrice meta].
  match goal with
  | E : (_ <? CONFIG.MIN_CONF_CONFIRMED) = false |- _ =>
      apply Z.ltb_ge in E; unfold CONFIG.MIN_CONF_CONFIRMED in E; rename E into Hconf
  end.
  match goal with
  | E : negb (Qgtb _ 0) = false |- _ =>
      apply negb_false_iff in E; unfold Qgtb, Qltb in E; apply negb_true_iff in E;
      apply Qle_bool_false in E; rename E into Hentry
  end.
  match goal with
  | E : pickTpSlATR _ _ _ _ _ _ _ _ = Some ?t |- _ =>
      destruct (plan_needs_atr _ _ _ _ _ _ _ _ _ E) as [Hatr Hplan]; exists p, ticker24, prem, ind_atr, t
  end.
  match goal with
  | E : negb (bool_decide (_ = p_direction p)) = false |- _ =>
      apply negb_false_iff in E; apply bool_decide_eq_true in E; rename E into Hsame
  end.
  eexists. split; [reflexivity|]. split; [exact Hreq|]. split; [exact Hcand|].
  split; [exact Hsame|]. split; [reflexivity|]. split; [exact Hconf|].
  split; [exact Hentry|]. split; [exact Hatr|]. split; [exact Hplan|].
  by repeat split.
Qed.

(** X13.  A CONFIRMED signal returned at close belongs to a requested pending
    confirmation of the symbol: it carries that record's direction and
    creation time and the close instant as confirmation time.  Its id is the
    confirmed id of symbol, direction and last candle close time, its
    confidence lies in 60..88, its entry price and ATR are positive, and stop
    and target lie at least one tick from the entry on the sides its direction
    asks for. *)
Theorem confirmed_signal_well_formed `{TechnicalIndicators} now mk sym tickSize r s :
  fst (confirmOnCloseForSymbol now mk sym tickSize r) = Some s ->
  mode s = CONFIRMED ->
  exists p,
    pending_confirm (getState now sym r) = Some p /\ confirm_requested p = true /\
    direction s = p_direction p /\ created s = created_ts p /\ confirmed s = Some now /\
    symbol s = sym /\ (direction s = LONG \/ direction s = SHORT) /\
    sig_id s
      = makeConfirmedId sym (direction s)
          (lastCandleCloseTime
             (computeIndicatorsFromCandles
                (parseCandleRows (fetchKlines1h mk sym CONFIG.KLINE_LIMIT)))) /\
    60 <= confidence s <= 88 /\
    exists entry sl tp m,
      entryRefPrice s = Some entry /\ slPrice s = Some sl /\ tpPrice s = Some tp /\
      meta s = Some m /\ meta_tickSize m = tickSize /\
      (0 < entry)%Q /\ (0 < meta_atr m)%Q /\
      (direction s = LONG ->
       (sl <= entry - tickValue tickSize)%Q /\ (entry + tickValue tickSize <= tp)%Q) /\
      (direction s = SHORT ->
       (entry + tickValue tickSize <= sl)%Q /\ (tp <= entry - tickValue tickSize)%Q).
Proof.
  intros E Hmode.
  destruct (close_confirmed_path _ _ _ _ _ _ E Hmode)
    as (p & ticker24 & prem & ind_atr & tpsl & conf & Hp & Hreq & Hcand & Hsame & Hconf
        & Hge & Hentry & Hatr & Hplan & Hdir & Hid & Hsym & Hc & Hcreated & Hconfirmed
        & Hprice & Hsl & Htp & Hmeta).
  exists p. split; [exact Hp|]. split; [exact Hreq|]. split; [exact Hsame|].
  split; [exact Hcreated|]. split; [exact Hconfirmed|]. split; [exact Hsym|].
  split; [rewrite Hdir; by apply resolved_long_or_short|]. split; [exact Hid|].
  split.
  { rewrite Hc. split; [exact Hge|]. rewrite Hconf. apply adjusted_confidence_le_88. }
  do 4 eexists. split; [exact Hprice|]. split; [exact Hsl|]. split; [exact Htp|].
  split; [exact Hmeta|]. cbn [meta_tickSize meta_atr]. split; [reflexivity|].
  split; [exact Hentry|]. split; [by rewrite Hplan|].
  apply rounded_sides.
Qed.

Lemma confirmed_signal_well_formed_witness :
  exists p,
    pending_confirm (getState 3000 "BTCUSDT" Run.requested) = Some p /\
    confirm_requested p = true /\
    direction Run.confirmedLong = p_direction p /\
    created Run.confirmedLong = created_ts p /\
    confirmed Run.confirmedLong = Some 3000 /\
    symbol Run.confirmedLong = "BTCUSDT"%string /\
    (direction Run.confirmedLong = LONG \/ direction Run.confirmedLong = SHORT) /\
    sig_id Run.confirmedLong
      = makeConfirmedId "BTCUSDT" (direction Run.confirmedLong)
          (lastCandleCloseTime
             (computeIndicatorsFromCandles (H := Fixture.indicators 65)
                (parseCandleRows
                   (fetchKlines1h (Fixture.market None 0) "BTCUSDT" CONFIG.KLINE_LIMIT)))) /\
    60 <= confidence Run.confirmedLong <= 88 /\
    exists entry sl tp m,
      entryRefPrice Run.confirmedLong = Some entry /\
      slPrice Run.confirmedLong = Some sl /\ tpPrice Run.confirmedLong = Some tp /\
      meta Run.confirmedLong = Some m /\ meta_tickSize m = Fixture.tick /\
      (0 < entry)%Q /\ (0 < meta_atr m)%Q /\
      (direction Run.confirmedLong = LONG ->
       (sl <= entry - tickValue Fixture.tick)%Q /\ (entry + tickValue Fixture.tick <= tp)%Q) /\
      (direction Run.confirmedLong = SHORT ->
       (entry + tickValue Fixture.tick <= sl)%Q /\ (tp <= entry - tickValue Fixture.tick)%Q).
Proof.
  apply (confirmed_signal_well_formed (H := Fixture.indicators 65) 3000
           (Fixture.market None 0) "BTCUSDT" Fixture.tick Run.requested Run.confirmedLong).
  - vm_compute. reflexivity.
  - reflexivity.
Defined.

(** ** Lifecycle of a pending confirmation *)

Lemma redis_get_set_same (r : Redis) now now' k v ex :
  redis_get (redis_set r now k v ex) now' k
    = if now' <? now + ex * 1000 then Some v else None.
Proof.
  unfold redis_get, redis_set. rewrite lookup_insert_eq.
  unfold live. cbn [entry_expireAt entry_value]. reflexivity.
Qed.

Lemma kDedupe_kCooldown a b : kDedupe a <> kCooldown b.
Proof. key_ne. Qed.

Lemma kDedupe_kPending a b : kDedupe a <> kPending b.
Proof. key_ne. Qed.

Lemma kDedupe_kLastSig a b : kDedupe a <> kLastSig b.
Proof. key_ne. Qed.

Lemma pending_after_save now now' sym p (r : Redis) :
  pending_confirm (getState now' sym (savePending now sym p r))
    = if now' <? now + 7200000 then Some p else None.
Proof.
  unfold getState, savePending. cbn [pending_confirm].
  rewrite redis_get_set_same. unfold CONFIG.TTL_PENDING_SEC.
  change (2 * 3600 * 1000) with 7200000. by destruct (now' <? now + 7200000).
Qed.

Lemma pending_after_preview now now' sym l p (r : Redis) :
  pending_confirm (getState now' sym (saveLastSignal now sym l (savePending now sym p r)))
    = if now' <? now + 7200000 then Some p else None.
Proof.
  rewrite <- (pending_after_save now now' sym p r).
  unfold getState, saveLastSignal. cbn [pending_confirm].
  by rewrite redis_get_set_ne by apply kLastSig_kPending.
Qed.

Lemma last_signal_after_save now now' sym l (r : Redis) :
  now' < now + 21600000 ->
  last_signal (getState now' sym (saveLastSignal now sym l r)) = Some l.
Proof.
  intros Hlt. unfold getState, saveLastSignal. cbn [last_signal].
  rewrite redis_get_set_eq; [reflexivity|]. unfold CONFIG.TTL_LASTSIG_SEC. lia.
Qed.

Lemma intrabar_preview_store `{TechnicalIndicators} now mk sym tickSize r s :
  fst (evaluateIntrabarForSymbol now mk sym tickSize r) = Some s ->
  exists snap,
    snd (evaluateIntrabarForSymbol now mk sym tickSize r)
    = saveLastSignal now sym
        {| ls_ts := now; ls_id := sig_id s; ls_mode := PREVIEW; ls_reason := None |}
        (savePending now sym
           {| signal_id := sig_id s; p_direction := direction s; created_ts := now;
              confirm_requested := false; snapshot_metrics := Some snap |}
           (redis_set r now (kDedupe (sig_id s)) (VMarker 1) CONFIG.DEDUPE_TTL_SECONDS)).
Proof.
  intros E. apply fst_eq in E.
  pose proof (intrabar_outcome now mk sym tickSize r) as Hout.
  rewrite E in Hout. inversion Hout; subst. eauto.
Qed.

Lemma close_without_request `{TechnicalIndicators} now mk sym tickSize r :
  match pending_confirm (getState now sym r) with
  | Some p => confirm_requested p = false
  | None => True
  end ->
  confirmOnCloseForSymbol now mk sym tickSize r = (None, r).
Proof.
  unfold confirmOnCloseForSymbol.
  destruct (pending_confirm (getState now sym r)) as [p|]; [|reflexivity].
  by intros ->.
Qed.

(** X14.  A returned PREVIEW leaves a pending confirmation for the symbol
    holding the signal's id and direction, the evaluation instant and no
    confirmation request.  It is live for exactly two hours.  The last-signal
    record names the preview, the cooldown is as before, and as long as no
    confirmation is requested a close-confirmation evaluation does nothing. *)
Theorem preview_opens_pending `{TechnicalIndicators} now mk sym tickSize r s :
  fst (evaluateIntrabarForSymbol now mk sym tickSize r) = Some s ->
  (forall now', now' < now + 7200000 ->
     exists p,
       pending_confirm
         (getState now' sym (snd (evaluateIntrabarForSymbol now mk sym tickSize r)))
         = Some p /\
       signal_id p = sig_id s /\ p_direction p = direction s /\ created_ts p = now /\
       confirm_requested p = false) /\
  (forall now', now + 7200000 <= now' ->
     pending_confirm
       (getState now' sym (snd (evaluateIntrabarForSymbol now mk sym tickSize r))) = None) /\
  (forall now', now' < now + 21600000 ->
     last_signal (getState now' sym (snd (evaluateIntrabarForSymbol now mk sym tickSize r)))
       = Some {| ls_ts := now; ls_id := sig_id s; ls_mode := PREVIEW; ls_reason := None |}) /\
  (forall now',
     cooldown_until_ts
       (getState now' sym (snd (evaluateIntrabarForSymbol now mk sym tickSize r)))
       = cooldown_until_ts (getState now' sym r)) /\
  (forall now' mk' tickSize',
     confirmOnCloseForSymbol now' mk' sym tickSize'
       (snd (evaluateIntrabarForSymbol now mk sym tickSize r))
       = (None, snd (evaluateIntrabarForSymbol now mk sym tickSize r))).
Proof.
  intros E. destruct (intrabar_preview_store _ _ _ _ _ _ E) as (snap & ->).
  split; [|split; [|split; [|split]]].
  - intros now' Hlt. eexists. rewrite pending_after_preview.
    apply Z.ltb_lt in Hlt. rewrite Hlt. split; [reflexivity|]. by repeat split.
  - intros now' Hge. rewrite pending_after_preview.
    apply Z.ltb_ge in Hge. by rewrite Hge.
  - intros now' Hlt. by apply last_signal_after_save.
  - intros now'. unfold getState, saveLastSignal, savePending. cbn [cooldown_until_ts].
    rewrite redis_get_set_ne by apply kLastSig_kCooldown.
    rewrite redis_get_set_ne by apply kPending_kCooldown.
    by rewrite redis_get_set_ne by apply kDedupe_kCooldown.
  - intros now' mk' tickSize'. apply close_without_request.
    rewrite pending_after_preview. by destruct (now' <? now + 7200000).
Qed.

Lemma preview_opens_pending_witness :
  exists p,
    pending_confirm (getState 2000 "BTCUSDT" Run.previewed) = Some p /\
    signal_id p = sig_id (Run.previewLong 1000 []) /\
    p_direction p = direction (Run.previewLong 1000 []) /\
    created_ts p = 1000 /\ confirm_requested p = false.
Proof.
  assert (Hrun : fst (evaluateIntrabarForSymbol (H := Fixture.indicators 65) 1000
                  (Fixture.market None 0) "BTCUSDT" Fixture.tick ∅)
                = Some (Run.previewLong 1000 [])) by (vm_compute; reflexivity).
  pose proof (proj1 (preview_opens_pending (H := Fixture.indicators 65) 1000
                  (Fixture.market None 0) "BTCUSDT" Fixture.tick ∅
                  (Run.previewLong 1000 []) Hrun) 2000) as Hw.
  apply Hw.
  lia.
Defined.

(** X15.  A confirmation request for a symbol with a live pending
    confirmation answers [{ok: true}] and marks the record as requested,
    keeping its id, direction, creation time and snapshot.  The marked record
    is live for two hours from the request; cooldown and last-signal record
    stay as they were, and a repeated request changes nothing but the expiry. *)
Theorem request_marks_pending now sym r p :
  pending_confirm (getState now sym r) = Some p ->
  fst (userRequestConfirm now sym r) = {| ok := true; cr_reason := None |} /\
  (forall now',
     pending_confirm (getState now' sym (snd (userRequestConfirm now sym r)))
       = if now' <? now + 7200000 then Some (requestedPending p) else None) /\
  (forall now',
     cooldown_until_ts (getState now' sym (snd (userRequestConfirm now sym r)))
       = cooldown_until_ts (getState now' sym r) /\
     last_signal (getState now' sym (snd (userRequestConfirm now sym r)))
       = last_signal (getState now' sym r)) /\
  (forall now', now' < now + 7200000 ->
     userRequestConfirm now' sym (snd (userRequestConfirm now sym r))
       = ({| ok := true; cr_reason := None |},
          savePending now' sym (requestedPending p) (snd (userRequestConfirm now sym r)))).
Proof.
  intros Hp.
  assert (Hst : userRequestConfirm now sym r
                = ({| ok := true; cr_reason := None |},
                   savePending now sym (requestedPending p) r)).
  { unfold userRequestConfirm. by rewrite Hp. }
  rewrite Hst. cbn [fst snd]. split; [reflexivity|]. split; [|split].
  - intros now'. apply pending_after_save.
  - intros now'. unfold getState, savePending. cbn [cooldown_until_ts last_signal].
    rewrite redis_get_set_ne by apply kPending_kCooldown.
    by rewrite redis_get_set_ne by apply kPending_kLastSig.
  - intros now' Hlt. unfold userRequestConfirm at 1.
    rewrite pending_after_save. apply Z.ltb_lt in Hlt. by rewrite Hlt.
Qed.

Lemma request_marks_pending_witness :
  fst (userRequestConfirm 2000 "BTCUSDT" Run.previewed) = {| ok := true; cr_reason := None |}.
Proof.
  apply (request_marks_pending 2000 "BTCUSDT" Run.previewed
           {| signal_id := "PREVIEW|BTCUSDT|LONG|0"; p_direction := LONG; created_ts := 1000;
              confirm_requested := false; snapshot_metrics := Some Run.snapshot |}).
  vm_compute. reflexivity.
Defined.

(** ** Resolution at close *)

Lemma close_signal_store `{TechnicalIndicators} now mk sym tickSize r s :
  fst (confirmOnCloseForSymbol now mk sym tickSize r) = Some s ->
  (mode s = CONFIRMED \/ mode s = INVALIDATED) /\
  exists lastSig r0 p,
    pending_confirm (getState now sym r) = Some p /\ confirm_requested p = true /\
    snd (confirmOnCloseForSymbol now mk sym tickSize r)
      = saveLastSignal now sym lastSig
          (clearPending sym
             (saveCooldown now sym
                (now + (if decide (mode s = CONFIRMED) then 30 else 15) * 60000) r0)) /\
    ls_ts lastSig = now /\ ls_id lastSig = sig_id s /\ ls_mode lastSig = mode s.
Proof.
  intros E.
  pose proof (confirmOnClose_outcome now mk sym tickSize r) as Hout.
  destruct (confirmOnCloseForSymbol now mk sym tickSize r) as [o r'].
  cbn [fst snd] in *. subst o.
  inversion Hout as [ | | p reason Hp Hreq | p s' r'' Hp Hreq Hm Hd Hr]; subst.
  - split; [by right|]. do 3 eexists. split; [exact Hp|]. split; [exact Hreq|].
    unfold invalidate. cbn [fst snd mode sig_id].
    rewrite decide_False by discriminate. by repeat split.
  - split; [by left|]. do 3 eexists. split; [exact Hp|]. split; [exact Hreq|].
    rewrite Hm. rewrite decide_True by reflexivity. by repeat split.
Qed.

(** X16.  A close-confirmation evaluation that returns a signal returns a
    CONFIRMED or an INVALIDATED one and resolves the pending confirmation for
    good: the symbol has no pending confirmation afterwards, a later
    close-confirmation evaluation does nothing, a later confirmation request
    answers NO_PENDING_PREVIEW, and for six hours the last-signal record names
    the returned signal and its mode. *)
Theorem close_resolves_pending `{TechnicalIndicators} now mk sym tickSize r s :
  fst (confirmOnCloseForSymbol now mk sym tickSize r) = Some s ->
  (mode s = CONFIRMED \/ mode s = INVALIDATED) /\
  (forall now',
     pending_confirm
       (getState now' sym (snd (confirmOnCloseForSymbol now mk sym tickSize r))) = None) /\
  (forall now' mk' tickSize',
     confirmOnCloseForSymbol now' mk' sym tickSize'
       (snd (confirmOnCloseForSymbol now mk sym tickSize r))
     = (None, snd (confirmOnCloseForSymbol now mk sym tickSize r))) /\
  (forall now',
     userRequestConfirm now' sym (snd (confirmOnCloseForSymbol now mk sym tickSize r))
     = ({| ok := false; cr_reason := Some "NO_PENDING_PREVIEW" |},
        snd (confirmOnCloseForSymbol now mk sym tickSize r))) /\
  (forall now', now' < now + 21600000 ->
     exists l,
       last_signal (getState now' sym (snd (confirmOnCloseForSymbol now mk sym tickSize r)))
         = Some l /\
       ls_ts l = now /\ ls_id l = sig_id s /\ ls_mode l = mode s).
Proof.
  intros E.
  destruct (close_signal_store _ _ _ _ _ _ E)
    as (Hmode & lastSig & r0 & p & _ & _ & -> & Hts & Hid & Hm).
  split; [exact Hmode|].
  assert (Hgone : forall now',
             pending_confirm
               (getState now' sym
                  (saveLastSignal now sym lastSig
                     (clearPending sym
                        (saveCooldown now sym
                           (now + (if decide (mode s = CONFIRMED) then 30 else 15) * 60000)
                           r0)))) = None)
    by (intros now'; apply pending_cleared).
  split; [exact Hgone|]. split; [|split].
  - intros now' mk' tickSize'. apply close_without_request. by rewrite Hgone.
  - intros now'. unfold userRequestConfirm. by rewrite Hgone.
  - intros now' Hlt. exists lastSig. split; [by apply last_signal_after_save | done].
Qed.

Lemma close_resolves_pending_witness :
  confirmOnCloseForSymbol (H := Fixture.indicators 65) 4000 (Fixture.market None 0)
    "BTCUSDT" Fixture.tick
    (snd (confirmOnCloseForSymbol (H := Fixture.indicators 65) 3000 (Fixture.market None 0)
            "BTCUSDT" Fixture.tick Run.requested))
  = (None,
     snd (confirmOnCloseForSymbol (H := Fixture.indicators 65) 3000 (Fixture.market None 0)
            "BTCUSDT" Fixture.tick Run.requested)).
Proof.
  assert (Hrun : fst (confirmOnCloseForSymbol (H := Fixture.indicators 65) 3000
                        (Fixture.market None 0) "BTCUSDT" Fixture.tick Run.requested)
                 = Some Run.confirmedLong) by (vm_compute; reflexivity).
  pose proof (close_resolves_pending (H := Fixture.indicators 65) 3000
                (Fixture.market None 0) "BTCUSDT" Fixture.tick Run.requested
                Run.confirmedLong Hrun) as Hw.
  apply Hw.
Defined.

(** X17.  Preview, request, close.  When the close-confirmation evaluation
    that follows an intrabar PREVIEW and a confirmation request returns a
    CONFIRMED signal, the request was answered [{ok: true}], it came less than
    two hours after the preview and the close less than two hours after the
    request, and the CONFIRMED signal carries the direction of the PREVIEW,
    the instant of the PREVIEW as creation time and the close instant as
    confirmation time. *)
Theorem confirmation_round_trip `{TechnicalIndicators}
    now1 now2 now3 mk1 mk3 sym tick1 tick3 r s1 s3 :
  fst (evaluateIntrabarForSymbol now1 mk1 sym tick1 r) = Some s1 ->
  fst (confirmOnCloseForSymbol now3 mk3 sym tick3
         (snd (userRequestConfirm now2 sym
                 (snd (evaluateIntrabarForSymbol now1 mk1 sym tick1 r))))) = Some s3 ->
  mode s3 = CONFIRMED ->
  fst (userRequestConfirm now2 sym (snd (evaluateIntrabarForSymbol now1 mk1 sym tick1 r)))
    = {| ok := true; cr_reason := None |} /\
  now2 < now1 + 7200000 /\ now3 < now2 + 7200000 /\
  direction s3 = direction s1 /\ created s3 = now1 /\ confirmed s3 = Some now3.
Proof.
  intros E1 E3 Hmode.
  destruct (intrabar_preview_store _ _ _ _ _ _ E1) as (snap & Hr1).
  rewrite Hr1 in *. clear Hr1.
  destruct (close_confirmed_path _ _ _ _ _ _ E3 Hmode)
    as (p3 & ticker24 & prem & ind_atr & tpsl & conf & Hp3 & Hreq & _ & Hdir & _ & _ & _
        & _ & _ & _ & _ & _ & _ & Hcreated & Hconfirmed & _).
  clear E3. revert Hp3. unfold userRequestConfirm.
  rewrite pending_after_preview.
  destruct (now2 <? now1 + 7200000) eqn:E2; cbn [fst snd].
  - rewrite pending_after_save.
    destruct (now3 <? now2 + 7200000) eqn:E4; [|discriminate].
    intros Hp3. simplify_eq. cbn [p_direction created_ts] in *.
    apply Z.ltb_lt in E2. apply Z.ltb_lt in E4. by repeat split.
  - rewrite pending_after_preview.
    destruct (now3 <? now1 + 7200000); [|discriminate].
    intros Hp3. by simplify_eq.
Qed.

Lemma confirmation_round_trip_witness :
  fst (userRequestConfirm 2000 "BTCUSDT"
         (snd (evaluateIntrabarForSymbol (H := Fixture.indicators 65) 1000
                 (Fixture.market None 0) "BTCUSDT" Fixture.tick ∅)))
    = {| ok := true; cr_reason := None |} /\
  2000 < 1000 + 7200000 /\ 3000 < 2000 + 7200000 /\
  direction Run.confirmedLong = direction (Run.previewLong 1000 []) /\
  created Run.confirmedLong = 1000 /\ confirmed Run.confirmedLong = Some 3000.
Proof.
  assert (H1 : fst (evaluateIntrabarForSymbol (H := Fixture.indicators 65) 1000
                      (Fixture.market None 0) "BTCUSDT" Fixture.tick ∅)
               = Some (Run.previewLong 1000 [])) by (vm_compute; reflexivity).
  assert (H3 : fst (confirmOnCloseForSymbol (H := Fixture.indicators 65) 3000
                      (Fixture.market None 0) "BTCUSDT" Fixture.tick
                      (snd (userRequestConfirm 2000 "BTCUSDT"
                              (snd (evaluateIntrabarForSymbol (H := Fixture.indicators 65) 1000
                                      (Fixture.market None 0) "BTCUSDT" Fixture.tick ∅)))))
               = Some Run.confirmedLong) by (vm_compute; reflexivity).
  exact (confirmation_round_trip (H := Fixture.indicators 65) 1000 2000 3000
           (Fixture.market None 0) (Fixture.market None 0) "BTCUSDT" Fixture.tick Fixture.tick
           ∅ (Run.previewLong 1000 []) Run.confirmedLong H1 H3 eq_refl).
Defined.

(** ** Cooldown and dedupe *)

(** X18.  In [V.0.0.1/netlify/functions/trade-bot.js], after a
    close-confirmation evaluation has returned a signal the cooldown of the
    symbol ends 30 minutes later for a CONFIRMED and 15 minutes later for an
    INVALIDATED signal, and until then every intrabar evaluation of the symbol
    returns nothing and leaves the store alone, whatever the market. *)
Theorem cooldown_blocks_previews `{TechnicalIndicators} now mk sym tickSize r s :
  fst (confirmOnCloseForSymbol now mk sym tickSize r) = Some s ->
  (forall now', now' < now + 21600000 ->
     cooldown_until_ts
       (getState now' sym (snd (confirmOnCloseForSymbol now mk sym tickSize r)))
     = now + (if decide (mode s = CONFIRMED) then 30 else 15) * 60000) /\
  (forall now' mk' tickSize',
     now' < now + (if decide (mode s = CONFIRMED) then 30 else 15) * 60000 ->
     evaluateIntrabarForSymbol now' mk' sym tickSize'
       (snd (confirmOnCloseForSymbol now mk sym tickSize r))
     = (None, snd (confirmOnCloseForSymbol now mk sym tickSize r))).
Proof.
  intros E.
  destruct (close_signal_store _ _ _ _ _ _ E)
    as (_ & lastSig & r0 & p & _ & _ & -> & _).
  assert (Hcd : forall now', now' < now + 21600000 ->
            cooldown_until_ts
              (getState now' sym
                 (saveLastSignal now sym lastSig
                    (clearPending sym
                       (saveCooldown now sym
                          (now + (if decide (mode s = CONFIRMED) then 30 else 15) * 60000)
                          r0))))
            = now + (if decide (mode s = CONFIRMED) then 30 else 15) * 60000).
  { intros now' Hlt. apply cooldown_after_save. unfold CONFIG.TTL_COOLDOWN_SEC. lia. }
  split; [exact Hcd|].
  intros now' mk' tickSize' Hlt. apply cooldown_gate. rewrite Hcd; [exact Hlt|].
  destruct (decide (mode s = CONFIRMED)); lia.
Qed.

Lemma cooldown_blocks_previews_witness :
  evaluateIntrabarForSymbol (H := Fixture.indicators 65) 4000 (Fixture.market None 0)
    "BTCUSDT" Fixture.tick
    (snd (confirmOnCloseForSymbol (H := Fixture.indicators 65) 3000 (Fixture.market None 0)
            "BTCUSDT" Fixture.tick Run.requested))
  = (None,
     snd (confirmOnCloseForSymbol (H := Fixture.indicators 65) 3000 (Fixture.market None 0)
            "BTCUSDT" Fixture.tick Run.requested)).
Proof.
  assert (Hrun : fst (confirmOnCloseForSymbol (H := Fixture.indicators 65) 3000
                        (Fixture.market None 0) "BTCUSDT" Fixture.tick Run.requested)
                 = Some Run.confirmedLong) by (vm_compute; reflexivity).
  pose proof (proj2 (cooldown_blocks_previews (H := Fixture.indicators 65) 3000
                (Fixture.market None 0) "BTCUSDT" Fixture.tick Run.requested
                Run.confirmedLong Hrun)) as Hw.
  apply Hw. change (mode Run.confirmedLong) with CONFIRMED.
  rewrite decide_True by reflexivity. lia.
Defined.

(** X19.  In [V.0.0.1/netlify/functions/trade-bot.js], once an intrabar
    evaluation has returned a PREVIEW, every further intrabar evaluation of the
    symbol on the same market within the same 120-second bucket returns
    nothing and leaves the store alone. *)
Theorem preview_once_per_bucket `{TechnicalIndicators} now1 now2 mk sym tick1 r s :
  fst (evaluateIntrabarForSymbol now1 mk sym tick1 r) = Some s ->
  floorTimeBucket now1 CONFIG.DEDUPE_SCOPE_SECONDS
    = floorTimeBucket now2 CONFIG.DEDUPE_SCOPE_SECONDS ->
  evaluateIntrabarForSymbol now2 mk sym tick1 (snd (evaluateIntrabarForSymbol now1 mk sym tick1 r))
    = (None, snd (evaluateIntrabarForSymbol now1 mk sym tick1 r)).
Proof.
  intros E Hbucket. apply fst_eq in E.
  exact (preview_claimed_once _ _ _ _ _ _ _ _ E Hbucket).
Qed.

Lemma preview_once_per_bucket_witness :
  evaluateIntrabarForSymbol (H := Fixture.indicators 65) 2000 (Fixture.market None 0)
    "BTCUSDT" Fixture.tick
    (snd (evaluateIntrabarForSymbol (H := Fixture.indicators 65) 1000 (Fixture.market None 0)
            "BTCUSDT" Fixture.tick ∅))
  = (None,
     snd (evaluateIntrabarForSymbol (H := Fixture.indicators 65) 1000 (Fixture.market None 0)
            "BTCUSDT" Fixture.tick ∅)).
Proof.
  assert (Hrun : fst (evaluateIntrabarForSymbol (H := Fixture.indicators 65) 1000
                        (Fixture.market None 0) "BTCUSDT" Fixture.tick ∅)
                 = Some (Run.previewLong 1000 [])) by (vm_compute; reflexivity).
  exact (preview_once_per_bucket (H := Fixture.indicators 65) 1000 2000
           (Fixture.market None 0) "BTCUSDT" Fixture.tick ∅ (Run.previewLong 1000 [])
           Hrun eq_refl).
Defined.

(** ** The CoinAPI variant: candle history *)

Lemma insertByStart_perm x l : Permutation (CoinApiJs.insertByStart x l) (x :: l).
Proof.
  induction l as [|y l IH]; cbn; [reflexivity|].
  destruct (CoinApiJs.time_period_start x <? CoinApiJs.time_period_start y); [reflexivity|].
  rewrite IH. apply perm_swap.
Qed.

Lemma insertByStart_hd y x l :
  CoinApiJs.time_period_start y <= CoinApiJs.time_period_start x ->
  HdRel (fun a b => CoinApiJs.time_period_start a <= CoinApiJs.time_period_start b) y l ->
  HdRel (fun a b => CoinApiJs.time_period_start a <= CoinApiJs.time_period_start b) y
    (CoinApiJs.insertByStart x l).
Proof.
  intros Hyx Hhd. destruct l as [|z l]; cbn; [by constructor|].
  destruct (CoinApiJs.time_period_start x <? CoinApiJs.time_period_start z).
  - by constructor.
  - inversion Hhd; subst. by constructor.
Qed.

Lemma insertByStart_sorted x l :
  startsAscending l -> startsAscending (CoinApiJs.insertByStart x l).
Proof.
  unfold startsAscending. induction l as [|y l IH]; intros Hs; cbn.
  - repeat constructor.
  - destruct (CoinApiJs.time_period_start x <? CoinApiJs.time_period_start y) eqn:E.
    + apply Z.ltb_lt in E. constructor; [exact Hs|]. constructor. lia.
    + apply Z.ltb_ge in E. inversion Hs; subst.
      constructor; [by apply IH | by apply insertByStart_hd].
Qed.

Lemma sortByStart_spec l acc :
  startsAscending acc ->
  startsAscending (fold_left (fun acc x => CoinApiJs.insertByStart x acc) l acc) /\
  Permutation (fold_left (fun acc x => CoinApiJs.insertByStart x acc) l acc) (l ++ acc).
Proof.
  revert acc. induction l as [|x l IH]; intros acc Hacc; cbn; [by split|].
  destruct (IH (CoinApiJs.insertByStart x acc) (insertByStart_sorted x acc Hacc)) as [Hs Hp].
  split; [exact Hs|]. rewrite Hp, insertByStart_perm. symmetry. apply Permutation_middle.
Qed.

(** X20.  In the CoinAPI variant [fetchKlines1h] throws exactly when the
    provider's reply is empty; otherwise it returns the rows of the reply, all
    of them and no others, in ascending order of their start time. *)
Theorem coinapi_klines_sorted history symbolId limit :
  (history symbolId limit = [] ->
   CoinApiJs.fetchKlines1h history symbolId limit
     = CoinApiJs.Threw ("No hourly OHLCV data for " +:+ symbolId)) /\
  (history symbolId limit <> [] ->
   exists rows,
     CoinApiJs.fetchKlines1h history symbolId limit = CoinApiJs.Returned rows /\
     startsAscending rows /\ Permutation rows (history symbolId limit)).
Proof.
  unfold CoinApiJs.fetchKlines1h. cbv zeta. split.
  - intros ->. reflexivity.
  - intros Hne. rewrite bool_decide_eq_false_2.
    + eexists. split; [reflexivity|]. unfold CoinApiJs.sortByStart.
      destruct (sortByStart_spec (history symbolId limit) []) as [Hs Hp];
        [constructor|].
      split; [exact Hs|]. by rewrite app_nil_r in Hp.
    + intros Hlen. apply Hne. by apply length_zero_iff_nil.
Qed.

Lemma coinapi_klines_sorted_witness :
  exists rows,
    CoinApiJs.fetchKlines1h (fun _ _ => Sample.unsorted) "BINANCEFTS_PERP_BTC_USDT" 200
      = CoinApiJs.Returned rows /\
    startsAscending rows /\ Permutation rows Sample.unsorted.
Proof.
  apply (coinapi_klines_sorted (fun _ _ => Sample.unsorted) "BINANCEFTS_PERP_BTC_USDT" 200).
  intros E. discriminate E.
Defined.

(** ** The CoinAPI variant: intrabar evaluation *)

(** X21.  The intrabar evaluation of the CoinAPI variant never returns
    [null].  It throws only when the candle history is empty, leaving the
    store alone.  Otherwise it returns a signal of mode PREVIEW: either a
    placeholder with id [SKIP|symbol], no stop, no target and no store write,
    or a LONG or SHORT preview under the preview id of the current 120-second
    bucket, whose pending confirmation and last-signal record it stores
    without claiming the id. *)
Theorem coinapi_intrabar_always_reports `{TechnicalIndicators}
    now history sym symbolId tickSize tickerDaily marketData r :
  (exists msg,
     CoinApiJs.evaluateIntrabarForSymbol now history sym symbolId tickSize tickerDaily
       marketData r = (CoinApiJs.Threw msg, r) /\
     history symbolId CONFIG.KLINE_LIMIT = [] /\ is_Some tickerDaily) \/
  (exists s,
     CoinApiJs.evaluateIntrabarForSymbol now history sym symbolId tickSize tickerDaily
       marketData r = (CoinApiJs.Returned (Some s), r) /\
     mode s = PREVIEW /\ sig_id s = "SKIP|" +:+ sym /\
     tpPrice s = None /\ slPrice s = None /\ meta s = None) \/
  (exists s snap,
     CoinApiJs.evaluateIntrabarForSymbol now history sym symbolId tickSize tickerDaily
       marketData r
     = (CoinApiJs.Returned (Some s),
        saveLastSignal now sym
          {| ls_ts := now; ls_id := sig_id s; ls_mode := PREVIEW; ls_reason := None |}
          (savePending now sym
             {| signal_id := sig_id s; p_direction := direction s; created_ts := now;
                confirm_requested := false; snapshot_metrics := Some snap |} r)) /\
     mode s = PREVIEW /\
     sig_id s = makePreviewId sym (direction s) (floorTimeBucket now 120) /\
     (direction s = LONG \/ direction s = SHORT) /\
     is_Some (tpPrice s) /\ is_Some (slPrice s)).
Proof.
  set (P := fun res : CoinApiJs.Outcome (option Signal) * Redis =>
    (exists msg, res = (CoinApiJs.Threw msg, r) /\
       history symbolId CONFIG.KLINE_LIMIT = [] /\ is_Some tickerDaily) \/
    (exists s, res = (CoinApiJs.Returned (Some s), r) /\
       mode s = PREVIEW /\ sig_id s = "SKIP|" +:+ sym /\
       tpPrice s = None /\ slPrice s = None /\ meta s = None) \/
    (exists s snap,
       res = (CoinApiJs.Returned (Some s),
              saveLastSignal now sym
                {| ls_ts := now; ls_id := sig_id s; ls_mode := PREVIEW; ls_reason := None |}
                (savePending now sym
                   {| signal_id := sig_id s; p_direction := direction s; created_ts := now;
                      confirm_requested := false; snapshot_metrics := Some snap |} r)) /\
       mode s = PREVIEW /\
       sig_id s = makePreviewId sym (direction s) (floorTimeBucket now 120) /\
       (direction s = LONG \/ direction s = SHORT) /\
       is_Some (tpPrice s) /\ is_Some (slPrice s))).
  change (P (CoinApiJs.evaluateIntrabarForSymbol now history sym symbolId tickSize
               tickerDaily marketData r)).
  assert (Hskip : forall d c e rs ws,
             P (CoinApiJs.Returned (Some (CoinApiJs.skipSignal now sym d c e rs ws)), r)).
  { intros. right. left. eexists. split; [reflexivity|]. by repeat split. }
  unfold CoinApiJs.evaluateIntrabarForSymbol.
  destruct tickerDaily as [tickerDaily|]; [|apply Hskip].
  unfold CoinApiJs.fetchKlines1h. cbv zeta.
  destruct (bool_decide (length (history symbolId CONFIG.KLINE_LIMIT) = 0%nat)) eqn:Hlen.
  { left. eexists. split; [reflexivity|]. split; [|by eexists].
    apply bool_decide_eq_true in Hlen. by apply length_zero_iff_nil. }
  cbv beta iota zeta.
  destruct (Z.of_nat _ <? _); [apply Hskip|].
  set (ind := computeIndicatorsFromCandles _).
  destruct (rsi ind), (macd ind), (bb ind), (atr ind) as [ind_atr|]; try apply Hskip.
  rewrite resolve_pair. cbv beta iota zeta.
  destruct (decide (dir _ = NO_TRADE)) as [|Hcand]; [apply Hskip|].
  repeat (head_step; try apply Hskip).
  match goal with
  | |- P (CoinApiJs.Returned (Some ?s), _) => right; right; exists s; eexists
  end.
  split; [reflexivity|].
  cbn [mode sig_id direction tpPrice slPrice].
  split; [reflexivity|]. split; [reflexivity|].
  split; [exact (resolved_long_or_short _ _ Hcand)|]. split; by eexists.
Qed.

(** ** The CoinAPI/CoinGecko variant: derivatives rows *)

(** X22.  [pickDerivativeRowForSymbol] returns nothing exactly when no row
    has the symbol's normalised name.  Otherwise it returns one of the rows
    with that name, and one on the preferred market whenever such a row
    exists. *)
Theorem derivative_row_selection rows symbol marketFilterLower :
  match CoinApiMjs.pickDerivativeRowForSymbol rows symbol marketFilterLower with
  | None =>
      forall row, In row rows ->
        CoinApiMjs.normalizeSymbol (CoinApiMjs.row_symbol row)
          <> CoinApiMjs.normalizeSymbol symbol
  | Some row =>
      In row rows /\
      CoinApiMjs.normalizeSymbol (CoinApiMjs.row_symbol row)
        = CoinApiMjs.normalizeSymbol symbol /\
      forall row',
        In row' rows ->
        CoinApiMjs.normalizeSymbol (CoinApiMjs.row_symbol row')
          = CoinApiMjs.normalizeSymbol symbol ->
        CoinApiMjs.includes marketFilterLower
          (CoinApiMjs.mapChars CoinApiMjs.lowerChar
             (default ""%string (CoinApiMjs.row_market row'))) = true ->
        CoinApiMjs.includes marketFilterLower
          (CoinApiMjs.mapChars CoinApiMjs.lowerChar
             (default ""%string (CoinApiMjs.row_market row))) = true
  end.
Proof.
  unfold CoinApiMjs.pickDerivativeRowForSymbol. cbv zeta.
  set (target := CoinApiMjs.normalizeSymbol symbol).
  set (isMatch := fun r => bool_decide (CoinApiMjs.normalizeSymbol (CoinApiMjs.row_symbol r)
                                         = target)).
  set (pref := fun r => CoinApiMjs.includes marketFilterLower
                          (CoinApiMjs.mapChars CoinApiMjs.lowerChar
                             (default ""%string (CoinApiMjs.row_market r)))).
  assert (Hin : forall x, In x (List.filter isMatch rows) <->
                          In x rows /\ CoinApiMjs.normalizeSymbol (CoinApiMjs.row_symbol x)
                                       = target).
  { intros x. rewrite filter_In. unfold isMatch. by rewrite bool_decide_eq_true. }
  destruct (List.filter isMatch rows) as [|first rest] eqn:Hm.
  - intros row Hrow Heq. by apply (proj2 (Hin row) (conj Hrow Heq)).
  - destruct (List.find pref (first :: rest)) as [row|] eqn:Hf; cbn [default].
    + destruct (find_some _ _ Hf) as [Hrow Hpref].
      apply Hin in Hrow as [Hrow Heq]. by repeat split.
    + destruct (proj1 (Hin first) (or_introl eq_refl)) as [Hrow Heq].
      split; [exact Hrow|]. split; [exact Heq|].
      intros row' Hrow' Heq' Hpref'.
      pose proof (find_none _ _ Hf row' (proj2 (Hin row') (conj Hrow' Heq'))) as Hno.
      unfold pref in Hno. congruence.
Qed.

(** X23.  Annotating a signal with funding and market data changes nothing
    but the market name in its metadata and its warnings, to which it adds
    [FUNDING_RATE_HIGH] at most once and only if it is not there yet;
    annotating twice is the same as annotating once. *)
Theorem attach_funding_idempotent rows marketFilter sig :
  CoinApiMjs.attachFundingAndMarket rows marketFilter
    (CoinApiMjs.attachFundingAndMarket rows marketFilter sig)
  = CoinApiMjs.attachFundingAndMarket rows marketFilter sig /\
  CoinApiMjs.g_symbol (CoinApiMjs.attachFundingAndMarket rows marketFilter sig)
    = CoinApiMjs.g_symbol sig /\
  CoinApiMjs.g_direction (CoinApiMjs.attachFundingAndMarket rows marketFilter sig)
    = CoinApiMjs.g_direction sig /\
  CoinApiMjs.g_entryRefPrice (CoinApiMjs.attachFundingAndMarket rows marketFilter sig)
    = CoinApiMjs.g_entryRefPrice sig /\
  CoinApiMjs.g_tpPrice (CoinApiMjs.attachFundingAndMarket rows marketFilter sig)
    = CoinApiMjs.g_tpPrice sig /\
  CoinApiMjs.g_slPrice (CoinApiMjs.attachFundingAndMarket rows marketFilter sig)
    = CoinApiMjs.g_slPrice sig /\
  (CoinApiMjs.g_warnings (CoinApiMjs.attachFundingAndMarket rows marketFilter sig)
     = CoinApiMjs.g_warnings sig \/
   (~ In "FUNDING_RATE_HIGH"%string (CoinApiMjs.g_warnings sig) /\
    CoinApiMjs.g_warnings (CoinApiMjs.attachFundingAndMarket rows marketFilter sig)
      = CoinApiMjs.g_warnings sig ++ ["FUNDING_RATE_HIGH"%string])).
Proof.
  destruct (CoinApiMjs.pickDerivativeRowForSymbol rows (CoinApiMjs.g_symbol sig) marketFilter)
    as [row|] eqn:Hpick.
  - set (ws := match CoinApiMjs.funding_rate row with
               | Some funding =>
                   if Qgeb (Qabs funding) CoinApiMjs.FUNDING_RATE_ABS_WARN then
                     if bool_decide ("FUNDING_RATE_HIGH"%string ∈ CoinApiMjs.g_warnings sig)
                     then CoinApiMjs.g_warnings sig
                     else CoinApiMjs.g_warnings sig ++ ["FUNDING_RATE_HIGH"%string]
                   else CoinApiMjs.g_warnings sig
               | None => CoinApiMjs.g_warnings sig
               end).
    assert (Hws : ws = CoinApiMjs.g_warnings sig \/
                  (~ In "FUNDING_RATE_HIGH"%string (CoinApiMjs.g_warnings sig) /\
                   ws = CoinApiMjs.g_warnings sig ++ ["FUNDING_RATE_HIGH"%string])).
    { subst ws. destruct (CoinApiMjs.funding_rate row) as [funding|]; [|by left].
      destruct (Qgeb (Qabs funding) CoinApiMjs.FUNDING_RATE_ABS_WARN); [|by left].
      case_bool_decide as E; [by left|].
      right. split; [|reflexivity]. intros Hin. apply E. by apply list_elem_of_In. }
    assert (Hagain : match CoinApiMjs.funding_rate row with
                     | Some funding =>
                         if Qgeb (Qabs funding) CoinApiMjs.FUNDING_RATE_ABS_WARN then
                           if bool_decide ("FUNDING_RATE_HIGH"%string ∈ ws)
                           then ws else ws ++ ["FUNDING_RATE_HIGH"%string]
                         else ws
                     | None => ws
                     end = ws).
    { subst ws. destruct (CoinApiMjs.funding_rate row) as [funding|]; [|reflexivity].
      destruct (Qgeb (Qabs funding) CoinApiMjs.FUNDING_RATE_ABS_WARN); [|reflexivity].
      case_bool_decide as E.
      - by rewrite bool_decide_eq_true_2.
      - rewrite bool_decide_eq_true_2; [reflexivity|].
        apply elem_of_app. right. by apply list_elem_of_singleton. }
    assert (Ha : CoinApiMjs.attachFundingAndMarket rows marketFilter sig
                 = {| CoinApiMjs.g_id := CoinApiMjs.g_id sig;
                      CoinApiMjs.g_symbol := CoinApiMjs.g_symbol sig;
                      CoinApiMjs.g_mode := CoinApiMjs.g_mode sig;
                      CoinApiMjs.g_direction := CoinApiMjs.g_direction sig;
                      CoinApiMjs.g_confidence := CoinApiMjs.g_confidence sig;
                      CoinApiMjs.g_entryRefPrice := CoinApiMjs.g_entryRefPrice sig;
                      CoinApiMjs.g_tpPrice := CoinApiMjs.g_tpPrice sig;
                      CoinApiMjs.g_slPrice := CoinApiMjs.g_slPrice sig;
                      CoinApiMjs.g_meta :=
                        {| CoinApiMjs.m_atr := CoinApiMjs.m_atr (CoinApiMjs.g_meta sig);
                           CoinApiMjs.m_slAtrMult :=
                             CoinApiMjs.m_slAtrMult (CoinApiMjs.g_meta sig);
                           CoinApiMjs.m_rr := CoinApiMjs.m_rr (CoinApiMjs.g_meta sig);
                           CoinApiMjs.price_precision :=
                             CoinApiMjs.price_precision (CoinApiMjs.g_meta sig);
                           CoinApiMjs.coinapi_symbol_id :=
                             CoinApiMjs.coinapi_symbol_id (CoinApiMjs.g_meta sig);
                           CoinApiMjs.coingecko_market :=
                             match CoinApiMjs.row_market row with
                             | Some m => if bool_decide (m = ""%string) then None else Some m
                             | None => None
                             end |};
                      CoinApiMjs.g_reasons := CoinApiMjs.g_reasons sig;
                      CoinApiMjs.g_warnings := ws;
                      CoinApiMjs.g_created := CoinApiMjs.g_created sig;
                      CoinApiMjs.g_confirmed := CoinApiMjs.g_confirmed sig |}).
    { unfold CoinApiMjs.attachFundingAndMarket. by rewrite Hpick. }
    rewrite Ha. clear Ha. split.
    + unfold CoinApiMjs.attachFundingAndMarket. cbn [CoinApiMjs.g_symbol].
      rewrite Hpick. cbv zeta.
      cbn [CoinApiMjs.g_id CoinApiMjs.g_symbol CoinApiMjs.g_mode CoinApiMjs.g_direction
           CoinApiMjs.g_confidence CoinApiMjs.g_entryRefPrice CoinApiMjs.g_tpPrice
           CoinApiMjs.g_slPrice CoinApiMjs.g_meta CoinApiMjs.g_reasons CoinApiMjs.g_warnings
           CoinApiMjs.g_created CoinApiMjs.g_confirmed CoinApiMjs.m_atr
           CoinApiMjs.m_slAtrMult CoinApiMjs.m_rr CoinApiMjs.price_precision
           CoinApiMjs.coinapi_symbol_id].
      by rewrite Hagain.
    + cbn [CoinApiMjs.g_symbol CoinApiMjs.g_direction CoinApiMjs.g_entryRefPrice
           CoinApiMjs.g_tpPrice CoinApiMjs.g_slPrice CoinApiMjs.g_warnings].
      by repeat (split; [reflexivity|]).
  - assert (Ha : CoinApiMjs.attachFundingAndMarket rows marketFilter sig = sig).
    { unfold CoinApiMjs.attachFundingAndMarket. by rewrite Hpick. }
    rewrite !Ha. split; [reflexivity|]. repeat (split; [reflexivity|]). by left.
Qed.

(** ** The tick-size table *)

Lemma addTickSize_lookup map s sym :
  addTickSize map s !! sym
  = match truthyStr (s_symbol s),
          truthyStr (match List.find (fun f => bool_decide (filterType f = "PRICE_FILTER"%string))
                                     (s_filters s) with
                     | Some f => f_tickSize f
                     | None => None
                     end) with
    | Some sym', Some t => if decide (sym' = sym) then Some t else map !! sym
    | _, _ => map !! sym
    end.
Proof.
  unfold addTickSize. cbv zeta.
  destruct (truthyStr (s_symbol s)) as [sym'|]; [|reflexivity].
  destruct (truthyStr match List.find _ _ with Some _ => _ | None => _ end) as [t|];
    [|reflexivity].
  destruct (decide (sym' = sym)) as [->|Hne].
  - by rewrite lookup_insert_eq.
  - by rewrite lookup_insert_ne.
Qed.

Lemma truthyStr_Some o t : truthyStr o = Some t <-> o = Some t /\ t <> EmptyString.
Proof.
  unfold truthyStr. destruct o as [s|]; [|by split; [|intros []]].
  case_bool_decide; split; try discriminate.
  - intros [E Hne]. by simplify_eq.
  - intros E. by simplify_eq.
  - intros [E Hne]. by simplify_eq.
Qed.

(** X24.  The tick-size table has an entry for a symbol exactly when the
    exchange lists the symbol, under a non-empty name, with a non-empty tick
    size in its first PRICE_FILTER, and every entry is such a tick size.  The
    watchlist has no missing tick size exactly when the table has an entry
    for each of its symbols. *)
Theorem tick_size_table_entries symbols :
  (forall sym t,
     buildTickSizeMap symbols !! sym = Some t ->
     sym <> EmptyString /\ t <> EmptyString /\
     exists s f,
       In s symbols /\ s_symbol s = Some sym /\
       List.find (fun f => bool_decide (filterType f = "PRICE_FILTER"%string)) (s_filters s)
         = Some f /\
       f_tickSize f = Some t) /\
  (forall sym s f t,
     In s symbols -> s_symbol s = Some sym -> sym <> EmptyString ->
     List.find (fun f => bool_decide (filterType f = "PRICE_FILTER"%string)) (s_filters s)
       = Some f ->
     f_tickSize f = Some t -> t <> EmptyString ->
     is_Some (buildTickSizeMap symbols !! sym)) /\
  (forall watchlist,
     missingTickSizes watchlist (buildTickSizeMap symbols) = []
     <-> forall w, In w watchlist -> is_Some (buildTickSizeMap symbols !! w)).
Proof.
  unfold buildTickSizeMap.
  assert (Hnonempty : forall sym t,
            fold_left addTickSize symbols ∅ !! sym = Some t -> t <> EmptyString).
  { induction symbols as [|s symbols IH] using rev_ind; intros sym t.
    - cbn. by rewrite lookup_empty.
    - rewrite fold_left_app. cbn [fold_left]. rewrite addTickSize_lookup.
      destruct (truthyStr (s_symbol s)) as [sym'|] eqn:Es; [|by apply IH].
      destruct (truthyStr match List.find _ _ with Some _ => _ | None => _ end) as [t'|] eqn:Et; [|by apply IH].
      destruct (decide (sym' = sym)); [|by apply IH].
      intros E. simplify_eq. by apply truthyStr_Some in Et as [_ Hne]. }
  split; [|split].
  - clear Hnonempty.
    induction symbols as [|s symbols IH] using rev_ind; intros sym t.
    + cbn. by rewrite lookup_empty.
    + assert (Hold : fold_left addTickSize symbols ∅ !! sym = Some t ->
                sym <> EmptyString /\ t <> EmptyString /\
                exists s0 f,
                  In s0 (symbols ++ [s]) /\ s_symbol s0 = Some sym /\
                  List.find (fun f => bool_decide (filterType f = "PRICE_FILTER"%string))
                    (s_filters s0) = Some f /\
                  f_tickSize f = Some t).
      { intros E. destruct (IH sym t E) as (H1 & H2 & s0 & f & Hin & Hrest).
        split; [exact H1|]. split; [exact H2|]. exists s0, f.
        split; [apply in_or_app; by left | exact Hrest]. }
      rewrite fold_left_app. cbn [fold_left]. rewrite addTickSize_lookup.
      destruct (truthyStr (s_symbol s)) as [sym'|] eqn:Es; [|exact Hold].
      destruct (truthyStr match List.find _ _ with Some _ => _ | None => _ end) as [t'|] eqn:Et; [|exact Hold].
      destruct (decide (sym' = sym)) as [->|]; [|exact Hold].
      intros E. simplify_eq.
      apply truthyStr_Some in Es as [Es Hsym]. apply truthyStr_Some in Et as [Et Ht].
      split; [exact Hsym|]. split; [exact Ht|].
      destruct (List.find _ (s_filters s)) as [f|] eqn:Ef; [|discriminate].
      exists s, f. split; [apply in_or_app; right; by left|]. by repeat split.
  - clear Hnonempty. intros sym s f t Hin Hs Hsym Hf Ht Hne.
    induction symbols as [|s' symbols IH] using rev_ind; [destruct Hin|].
    rewrite fold_left_app. cbn [fold_left]. rewrite addTickSize_lookup.
    apply in_app_or in Hin as [Hin | [-> | []]].
    + specialize (IH Hin).
      destruct (truthyStr (s_symbol s')) as [sym'|]; [|exact IH].
      destruct (truthyStr match List.find _ _ with Some _ => _ | None => _ end) as [t'|]; [|exact IH].
      destruct (decide (sym' = sym)); [by eexists | exact IH].
    + rewrite Hs, Hf, Ht.
      rewrite (proj2 (truthyStr_Some (Some sym) sym) (conj eq_refl Hsym)).
      rewrite (proj2 (truthyStr_Some (Some t) t) (conj eq_refl Hne)).
      rewrite decide_True by reflexivity. by eexists.
  - intros watchlist. unfold missingTickSizes.
    induction watchlist as [|w watchlist IH]; cbn [List.filter].
    + split; [intros _ w [] | reflexivity].
    + destruct (fold_left addTickSize symbols ∅ !! w) as [t|] eqn:E.
      * cbn [truthyStr]. rewrite bool_decide_eq_false_2 by (by eapply Hnonempty).
        rewrite IH. split.
        -- intros Hall w' [<- | Hin]; [rewrite E; by eexists | by apply Hall].
        -- intros Hall w' Hin. apply Hall. by right.
      * cbn [truthyStr]. split; [discriminate|].
        intros Hall. destruct (Hall w (or_introl eq_refl)) as [t Ht]. congruence.
Qed.

Lemma tick_size_table_entries_witness :
  is_Some (buildTickSizeMap Sample.exchangeSymbols !! "BTCUSDT"%string).
Proof.
  apply (proj1 (proj2 (tick_size_table_entries Sample.exchangeSymbols)) "BTCUSDT"%string
           {| s_symbol := Some "BTCUSDT"%string;
              s_filters := [ {| filterType := "LOT_SIZE"; f_tickSize := None |};
                             {| filterType := "PRICE_FILTER";
                                f_tickSize := Some "0.10"%string |} ] |}
           {| filterType := "PRICE_FILTER"; f_tickSize := Some "0.10"%string |}
           "0.10"%string).
  - left. reflexivity.
  - reflexivity.
  - intros E. discriminate E.
  - reflexivity.
  - reflexivity.
  - intros E. discriminate E.
Defined.

(** ** Trend and direction candidate *)

Lemma bbPos_range `{TechnicalIndicators} c :
  -1 <= bbPos (computeIndicatorsFromCandles c) <= 1.
Proof.
  unfold computeIndicatorsFromCandles. cbv zeta.
  destruct (lastOrNull (BollingerBands_calculate (c_close c))) as [b|]; [|cbn; lia].
  destruct (Qtruthy (middle b) && Qtruthy (upper b) && Qtruthy (lower b)); [|cbn; lia].
  cbn [bbPos].
  destruct (Qgtb _ (middle b)); [lia|]. destruct (Qltb _ (middle b)); lia.
Qed.

(** X25.  On the indicators computed from a candle series, the Bollinger
    position is -1, 0 or 1, so a 24-hour change above 2 % never classifies as
    a DOWN trend and one below -2 % never as UP.  The direction candidate is
    NO_TRADE only in a SIDE trend and never NONE; a reversal candidate arises
    only against the trend, SHORT in an UP trend with RSI from 70 and LONG in
    a DOWN trend with RSI up to 30. *)
Theorem trend_and_candidate_consistency `{TechnicalIndicators} c ticker24 :
  -1 <= bbPos (computeIndicatorsFromCandles c) <= 1 /\
  ((2 < priceChangePercent ticker24)%Q ->
   classifyTrend ticker24 (computeIndicatorsFromCandles c) <> DOWN) /\
  ((priceChangePercent ticker24 < -2)%Q ->
   classifyTrend ticker24 (computeIndicatorsFromCandles c) <> UP) /\
  forall trend,
    (dir (directionCandidate trend (computeIndicatorsFromCandles c)) = NO_TRADE ->
     trend = SIDE) /\
    dir (directionCandidate trend (computeIndicatorsFromCandles c)) <> NONE /\
    (dir (directionCandidate trend (computeIndicatorsFromCandles c)) = SHORT_CANDIDATE <->
     trend = UP /\ exists x, rsi (computeIndicatorsFromCandles c) = Some x /\ (70 <= x)%Q) /\
    (dir (directionCandidate trend (computeIndicatorsFromCandles c)) = LONG_CANDIDATE <->
     trend = DOWN /\ exists x, rsi (computeIndicatorsFromCandles c) = Some x /\ (x <= 30)%Q).
Proof.
  pose proof (bbPos_range c) as Hbb.
  set (ind := computeIndicatorsFromCandles c) in *. clearbody ind.
  split; [exact Hbb|]. split; [|split].
  - intros Hup. unfold classifyTrend, Qgtb, Qltb, CONFIG.TREND_UP_PCT. cbv zeta.
    apply Qle_bool_false in Hup. rewrite Hup. cbn [negb]. cbv iota.
    destruct (decide (UP = UP)); [|congruence]. destruct (decide (UP = DOWN)); [congruence|].
    match goal with
    | |- (if 2 <=? ?S then _ else _) <> _ =>
        assert (HS : 0 <= S);
        [|destruct (2 <=? S); [discriminate|];
          destruct (S <=? -2) eqn:E; [apply Z.leb_le in E; lia | discriminate]]
    end.
    destruct (macdHistogram ind) as [h|]; [|lia].
    destruct (Qle_bool 0 h), (Qle_bool h 0); cbn [negb]; cbv iota; lia.
  - intros Hdn. unfold classifyTrend, Qgtb, Qltb, CONFIG.TREND_UP_PCT, CONFIG.TREND_DN_PCT.
    cbv zeta.
    assert (E1 : Qle_bool (priceChangePercent ticker24) 2 = true).
    { apply Qle_bool_iff. apply Qlt_le_weak. eapply Qlt_trans; [exact Hdn | reflexivity]. }
    assert (E2 : Qle_bool (-2) (priceChangePercent ticker24) = false)
      by (by apply Qle_bool_false).
    rewrite E1, E2. cbn [negb]. cbv iota.
    destruct (decide (DOWN = UP)); [congruence|]. destruct (decide (DOWN = DOWN)); [|congruence].
    match goal with
    | |- (if 2 <=? ?S then _ else _) <> _ =>
        assert (HS : S <= 0);
        [|destruct (2 <=? S) eqn:E; [apply Z.leb_le in E; lia|];
          destruct (S <=? -2); discriminate]
    end.
    destruct (macdHistogram ind) as [h|]; [|lia].
    destruct (Qle_bool 0 h), (Qle_bool h 0); cbn [negb]; cbv iota; lia.
  - intros trend. unfold directionCandidate.
    destruct trend.
    + destruct (rsi ind) as [x|]; [destruct (Qgeb x 70) eqn:E|]; cbn [dir].
      * split; [discriminate|]. split; [discriminate|]. split.
        -- split; [intros _|reflexivity]. split; [reflexivity|].
           exists x. split; [reflexivity | by apply Qgeb_true].
        -- split; [discriminate | intros [? _]; discriminate].
      * split; [discriminate|]. split; [discriminate|]. split.
        -- split; [discriminate|]. intros [_ (y & Hy & Hge)]. simplify_eq.
           apply Qgeb_true in Hge. congruence.
        -- split; [discriminate | intros [? _]; discriminate].
      * split; [discriminate|]. split; [discriminate|]. split.
        -- split; [discriminate | intros [_ (y & Hy & _)]; discriminate].
        -- split; [discriminate | intros [? _]; discriminate].
    + destruct (rsi ind) as [x|]; [destruct (Qle_bool x 30) eqn:E|]; cbn [dir].
      * split; [discriminate|]. split; [discriminate|]. split.
        -- split; [discriminate | intros [? _]; discriminate].
        -- split; [intros _|reflexivity]. split; [reflexivity|].
           exists x. split; [reflexivity | by apply Qle_bool_iff].
      * split; [discriminate|]. split; [discriminate|]. split.
        -- split; [discriminate | intros [? _]; discriminate].
        -- split; [discriminate|]. intros [_ (y & Hy & Hle)]. simplify_eq.
           apply Qle_bool_iff in Hle. congruence.
      * split; [discriminate|]. split; [discriminate|]. split.
        -- split; [discriminate | intros [? _]; discriminate].
        -- split; [discriminate | intros [_ (y & Hy & _)]; discriminate].
    + split; [reflexivity|].
      destruct (rsi ind) as [x|], (macdHistogram ind) as [h|];
        repeat match goal with
               | |- context [if ?b then _ else _] => destruct b
               end; cbn [dir];
        (split; [discriminate|]); split;
        (split; [discriminate | intros [? _]; discriminate]).
Qed.

Lemma trend_and_candidate_consistency_witness :
  -1 <= bbPos (computeIndicatorsFromCandles (H := Fixture.indicators 65)
                 (parseCandleRows (repeat Fixture.row 60))) <= 1 /\
  classifyTrend Fixture.ticker
    (computeIndicatorsFromCandles (H := Fixture.indicators 65)
       (parseCandleRows (repeat Fixture.row 60))) <> DOWN.
Proof.
  pose proof (trend_and_candidate_consistency (H := Fixture.indicators 65)
                (parseCandleRows (repeat Fixture.row 60)) Fixture.ticker)
    as (Hpos & Hup & _).
  split; [exact Hpos | apply Hup; reflexivity].
Defined.

(** ** Symbol ids of the CoinGecko variant *)

Lemma string_length_app a b : String.length (a +:+ b) = (String.length a + String.length b)%nat.
Proof.
  induction a as [|c a IH]; [reflexivity|]. rewrite string_app_cons. cbn. by rewrite IH.
Qed.

Lemma string_app_assoc a b c : (a +:+ b) +:+ c = a +:+ (b +:+ c).
Proof.
  induction a as [|x a IH]; [reflexivity|]. rewrite !string_app_cons. by rewrite IH.
Qed.

Lemma substring_all b : substring 0 (String.length b) b = b.
Proof. induction b as [|c b IH]; cbn; [reflexivity | by rewrite IH]. Qed.

Lemma substring_app_r a b :
  substring (String.length a) (String.length b) (a +:+ b) = b.
Proof.
  induction a as [|c a IH]; [apply substring_all|]. rewrite string_app_cons. cbn. exact IH.
Qed.

Lemma substring_app_l a b : substring 0 (String.length a) (a +:+ b) = a.
Proof.
  induction a as [|c a IH]; [by destruct b|]. rewrite string_app_cons. cbn. by rewrite IH.
Qed.

Lemma substring_split n m s :
  (String.length s <= n + m)%nat -> substring 0 n s +:+ substring n m s = s.
Proof.
  revert n. induction s as [|c s IH]; intros n Hlen.
  - by destruct n, m.
  - destruct n as [|n].
    + cbn [substring]. rewrite string_app_nil. cbn in Hlen.
      destruct m as [|m]; [lia|]. f_equal.
      clear IH. revert m Hlen. induction s as [|d s IH]; intros m Hlen; [by destruct m|].
      cbn in *. destruct m as [|m]; [lia|]. f_equal. apply IH. lia.
    + cbn [substring]. rewrite string_app_cons. f_equal. apply IH. cbn in Hlen. lia.
Qed.

Lemma string_last_char s :
  s <> EmptyString -> exists s0 c, s = s0 +:+ String c EmptyString.
Proof.
  induction s as [|c s IH]; [done|]. intros _. destruct s as [|d s].
  - by exists EmptyString, c.
  - destruct IH as (s0 & e & E); [done|]. exists (String c s0), e.
    rewrite string_app_cons. by rewrite <- E.
Qed.

Lemma endsWith_app b q : MjsSymbols.endsWith (b +:+ q) q = true.
Proof.
  unfold MjsSymbols.endsWith. rewrite string_length_app.
  replace (String.length b + String.length q - String.length q)%nat with (String.length b)
    by lia.
  rewrite substring_app_r, String.eqb_refl.
  rewrite (proj2 (Nat.leb_le _ _)) by lia. reflexivity.
Qed.

(** A suffix of another length or another text is no match. *)
Lemma endsWith_other b q q' :
  String.length q' = String.length q -> q' <> q -> MjsSymbols.endsWith (b +:+ q) q' = false.
Proof.
  intros Hlen Hne. unfold MjsSymbols.endsWith. rewrite string_length_app, Hlen.
  replace (String.length b + String.length q - String.length q)%nat with (String.length b)
    by lia.
  rewrite substring_app_r. rewrite (proj2 (String.eqb_neq q q')) by congruence.
  apply andb_false_r.
Qed.

(** X26.  [splitBaseQuote] loses nothing: base and quote concatenate to the
    symbol.  For every non-empty base and each of the five quote assets it
    splits the concatenation back into that base and that quote, so
    [coinapiSymbolIdFor] builds the id [EXCHANGE_PERP_base_quote] from them. *)
Theorem splitBaseQuote_round_trip :
  (forall sym,
     MjsSymbols.base (MjsSymbols.splitBaseQuote sym)
       +:+ MjsSymbols.quote (MjsSymbols.splitBaseQuote sym) = sym) /\
  (forall b q,
     b <> EmptyString -> In q MjsSymbols.quotes ->
     MjsSymbols.splitBaseQuote (b +:+ q) = {| MjsSymbols.base := b; MjsSymbols.quote := q |} /\
     forall exchange,
       MjsSymbols.coinapiSymbolIdFor exchange (b +:+ q)
         = exchange +:+ "_PERP_" +:+ b +:+ "_" +:+ q).
Proof.
  split.
  - intros sym. unfold MjsSymbols.splitBaseQuote.
    assert (Hdrop : forall q,
              MjsSymbols.endsWith sym q = true ->
              MjsSymbols.dropLast (String.length q) sym +:+ q = sym).
    { intros q Hq. unfold MjsSymbols.endsWith in Hq.
      apply andb_true_iff in Hq as [Hlen Heq].
      apply Nat.leb_le in Hlen. apply String.eqb_eq in Heq.
      unfold MjsSymbols.dropLast.
      pose proof (substring_split (String.length sym - String.length q) (String.length q) sym
                    ltac:(lia)) as Hs.
      by rewrite Heq in Hs. }
    induction MjsSymbols.quotes as [|q rest IH]; cbn [MjsSymbols.splitLoop].
    + cbn [MjsSymbols.base MjsSymbols.quote]. unfold MjsSymbols.dropLast, MjsSymbols.takeLast.
      apply substring_split. lia.
    + destruct (MjsSymbols.endsWith sym q) eqn:Hq; cbn [andb]; [|exact IH].
      destruct (String.length q <? String.length sym)%nat; [|exact IH].
      cbn [MjsSymbols.base MjsSymbols.quote]. by apply Hdrop.
  - intros b q Hb Hq.
    assert (Hsplit : MjsSymbols.splitBaseQuote (b +:+ q)
                     = {| MjsSymbols.base := b; MjsSymbols.quote := q |}).
    { assert (Hhit : MjsSymbols.endsWith (b +:+ q) q
                       && (String.length q <? String.length (b +:+ q))%nat = true).
      { rewrite endsWith_app. cbn [andb]. apply Nat.ltb_lt. rewrite string_length_app.
        destruct b; [done|]. cbn. lia. }
      assert (Hbase : MjsSymbols.dropLast (String.length q) (b +:+ q) = b).
      { unfold MjsSymbols.dropLast. rewrite string_length_app.
        replace (String.length b + String.length q - String.length q)%nat
          with (String.length b) by lia.
        apply substring_app_l. }
      destruct (string_last_char b Hb) as (b0 & c & Hlast).
      assert (Hfd : forall t, MjsSymbols.endsWith (b +:+ String t "USD") "FDUSD" = true ->
                              t = "D"%char).
      { intros t. rewrite Hlast, string_app_assoc. rewrite string_app_cons, string_app_nil.
        unfold MjsSymbols.endsWith. rewrite string_length_app.
        replace (String.length b0 + String.length (String c (String t "USD"))
                 - String.length "FDUSD")%nat with (String.length b0) by (cbn; lia).
        change (String.length "FDUSD") with (String.length (String c (String t "USD"))).
        rewrite substring_app_r. intros E. apply andb_true_iff in E as [_ E].
        apply String.eqb_eq in E. by simplify_eq. }
      unfold MjsSymbols.splitBaseQuote, MjsSymbols.quotes in *.
      destruct Hq as [<- | [<- | [<- | [<- | [<- | []]]]]]; cbn [MjsSymbols.splitLoop].
      + rewrite Hhit. by rewrite Hbase.
      + rewrite (endsWith_other b "USDC" "USDT") by (reflexivity || discriminate).
        cbn [andb]. rewrite Hhit. by rewrite Hbase.
      + rewrite (endsWith_other b "BUSD" "USDT") by (reflexivity || discriminate).
        rewrite (endsWith_other b "BUSD" "USDC") by (reflexivity || discriminate).
        cbn [andb]. rewrite Hhit. by rewrite Hbase.
      + assert (Hfive : forall q', String.length q' = 4%nat -> q' <> "DUSD"%string ->
                         MjsSymbols.endsWith (b +:+ "FDUSD") q' = false).
        { intros q' Hlen Hne. change (b +:+ "FDUSD") with (b +:+ ("F" +:+ "DUSD")).
          rewrite <- string_app_assoc. by apply endsWith_other. }
        rewrite (Hfive "USDT"%string) by (reflexivity || discriminate).
        rewrite (Hfive "USDC"%string) by (reflexivity || discriminate).
        rewrite (Hfive "BUSD"%string) by (reflexivity || discriminate).
        cbn [andb]. rewrite Hhit. by rewrite Hbase.
      + rewrite (endsWith_other b "TUSD" "USDT") by (reflexivity || discriminate).
        rewrite (endsWith_other b "TUSD" "USDC") by (reflexivity || discriminate).
        rewrite (endsWith_other b "TUSD" "BUSD") by (reflexivity || discriminate).
        cbn [andb].
        destruct (MjsSymbols.endsWith (b +:+ "TUSD") "FDUSD") eqn:E;
          [apply Hfd in E; discriminate E|].
        cbn [andb]. rewrite Hhit. by rewrite Hbase. }
    split; [exact Hsplit|].
    intros exchange. unfold MjsSymbols.coinapiSymbolIdFor. cbv zeta. by rewrite Hsplit.
Qed.

Lemma splitBaseQuote_round_trip_witness :
  MjsSymbols.splitBaseQuote ("BTC" +:+ "FDUSD")
    = {| MjsSymbols.base := "BTC"; MjsSymbols.quote := "FDUSD" |} /\
  forall exchange,
    MjsSymbols.coinapiSymbolIdFor exchange ("BTC" +:+ "FDUSD")
      = exchange +:+ "_PERP_" +:+ "BTC" +:+ "_" +:+ "FDUSD".
Proof.
  apply (proj2 splitBaseQuote_round_trip "BTC"%string "FDUSD"%string).
  - intros E. discriminate E.
  - right. right. right. left. reflexivity.
Defined.
